(** * sunraster: axis resolution and exposure-time correction

    A shallow embedding of [sunraster/raster.py] and
    [sunraster/spectrogram_sequence.py].  Python exceptions are values of
    [exn] carried by the [result] monad; numpy arrays are a shape together
    with an element function; the element type and its division and
    multiplication are parameters, instantiated further down with exact
    rationals and with IEEE binary64. *)

From Stdlib Require Import Ascii String ZArith QArith Floats Lia.
From stdpp Require Import base option list strings gmap.

Set Default Proof Using "Type".
Local Open Scope nat_scope.

(** ** Exceptions *)

Inductive exn : Type :=
| ValueError (msg : string)
| NameError (msg : string)
| AttributeError (msg : string)
| IndexError (msg : string)
| KeyError (key : string)
| TypeError (msg : string).

Inductive result (A : Type) : Type :=
| Ok (a : A)
| Raise (e : exn).
Arguments Ok {A} a.
Arguments Raise {A} e.

Global Instance result_ret : MRet result := fun A a => Ok a.
Global Instance result_bind : MBind result := fun A B f m =>
  match m with
  | Ok a => f a
  | Raise e => Raise e
  end.

Definition is_ok {A} (r : result A) : bool :=
  match r with Ok _ => true | Raise _ => false end.

(** [[f(x) for x in xs]]: the comprehension stops at the first exception. *)
Fixpoint comprehension {A B} (f : A -> result B) (xs : list A) : result (list B) :=
  match xs with
  | [] => Ok []
  | x :: xs' => y ← f x; ys ← comprehension f xs'; Ok (y :: ys)
  end.

(** [l[i]] on a list and [t[i]] on a tuple, for [i] not negative. *)
Definition getitem {A} (l : list A) (i : nat) : result A :=
  match l !! i with
  | Some x => Ok x
  | None => Raise (IndexError "list index out of range")
  end.

Definition tuple_getitem {A} (t : list A) (i : nat) : result A :=
  match t !! i with
  | Some x => Ok x
  | None => Raise (IndexError "tuple index out of range")
  end.

(** ** Physical units *)

Module units.

(** Modelled from the spec: the unit algebra ([astropy.units]) is an
    external collaborator, "an opaque value type supporting multiply,
    divide, decompose-to-base-units and equality".  A unit is the finite
    map from its irreducible base units to their integer powers; the
    numerical scale of a unit is untouched by every operation used here
    and is left out. *)
Abbreviation Unit := (gmap string Z).

Definition power_sum (a b : option Z) : option Z :=
  match a, b with
  | Some x, Some y => if decide (x + y = 0)%Z then None else Some (x + y)%Z
  | Some x, None => Some x
  | None, Some y => Some y
  | None, None => None
  end.

Definition mul (U V : Unit) : Unit := merge power_sum U V.
Definition inv (U : Unit) : Unit := Z.opp <$> U.
Definition div (U V : Unit) : Unit := mul U (inv V).

(** [U.decompose()] keeps the bases whose power is not zero. *)
Definition decompose (U : Unit) : Unit := filter (fun kv => kv.2 ≠ 0%Z) U.
Definition bases (U : Unit) : gset string := dom U.

(** [U == V] compares the physical content of the two units. *)
Definition eq (U V : Unit) : Prop := decompose U = decompose V.

(** The power of base [b] in [U] (zero when absent). *)
Definition power (b : string) (U : Unit) : Z := default 0%Z (U !! b).

Definition s : Unit := {[ "s" := 1%Z ]}.
Definition photon : Unit := {[ "ph" := 1%Z ]}.

(** [u.s in U.decompose().bases] *)
Definition s_in_bases (U : Unit) : bool :=
  bool_decide ("s" ∈ bases (decompose U)).

(** A unit "includes inverse time" when seconds occur with a negative
    power, and lacks it otherwise. *)
Definition lacks_inverse_time (U : Unit) : Prop := (0 <= power "s" U)%Z.

End units.

(** ** numpy arrays *)

Module np.
Section Arrays.
Context {num : Type}.

(** An n-dimensional array: its shape and the element at each index. *)
Record ndarray : Type := NdArray {
  shape : list nat;
  item : list nat -> num
}.

Definition ndim (a : ndarray) : nat := length (shape a).

(** [idx] addresses an element of an array of shape [shp]. *)
Definition valid_index (shp idx : list nat) : Prop :=
  Forall2 (fun i d => i < d) idx shp.

(** What [.value] of a quantity can be: a Python scalar or an array. *)
Inductive value : Type :=
| PyScalar (x : num)
| Array (a : ndarray).

Definition isscalar (v : value) : bool :=
  match v with PyScalar _ => true | Array _ => false end.

(** Broadcasting of two shapes, written on the reversed shapes so that
    the trailing dimensions are aligned. *)
Fixpoint broadcast_rev (sa sb : list nat) : option (list nat) :=
  match sa, sb with
  | [], _ => Some sb
  | _, [] => Some sa
  | x :: sa', y :: sb' =>
      if x =? y then cons x <$> broadcast_rev sa' sb'
      else if x =? 1 then cons y <$> broadcast_rev sa' sb'
      else if y =? 1 then cons x <$> broadcast_rev sa' sb'
      else None
  end.

Definition broadcast_shapes (sa sb : list nat) : option (list nat) :=
  reverse <$> broadcast_rev (reverse sa) (reverse sb).

(** The index into an operand of shape [shp] that a result index [idx]
    reads: leading result axes the operand lacks are dropped and an axis
    of length one is read at position zero. *)
Definition operand_index (shp idx : list nat) : list nat :=
  zip_with (fun d i => if d =? 1 then 0 else i) shp
           (drop (length idx - length shp) idx).

Definition broadcast_error : exn :=
  ValueError "operands could not be broadcast together".

(** [a op b] for two arrays. *)
Definition binop (op : num -> num -> num) (a b : ndarray) : result ndarray :=
  match broadcast_shapes (shape a) (shape b) with
  | None => Raise broadcast_error
  | Some shp =>
      Ok {| shape := shp;
            item := fun idx => op (item a (operand_index (shape a) idx))
                                  (item b (operand_index (shape b) idx)) |}
  end.

(** [a op v] for an array and a scalar or an array. *)
Definition array_op (op : num -> num -> num) (a : ndarray) (v : value)
  : result ndarray :=
  match v with
  | PyScalar t => Ok {| shape := shape a; item := fun idx => op (item a idx) t |}
  | Array b => binop op a b
  end.

(** [a[:, np.newaxis]] for [k = 1] and [a[:, np.newaxis, np.newaxis]] for
    [k = 2]: [k] new axes of length one after the first axis. *)
Definition newaxes_after_first (k : nat) (a : ndarray) : result ndarray :=
  match shape a with
  | [] => Raise (IndexError "too many indices for array")
  | n :: rest =>
      Ok {| shape := n :: replicate k 1 ++ rest;
            item := fun idx =>
              match idx with
              | i :: r => item a (i :: drop k r)
              | [] => item a []
              end |}
  end.

(** A one- and a two-dimensional array from (nested) lists. *)
Definition array1 (d : num) (l : list num) : ndarray :=
  {| shape := [length l];
     item := fun idx => match idx with [i] => nth i l d | _ => d end |}.

Definition array2 (d : num) (rows : list (list num)) : ndarray :=
  {| shape := [length rows; length (hd [] rows)];
     item := fun idx =>
       match idx with [i; j] => nth j (nth i rows []) d | _ => d end |}.

End Arrays.
Arguments ndarray : clear implicits.
Arguments value : clear implicits.
End np.

(** ** raster.py *)

Module raster.
Import units.

(** Custom error messages. *)
Definition APPLY_EXPOSURE_TIME_ERROR : string :=
  "Exposure time correction has probably already " +:+
  "been applied since the unit already includes " +:+
  "inverse time. To apply exposure time correction " +:+
  "anyway, set 'force' kwarg to True.".
Definition UNDO_EXPOSURE_TIME_ERROR : string :=
  "Exposure time correction has probably already " +:+
  "been undone since the unit does not include " +:+
  "inverse time. To undo exposure time correction " +:+
  "anyway, set 'force' kwarg to True.".
Definition AXIS_NOT_FOUND_ERROR : string :=
  " axis not found. If in extra_coords, axis name must be supported: ".

(** [str.upper], [str.lower] and [str.capitalize] on ASCII text. *)
Definition ascii_upper (c : ascii) : ascii :=
  let n := nat_of_ascii c in
  if (97 <=? n) && (n <=? 122) then ascii_of_nat (n - 32) else c.
Definition ascii_lower (c : ascii) : ascii :=
  let n := nat_of_ascii c in
  if (65 <=? n) && (n <=? 90) then ascii_of_nat (n + 32) else c.
Fixpoint str_map (f : ascii -> ascii) (s : string) : string :=
  match s with
  | EmptyString => EmptyString
  | String c s' => String (f c) (str_map f s')
  end.
Definition upper (s : string) : string := str_map ascii_upper s.
Definition capitalize (s : string) : string :=
  match s with
  | EmptyString => EmptyString
  | String c s' => String (ascii_upper c) (str_map ascii_lower s')
  end.

(** [NAMES += [name.upper() for name in NAMES]] followed by
    [NAMES += [name.capitalize() for name in NAMES]]. *)
Definition with_case_variants (names : list string) : list string :=
  let names := names ++ (upper <$> names) in
  names ++ (capitalize <$> names).

(** Supported coordinate names for coordinate properties. *)
Definition SUPPORTED_LONGITUDE_NAMES : list string :=
  with_case_variants [".lon"; "longitude"; "lon"].
Definition SUPPORTED_LATITUDE_NAMES : list string :=
  with_case_variants [".lat"; "latitude"; "lat"].
Definition SUPPORTED_SPECTRAL_NAMES : list string :=
  with_case_variants ["em.wl"; "em.energy"; "em.freq"; "wavelength"; "energy";
                      "frequency"; "freq"; "lambda"].
Definition SUPPORTED_TIME_NAMES : list string :=
  with_case_variants ["time"].
Definition SUPPORTED_EXPOSURE_NAMES : list string :=
  with_case_variants ["exposure time"; "exposure_time"; "exposure times";
                      "exposure_times"; "exp time"; "exp_time"; "exp times";
                      "exp_times"].

(** The names the module binds to lists of supported names; a name that is
    read without being bound here raises [NameError]. *)
Definition module_globals : gmap string (list string) :=
  list_to_map [
    ("SUPPORTED_LONGITUDE_NAMES", SUPPORTED_LONGITUDE_NAMES);
    ("SUPPORTED_LATITUDE_NAMES", SUPPORTED_LATITUDE_NAMES);
    ("SUPPORTED_SPECTRAL_NAMES", SUPPORTED_SPECTRAL_NAMES);
    ("SUPPORTED_TIME_NAMES", SUPPORTED_TIME_NAMES);
    ("SUPPORTED_EXPOSURE_NAMES", SUPPORTED_EXPOSURE_NAMES)
  ].

Definition name_error (name : string) : exn :=
  NameError ("name '" +:+ name +:+ "' is not defined").

Definition load_global (name : string) : result (list string) :=
  match module_globals !! name with
  | Some v => Ok v
  | None => Raise (name_error name)
  end.

(** [f"{names}"]: the [repr] of a list of strings. *)
Fixpoint join (sep : string) (l : list string) : string :=
  match l with
  | [] => EmptyString
  | [x] => x
  | x :: l' => x +:+ sep +:+ join sep l'
  end.
Definition repr_str (s : string) : string := "'" +:+ s +:+ "'".
Definition repr_list (l : list string) : string :=
  "[" +:+ join ", " (repr_str <$> l) +:+ "]".

(** [sub in s] for two strings. *)
Fixpoint str_in (sub s : string) : bool :=
  String.prefix sub s ||
  match s with
  | EmptyString => false
  | String _ s' => str_in sub s'
  end.

(** Where a coordinate lives: ["wcs"] or ["extra_coords"]. *)
Inductive coord_loc : Type := wcs | extra_coords_loc.

(** [sum] of a list of booleans, and the position [np.arange(n)[mask]]
    selects when exactly one entry of the mask is set. *)
Definition bool_sum (mask : list bool) : nat :=
  sum_list ((fun b : bool => if b then 1 else 0) <$> mask).
Fixpoint mask_index (mask : list bool) : nat :=
  match mask with
  | [] => 0
  | true :: _ => 0
  | false :: mask' => S (mask_index mask')
  end.

Section Raster.
Context {num : Type} (ndiv nmul : num -> num -> num).
(** Coordinate values are quantities of the unit library;
    [to_s_value q] is [q.to(u.s).value]. *)
Context {Quantity : Type} (to_s_value : Quantity -> result (np.value num)).

Inductive coord_axis : Type :=
| axis_none
| axis_int (n : nat)
| axis_tuple (ns : list nat).

(** An entry of [extra_coords]: [{"axis": ..., "value": ...}]. *)
Record extra_coord : Type := ExtraCoord {
  axis : coord_axis;
  value : Quantity
}.

(** The attributes of a [Raster] that the code below reads.  The mask, the
    metadata and the missing-axes markers are only ever handed on unchanged
    and are left out; of the WCS, the list of world axis physical types and
    the evaluation of world coordinates are kept. *)
Record Raster : Type := mkRaster {
  data : np.ndarray num;
  uncertainty : option (np.ndarray num);
  unit : Unit;
  world_axis_physical_types : list string;
  axis_world_coords : string -> Quantity;
  extra_coords : option (gmap string extra_coord)
}.

(** [self.dimensions]: the length of each pixel axis. *)
Definition dimensions (self : Raster) : list nat := np.shape (data self).

(** The [while] loop of [_find_axis_name], over the names from position
    [i] on; it stops at the first name that binds. *)
Fixpoint find_axis_name_from (world_types : list string)
    (extra_coord_keys : option (gset string)) (supported_names : list string)
  : option (string * coord_loc) :=
  match supported_names with
  | [] => None
  | name :: rest =>
      (* Check WCS. *)
      let wcs_name_index := (fun world_axis_type => str_in name world_axis_type)
                              <$> world_types in
      if bool_sum wcs_name_index =? 1 then
        let wcs_name_index := mask_index wcs_name_index in
        Some (nth wcs_name_index world_types EmptyString, wcs)
      else
        (* If label not contained in WCS, check extra coords. *)
        match extra_coord_keys with
        | Some keys =>
            if bool_decide (name ∈ keys) then Some (name, extra_coords_loc)
            else find_axis_name_from world_types extra_coord_keys rest
        | None => find_axis_name_from world_types extra_coord_keys rest
        end
  end.

Definition _find_axis_name (self : Raster) (supported_names : list string)
  : option (string * coord_loc) :=
  find_axis_name_from (world_axis_physical_types self)
                      (dom <$> extra_coords self) supported_names.

(** The bindings [__init__] stores. *)
Definition _longitude_name (self : Raster) := _find_axis_name self SUPPORTED_LONGITUDE_NAMES.
Definition _latitude_name (self : Raster) := _find_axis_name self SUPPORTED_LATITUDE_NAMES.
Definition _spectral_name (self : Raster) := _find_axis_name self SUPPORTED_SPECTRAL_NAMES.
Definition _time_name (self : Raster) := _find_axis_name self SUPPORTED_TIME_NAMES.
Definition _exposure_time_name (self : Raster) := _find_axis_name self SUPPORTED_EXPOSURE_NAMES.

Definition _get_axis_coord (self : Raster) (axis_name : string) (loc : coord_loc)
  : result Quantity :=
  match loc with
  | wcs => Ok (axis_world_coords self axis_name)
  | extra_coords_loc =>
      match extra_coords self with
      | None => Raise (TypeError "'NoneType' object is not subscriptable")
      | Some coords =>
          match coords !! axis_name with
          | Some entry => Ok (value entry)
          | None => Raise (KeyError axis_name)
          end
      end
  end.

(** A coordinate property: [role] is the text the message starts with and
    [global] the name of the list the message reads. *)
Definition coord_property (role global : string)
    (binding : option (string * coord_loc)) (self : Raster) : result Quantity :=
  match binding with
  | None =>
      let msg := role +:+ AXIS_NOT_FOUND_ERROR in
      names ← load_global global;
      Raise (ValueError (msg +:+ repr_list names))
  | Some (axis_name, loc) => _get_axis_coord self axis_name loc
  end.

Definition spectral (self : Raster) : result Quantity :=
  coord_property "Spectral" "SUPPORTED_SPECTRAL_NAMES" (_spectral_name self) self.
Definition time (self : Raster) : result Quantity :=
  coord_property "Time" "SUPPORTED_TIMES_NAMES" (_time_name self) self.
Definition exposure_time (self : Raster) : result Quantity :=
  coord_property "Exposure time" "SUPPORTED_EXPOSURE_NAMES" (_exposure_time_name self) self.
Definition lon (self : Raster) : result Quantity :=
  coord_property "Longitude" "SUPPORTED_LONGITUDE_NAMES" (_longitude_name self) self.
Definition lat (self : Raster) : result Quantity :=
  coord_property "Latitude" "SUPPORTED_LATITUDE_NAME" (_latitude_name self) self.

Definition _calculate_exposure_time_correction
    (old_data_arrays : list (np.ndarray num)) (old_unit : Unit)
    (exposure_time : np.value num) (force : bool)
  : result (list (np.ndarray num) * Unit) :=
  if negb force && s_in_bases old_unit then
    Raise (ValueError APPLY_EXPOSURE_TIME_ERROR)
  else
    new_data_arrays ← comprehension
      (fun old_data => np.array_op ndiv old_data exposure_time) old_data_arrays;
    let new_unit := div old_unit s in
    Ok (new_data_arrays, new_unit).

Definition _uncalculate_exposure_time_correction
    (old_data_arrays : list (np.ndarray num)) (old_unit : Unit)
    (exposure_time : np.value num) (force : bool)
  : result (list (np.ndarray num) * Unit) :=
  if negb force && s_in_bases (mul old_unit s) then
    Raise (ValueError UNDO_EXPOSURE_TIME_ERROR)
  else
    new_data_arrays ← comprehension
      (fun old_data => np.array_op nmul old_data exposure_time) old_data_arrays;
    let new_unit := mul old_unit s in
    Ok (new_data_arrays, new_unit).

(** [len(self.dimensions.shape)] is the rank of the one-dimensional
    quantity [self.dimensions], whatever the rank of the data. *)
Definition DIMENSIONS_ERROR : string :=
  "Raster dimensions must be 2 or 3. Dimensions=1".

(** The exposure time reshaped so that it broadcasts with the data. *)
Definition reshape_exposure_time (self : Raster) (exposure_time_s : np.value num)
  : result (np.value num) :=
  match exposure_time_s with
  | np.PyScalar _ => Ok exposure_time_s
  | np.Array e =>
      match length (dimensions self) with
      | 1 => Ok exposure_time_s
      | 2 => e' ← np.newaxes_after_first 1 e; Ok (np.Array e')
      | 3 => e' ← np.newaxes_after_first 2 e; Ok (np.Array e')
      | _ => Raise (ValueError DIMENSIONS_ERROR)
      end
  end.

(** [self.uncertainty.array] *)
Definition uncertainty_array (self : Raster) : result (np.ndarray num) :=
  match uncertainty self with
  | Some array => Ok array
  | None => Raise (AttributeError "'NoneType' object has no attribute 'array'")
  end.

(** The new [Raster] is built from the same WCS and from the extra
    coordinates converted back to the input format of the constructor; the
    constructor, which is the cube library's, is taken to store them as
    they were. *)
Definition apply_exposure_time_correction (self : Raster) (undo force : bool)
  : result Raster :=
  q ← exposure_time self;
  exposure_time_s ← to_s_value q;
  exposure_time_s ← reshape_exposure_time self exposure_time_s;
  (* Based on value on undo kwarg, apply or remove exposure time correction. *)
  array ← uncertainty_array self;
  '(new_data_arrays, new_unit) ←
    (if undo then
       _uncalculate_exposure_time_correction
         [data self; array] (unit self) exposure_time_s force
     else
       _calculate_exposure_time_correction
         [data self; array] (unit self) exposure_time_s force);
  (* Return new instance of Raster with correction applied/undone. *)
  new_data ← getitem new_data_arrays 0;
  new_uncertainty ← getitem new_data_arrays 1;
  Ok {| data := new_data;
        uncertainty := Some new_uncertainty;
        unit := new_unit;
        world_axis_physical_types := world_axis_physical_types self;
        axis_world_coords := axis_world_coords self;
        extra_coords := extra_coords self |}.

End Raster.

Section WorldTypes.
Context {num Quantity : Type}.
Local Abbreviation Raster := (Raster (num := num) (Quantity := Quantity)).

(** The names the module imports.  A global name that is read without
    being imported or defined raises [NameError]. *)
Definition module_imports : list string :=
  ["textwrap"; "u"; "ndcube"; "np"; "NDCube"; "NDCubeSequence";
   "convert_extra_coords_dict_to_input_format"; "utils"].

Definition load_module (name : string) : result Datatypes.unit :=
  if bool_decide (name ∈ module_imports) then Ok tt else Raise (name_error name).

Definition NOT_UNIQUE_ERROR : string := "axis name provided not unique.".

(** [utils.cube.get_axis_number_from_axis_name] followed by
    [utils.wcs.get_dependent_data_axes]: the data axes a world type of the
    WCS depends on; they raise [ValueError] for a name that is no world
    type of the WCS. *)
Context (dependent_data_axes : Raster -> string -> result coord_axis).

(** One turn of the loop of [_world_types_to_pixel_axes].  The local
    variable [dependent_axes] comes in as the earlier turns left it ([None]
    while it is unbound) and goes out beside the entry for this name. *)
Definition world_type_to_pixel_axes (self : Raster) (include_extra_coords : bool)
    (dependent_axes : option coord_axis) (name : string)
  : result (coord_axis * option coord_axis) :=
  (* Check WCS an extra coords for physical type. *)
  '(name_in_wcs, dependent_axes) ←
    match dependent_data_axes self name with
    | Ok axes => Ok (true, Some axes)
    | Raise (ValueError _) => Ok (false, dependent_axes)
    | Raise e => Raise e
    end;
  (* Check extra_coords for axis name if user wants to check extra coords. *)
  dependent_axes ←
    (if include_extra_coords then
       match extra_coords self with
       | None => Raise (AttributeError "'NoneType' object has no attribute 'keys'")
       | Some coords =>
           let w_axis_from_extra_coords :=
             (fun key => str_in name key) <$> elements (dom coords) in
           let n_instances_in_extra_coords := bool_sum w_axis_from_extra_coords in
           if (name_in_wcs && (0 <? n_instances_in_extra_coords))
              || (1 <? n_instances_in_extra_coords) then
             Raise (ValueError NOT_UNIQUE_ERROR)
           else if n_instances_in_extra_coords =? 1 then
             match coords !! name with
             | Some entry => Ok (Some (axis entry))
             | None => Raise (KeyError name)
             end
           else Ok dependent_axes
       end
     else Ok dependent_axes);
  (* Enter axes into list. *)
  axes ← match dependent_axes with
         | Some axes => Ok axes
         | None =>
             Raise (NameError "local variable 'dependent_axes' referenced before assignment")
         end;
  _ ← load_module "numbers";
  match axes with
  | axis_int _ => Ok (axes, dependent_axes)
  | axis_tuple [n] => Ok (axis_int n, dependent_axes)
  | axis_tuple _ => Ok (axes, dependent_axes)
  | axis_none => Raise (TypeError "object of type 'NoneType' has no len()")
  end.

Fixpoint world_types_to_pixel_axes_from (self : Raster) (include_extra_coords : bool)
    (dependent_axes : option coord_axis) (axes_names : list string)
  : result (list coord_axis) :=
  match axes_names with
  | [] => Ok []
  | name :: rest =>
      '(axes, dependent_axes) ←
        world_type_to_pixel_axes self include_extra_coords dependent_axes name;
      others ← world_types_to_pixel_axes_from self include_extra_coords dependent_axes rest;
      Ok (axes :: others)
  end.

Definition _world_types_to_pixel_axes (self : Raster) (axes_names : list string)
    (include_extra_coords : bool) : result (list coord_axis) :=
  let wcs_names := world_axis_physical_types self in
  (* Parse user input. *)
  let axes_names := match axes_names with [] => wcs_names | _ => axes_names end in
  world_types_to_pixel_axes_from self include_extra_coords None axes_names.

End WorldTypes.

(** The [RasterSequence] of raster.py, a sequence of [Raster]s. *)
Module sequence.
Section RasterSequence.
Context {num : Type} (ndiv nmul : num -> num -> num).
Context {Quantity : Type} (to_s_value : Quantity -> result (np.value num)).
Context {Meta : Type}.
Local Abbreviation Raster := (Raster (num := num) (Quantity := Quantity)).
Local Abbreviation cube_correction :=
  (apply_exposure_time_correction ndiv nmul to_s_value).

Record RasterSequence : Type := mkRasterSequence {
  data : list Raster;
  _common_axis : option nat;
  meta : Meta
}.

(** The parameters of [__init__(self, data_list, slit_step_axis=0,
    meta=None)]; a call with any other keyword is a [TypeError]. *)
Definition init_parameters : list string := ["data_list"; "slit_step_axis"; "meta"].

Definition check_keywords (keywords : list string) : result Datatypes.unit :=
  match filter (fun k => k ∉ init_parameters) keywords with
  | [] => Ok tt
  | k :: _ =>
      Raise (TypeError ("__init__() got an unexpected keyword argument '" +:+ k +:+ "'"))
  end.

(** [RasterSequence.apply_exposure_time_correction].  The result pairs
    what the call returns ([None] for no copy) with the sequence as the
    call leaves it; an exception leaves the sequence as it was. *)
Definition apply_exposure_time_correction (self : RasterSequence)
    (undo copy force : bool) : result (option RasterSequence * RasterSequence) :=
  converted_data_list ← comprehension
    (fun cube => cube_correction cube undo force) (data self);
  if copy then
    (* RasterSequence(converted_data_list, meta=self.meta, common_axis=self._common_axis) *)
    _ ← check_keywords ["meta"; "common_axis"];
    Ok (Some {| data := converted_data_list; _common_axis := Some 0; meta := meta self |},
        self)
  else
    Ok (None, {| data := converted_data_list; _common_axis := _common_axis self;
                 meta := meta self |}).

End RasterSequence.
End sequence.

End raster.

(** ** spectrogram_sequence.py *)

Module spectrogram_sequence.

Definition RASTER_AXIS_NAME : string := "raster scan".
Definition SNS_AXIS_NAME : string := "temporal".
Definition SLIT_STEP_AXIS_NAME : string := "slit step".
Definition SLIT_AXIS_NAME : string := "position along slit".
Definition SPECTRAL_AXIS_NAME : string := "spectral".

Definition INCONSISTENT_AXES_ERROR : string :=
  "WCS, missing_axes, and/or common_axis not consistent.".

(** One entry of a slicing item: an integer ([numbers.Integral]) or a
    slice. *)
Inductive axis_item : Type :=
| item_int (i : Z)
| item_slice (start stop step : option Z).

Definition is_integral (x : axis_item) : bool :=
  match x with item_int _ => true | item_slice _ _ _ => false end.

(** A slicing item: a single entry or a tuple of entries. *)
Inductive index : Type :=
| index_single (x : axis_item)
| index_tuple (items : list axis_item).

(** [arr[i] = x] on an array of length [length arr]. *)
Definition setitem {A} (arr : list A) (i : nat) (x : A) : result (list A) :=
  if i <? length arr then Ok (<[i := x]> arr)
  else Raise (IndexError "index out of bounds").

(** [arr[indices] = x] for an array of positions. *)
Definition setitems {A} (arr : list A) (indices : list nat) (x : A)
  : result (list A) :=
  if forallb (fun i => i <? length arr) indices then
    Ok (foldl (fun arr i => <[i := x]> arr) arr indices)
  else Raise (IndexError "index out of bounds").

(** [arr[mask]] for a boolean mask. *)
Fixpoint mask_select {A} (arr : list A) (mask : list bool) : list A :=
  match arr, mask with
  | x :: arr', b :: mask' =>
      if b then x :: mask_select arr' mask' else mask_select arr' mask'
  | _, _ => []
  end.

(** [np.where(np.array(world_types) == name)]: the positions whose world
    type is the bound name; comparing with [None] matches nowhere. *)
Definition where_equal (world_types : list string) (name : option string)
  : list nat :=
  match name with
  | None => []
  | Some n =>
      omap (fun '(i, t) => if bool_decide (t = n) then Some i else None)
           (imap pair world_types)
  end.

Definition count_true (w : list bool) : nat :=
  length (filter (fun b => b = true) w).

Definition _slice_scan_axis_types (single_scan_axes_types : list (option string))
    (item : list axis_item) : result (list (option string)) :=
  (* Get boolean axes indices of axis items that aren't int,
     i.e. axes that are not sliced away. *)
  let not_int_axis_items := (fun axis_item => negb (is_integral axis_item)) <$> item in
  (* Add boolean indices for axes not included in item. *)
  let not_int_axis_items := not_int_axis_items ++
    replicate (length single_scan_axes_types - length not_int_axis_items) true in
  match not_int_axis_items with
  | [] => Raise (IndexError "arrays used as indices must be of integer (or boolean) type")
  | _ =>
      if length not_int_axis_items =? length single_scan_axes_types then
        Ok (mask_select single_scan_axes_types not_int_axis_items)
      else Raise (IndexError "boolean index did not match indexed array")
  end.

Section Sequences.
(** The spectrogram cubes ([sunraster.spectrogram]) are known here through
    the three attributes the sequence code reads: [data.ndim],
    [world_axis_physical_types] and [_spectral_name], the bound spectral
    name (a string, or [None]). *)
Context {Cube Meta : Type}.
Context (ndim : Cube -> nat).
Context (world_axis_physical_types : Cube -> list string).
Context (_spectral_name : Cube -> option string).

Record SpectrogramSequence : Type := mkSpectrogramSequence {
  data : list Cube;
  _common_axis : option nat;
  meta : Meta
}.

(** A [RasterSequence] is a [SpectrogramSequence] with the instrument axis
    types of a single scan; an entry [None] is an axis without a type. *)
Record RasterSequence : Type := mkRasterSequence {
  base : SpectrogramSequence;
  _single_scan_instrument_axes_types : list (option string)
}.

(** What slicing a sequence can return. *)
Inductive pyobject : Type :=
| obj_cube (c : Cube)
| obj_spectrogram_sequence (s : SpectrogramSequence)
| obj_raster_sequence (r : RasterSequence).

(** [RasterSequence.__init__] *)
Definition RasterSequence_init (data_list : list Cube) (common_axis : option nat)
    (meta : Meta) : result RasterSequence :=
  data0 ← getitem data_list 0;
  (* Determine axis indices of instrument axis types. *)
  let types : list (option string) := replicate (ndim data0) None in
  (* Slit step axis name. *)
  types ← match common_axis with
          | Some common_axis => setitem types common_axis (Some SLIT_STEP_AXIS_NAME)
          | None => Ok types
          end;
  (* Spectral axis name. *)
  let spectral_raster_index :=
    where_equal (world_axis_physical_types data0) (_spectral_name data0) in
  types ← setitems types spectral_raster_index (Some SPECTRAL_AXIS_NAME);
  (* Slit axis name. *)
  let w := (fun t : option string => bool_decide (t = None)) <$> types in
  if 1 <? count_true w then Raise (ValueError INCONSISTENT_AXES_ERROR)
  else
    let types := (fun t : option string =>
                    match t with None => Some SLIT_AXIS_NAME | Some _ => t end)
                   <$> types in
    Ok {| base := {| data := data_list; _common_axis := common_axis; meta := meta |};
          _single_scan_instrument_axes_types := types |}.

(** [SpectrogramSequence.__getitem__], inherited from the cube-sequence
    library, is a parameter of the slicer. *)
Context (parent_getitem : RasterSequence -> index -> result pyobject).

(** [_SequenceSlicer.__getitem__] *)
Definition SequenceSlicer_getitem (seq : RasterSequence) (item : index)
  : result pyobject :=
  result ← parent_getitem seq item;
  match item, result with
  | index_tuple items, obj_raster_sequence r =>
      match _common_axis (base seq) with
      | None =>
          Raise (TypeError "'>' not supported between instances of 'int' and 'NoneType'")
      | Some common_axis =>
          (* If slit step axis sliced out, return SpectrogramSequence
             as the spectrogram cubes no longer represent a raster. *)
          let reslice :=
            types ← _slice_scan_axis_types
                      (_single_scan_instrument_axes_types seq) (drop 1 items);
            Ok (obj_raster_sequence
                  {| base := base r; _single_scan_instrument_axes_types := types |}) in
          if common_axis <? length items then
            x ← tuple_getitem (drop 1 items) common_axis;
            if is_integral x then
              Ok (obj_spectrogram_sequence
                    {| data := data (base r); _common_axis := None;
                       meta := meta (base r) |})
            else reslice
          else reslice
      end
  | _, _ => Ok result
  end.

(** [RasterSequence.raster_instrument_axes_types] and
    [RasterSequence.SnS_instrument_axes_types] *)
Definition raster_instrument_axes_types (self : RasterSequence) : list (option string) :=
  Some RASTER_AXIS_NAME :: _single_scan_instrument_axes_types self.

Definition SnS_instrument_axes_types (self : RasterSequence) : list (option string) :=
  Some SNS_AXIS_NAME ::
  mask_select (_single_scan_instrument_axes_types self)
    ((fun t : option string => negb (bool_decide (t = Some SLIT_STEP_AXIS_NAME)))
       <$> _single_scan_instrument_axes_types self).

(** The exposure-time correction of one cube is the cube's own method. *)
Context (cube_apply_exposure_time_correction : Cube -> bool -> bool -> result Cube).

(** [SpectrogramSequence.apply_exposure_time_correction], on a plain
    spectrogram sequence and, inherited, on a raster sequence, where
    [self.__class__(...)] runs [RasterSequence.__init__].  The result pairs
    what the call returns ([None] for no copy) with the sequence as the
    call leaves it; an exception leaves the sequence as it was. *)
Definition SpectrogramSequence_apply_exposure_time_correction
    (self : SpectrogramSequence) (undo copy force : bool)
  : result (option SpectrogramSequence * SpectrogramSequence) :=
  converted_data_list ← comprehension
    (fun cube => cube_apply_exposure_time_correction cube undo force) (data self);
  if copy then
    Ok (Some {| data := converted_data_list; _common_axis := _common_axis self;
                meta := meta self |}, self)
  else
    Ok (None, {| data := converted_data_list; _common_axis := _common_axis self;
                 meta := meta self |}).

Definition RasterSequence_apply_exposure_time_correction
    (self : RasterSequence) (undo copy force : bool)
  : result (option RasterSequence * RasterSequence) :=
  converted_data_list ← comprehension
    (fun cube => cube_apply_exposure_time_correction cube undo force) (data (base self));
  if copy then
    new ← RasterSequence_init converted_data_list (_common_axis (base self))
                              (meta (base self));
    Ok (Some new, self)
  else
    Ok (None,
        {| base := {| data := converted_data_list;
                      _common_axis := _common_axis (base self);
                      meta := meta (base self) |};
           _single_scan_instrument_axes_types := _single_scan_instrument_axes_types self |}).

(** [utils.sequence._slice_sequence_as_SnS] and the assignment of the
    attribute [_single_scan_instrument_axes_types] on what it returns. *)
Context {SnSResult : Type}.
Context (_slice_sequence_as_SnS : RasterSequence -> index -> result SnSResult).
Context (set_axes_types : SnSResult -> list (option string) -> SnSResult).

(** [_SnSSlicer.__getitem__] *)
Definition SnSSlicer_getitem (seq : RasterSequence) (item : index) : result SnSResult :=
  result ← _slice_sequence_as_SnS seq item;
  match item with
  | index_tuple items =>
      first ← tuple_getitem items 0;
      if negb (is_integral first) then
        types ← _slice_scan_axis_types (_single_scan_instrument_axes_types seq) items;
        Ok (set_axes_types result types)
      else Ok result
  | index_single _ => Ok result
  end.

End Sequences.

End spectrogram_sequence.

(** ** Vocabulary of the properties *)

Section Elementwise.
Context {num : Type}.

(** The arrays [A'] are the arrays [A] with [op _ t] applied to every
    element. *)
Definition elementwise (op : num -> num -> num) (t : num)
    (A A' : list (np.ndarray num)) : Prop :=
  Forall2 (fun a a' => np.shape a' = np.shape a /\
                       forall idx, np.item a' idx = op (np.item a idx) t) A A'.

(** The shapes let [a] be combined with the exposure time [T]: always for
    a scalar, and for an array when the two shapes broadcast. *)
Definition broadcastable (T : np.value num) (a : np.ndarray num) : Prop :=
  match T with
  | np.PyScalar _ => True
  | np.Array b => is_Some (np.broadcast_shapes (np.shape a) (np.shape b))
  end.

Global Instance broadcastable_dec (T : np.value num) (a : np.ndarray num) :
  Decision (broadcastable T a).
Proof. destruct T; simpl; apply _. Defined.

(** The exposure time [T] broadcasts to the shape of [a]: combining the two
    gives an array of the shape of [a]. *)
Definition broadcasts_to (T : np.value num) (a : np.ndarray num) : Prop :=
  match T with
  | np.PyScalar _ => True
  | np.Array b => np.broadcast_shapes (np.shape a) (np.shape b) = Some (np.shape a)
  end.

(** [a'] is [a] with [op] applied element by element to [a] and the
    exposure time [T]: every element meets the scalar, or the element of the
    array that broadcasting pairs it with, which for an array of the shape
    of [a] is the element at the same index. *)
Definition combined (op : num -> num -> num) (T : np.value num)
    (a a' : np.ndarray num) : Prop :=
  match T with
  | np.PyScalar t =>
      np.shape a' = np.shape a /\
      forall idx, np.item a' idx = op (np.item a idx) t
  | np.Array b =>
      np.broadcast_shapes (np.shape a) (np.shape b) = Some (np.shape a') /\
      (forall idx, np.valid_index (np.shape a') idx ->
         np.item a' idx = op (np.item a (np.operand_index (np.shape a) idx))
                             (np.item b (np.operand_index (np.shape b) idx))) /\
      (np.shape b = np.shape a ->
         forall idx, np.valid_index (np.shape a) idx ->
           np.item a' idx = op (np.item a idx) (np.item b idx))
  end.

(** [a'] is [a] with [op] applied to every element and the entry of the
    one-dimensional [e] at the element's first index. *)
Definition along_first_axis (op : num -> num -> num) (e a a' : np.ndarray num) : Prop :=
  np.shape a' = np.shape a /\
  forall i rest, np.valid_index (np.shape a) (i :: rest) ->
    np.item a' (i :: rest) = op (np.item a (i :: rest)) (np.item e [i]).

End Elementwise.

(** Every element of the exposure time is positive. *)
Definition positive (T : np.value Q) : Prop :=
  match T with
  | np.PyScalar t => (0 < t)%Q
  | np.Array b => forall idx, np.valid_index (np.shape b) idx -> (0 < np.item b idx)%Q
  end.

Section Resolution.
Context (world_types : list string) (keys : option (gset string)).

(** Exactly one entry of [l] satisfies [f], and it is [t] at position [k]. *)
Definition only_at {A} (f : A -> bool) (l : list A) (k : nat) (t : A) : Prop :=
  l !! k = Some t /\ f t = true /\
  forall j t', l !! j = Some t' -> f t' = true -> j = k.

(** Exactly one world type contains the synonym [name], and it is [t]. *)
Definition binds_wcs (name t : string) : Prop :=
  exists k, only_at (fun t => raster.str_in name t) world_types k t.

(** The synonym [name] is a key of the extra coordinates. *)
Definition in_keys (name : string) : Prop :=
  exists ks, keys = Some ks /\ name ∈ ks.

(** The binding the synonym [name] gives: the world type that alone
    contains it, or else the synonym itself as a key of the extra
    coordinates. *)
Definition binds (name : string) (b : string * raster.coord_loc) : Prop :=
  (b.2 = raster.wcs /\ binds_wcs name b.1) \/
  (b.2 = raster.extra_coords_loc /\ b.1 = name /\
   (~ exists t, binds_wcs name t) /\ in_keys name).

(** The synonym [name] gives no binding. *)
Definition unmatched (name : string) : Prop :=
  (~ exists t, binds_wcs name t) /\ ~ in_keys name.

End Resolution.

Section AxisTypes.
Import spectrogram_sequence.

(** The type of axis [k] before the slit axis is named: spectral where
    the world type is the spectral name, else slit step at the common
    axis, else none. *)
Definition label_before_slit (common_axis : option nat) (spectral_axes : list nat)
    (k : nat) : option string :=
  if bool_decide (k ∈ spectral_axes) then Some SPECTRAL_AXIS_NAME
  else if bool_decide (common_axis = Some k) then Some SLIT_STEP_AXIS_NAME
  else None.

(** The axes, out of [n], that are still without a type at that point. *)
Definition unlabeled_axes (n : nat) (common_axis : option nat)
    (spectral_axes : list nat) : list nat :=
  filter (fun k => label_before_slit common_axis spectral_axes k = None) (seq 0 n).

(** Position [k] survives slicing by [item]: it is not addressed at all or
    it is addressed by something that is not an integer. *)
Definition kept (item : list axis_item) (k : nat) : bool :=
  match item !! k with
  | Some x => negb (is_integral x)
  | None => true
  end.

(** The entries of [labels] at the positions that are kept, in order. *)
Definition kept_labels {A} (labels : list A) (item : list axis_item) : list A :=
  omap (fun k => if kept item k then labels !! k else None) (seq 0 (length labels)).

End AxisTypes.

(** ** Instances and example data *)

Module examples.
Import units.

(** Exact arithmetic: arrays of rationals. *)
Abbreviation Qarray := (np.ndarray Q).

(** IEEE binary64, the element type of numpy's [float64] arrays. *)
Abbreviation Farray := (np.ndarray float).

Definition counts : Qarray := np.array2 0%Q [[2%Q; 4%Q; 6%Q]; [8%Q; 10%Q; 12%Q]].
Definition errors : Qarray := np.array2 0%Q [[1%Q; 1%Q; 2%Q]; [2%Q; 3%Q; 3%Q]].
Definition exposures : Qarray := np.array1 0%Q [2%Q; 4%Q].

Definition one_float : Farray := np.array1 0%float [1%float].

(** A two-dimensional raster (time, wavelength) whose exposure times are an
    extra coordinate; quantities are taken to be in seconds already. *)
Definition exposure_coords : gmap string (raster.extra_coord (Quantity := np.value Q)) :=
  {[ "exposure time" := raster.ExtraCoord (raster.axis_int 0) (np.Array exposures) ]}.

Definition scan : raster.Raster (num := Q) (Quantity := np.value Q) :=
  raster.mkRaster counts (Some errors) photon ["time"; "em.wl"]
                  (fun _ => np.PyScalar 0%Q) (Some exposure_coords).

(** The same raster without an uncertainty. *)
Definition scan_without_uncertainty : raster.Raster (num := Q) (Quantity := np.value Q) :=
  raster.mkRaster counts None photon ["time"; "em.wl"]
                  (fun _ => np.PyScalar 0%Q) (Some exposure_coords).

(** A raster whose only world axis is spectral: no time, no latitude. *)
Definition spectrum : raster.Raster (num := Q) (Quantity := np.value Q) :=
  raster.mkRaster exposures None photon ["em.wl"]
                  (fun _ => np.PyScalar 0%Q) (Some ∅).

(** photon / s / s *)
Definition photon_per_s2 : Unit := div (div photon s) s.

(** For the sequences, a cube is known by its number of axes, its world
    axis physical types and its bound spectral name. *)
Record cube : Type := mkCube {
  cube_ndim : nat;
  cube_world_types : list string;
  cube_spectral_name : option string
}.

(** (slit step, position along slit, spectral) *)
Definition raster_cube : cube :=
  mkCube 3 ["custom:pos.helioprojective.lon"; "custom:pos.helioprojective.lat"; "em.wl"]
         (Some "em.wl").

(** (slit step, spectral): a raster of a single slit pixel. *)
Definition single_pixel_cube : cube := mkCube 2 ["time"; "em.wl"] (Some "em.wl").

Definition raster_labels : list (option string) :=
  [Some spectrogram_sequence.SLIT_STEP_AXIS_NAME;
   Some spectrogram_sequence.SLIT_AXIS_NAME;
   Some spectrogram_sequence.SPECTRAL_AXIS_NAME].

(** Two scans whose slit-step axis is the first cube axis. *)
Definition scans : spectrogram_sequence.RasterSequence (Cube := cube) (Meta := Datatypes.unit) :=
  spectrogram_sequence.mkRasterSequence
    (spectrogram_sequence.mkSpectrogramSequence [raster_cube; raster_cube] (Some 0) tt)
    raster_labels.

(** Two scans whose slit-step axis is the second cube axis. *)
Definition scans_stepping_second :
    spectrogram_sequence.RasterSequence (Cube := cube) (Meta := Datatypes.unit) :=
  spectrogram_sequence.mkRasterSequence
    (spectrogram_sequence.mkSpectrogramSequence [raster_cube; raster_cube] (Some 1) tt)
    [Some spectrogram_sequence.SLIT_AXIS_NAME;
     Some spectrogram_sequence.SLIT_STEP_AXIS_NAME;
     Some spectrogram_sequence.SPECTRAL_AXIS_NAME].

(** Indexing a sequence as the cube-sequence library does it: an integer in
    the first position selects that one cube, anything else gives a
    sequence of the same class.  The slicing of the cubes themselves is not
    followed. *)
Definition sequence_getitem
    (seq : spectrogram_sequence.RasterSequence (Cube := cube) (Meta := Datatypes.unit))
    (item : spectrogram_sequence.index)
  : result (spectrogram_sequence.pyobject (Cube := cube) (Meta := Datatypes.unit)) :=
  match item with
  | spectrogram_sequence.index_single (spectrogram_sequence.item_int i)
  | spectrogram_sequence.index_tuple (spectrogram_sequence.item_int i :: _) =>
      c ← getitem (spectrogram_sequence.data (spectrogram_sequence.base seq)) (Z.to_nat i);
      Ok (spectrogram_sequence.obj_cube c)
  | _ => Ok (spectrogram_sequence.obj_raster_sequence seq)
  end.

Definition all : spectrogram_sequence.axis_item :=
  spectrogram_sequence.item_slice None None None.

(** A four-dimensional raster whose exposure time is one scalar. *)
Definition hypercube : Qarray :=
  {| np.shape := [2; 1; 2; 3];
     np.item := fun idx => inject_Z (Z.of_nat (sum_list idx)) |}.

Definition scalar_exposure_coords : gmap string (raster.extra_coord (Quantity := np.value Q)) :=
  {[ "exposure time" := raster.ExtraCoord raster.axis_none (np.PyScalar 2%Q) ]}.

Definition stare : raster.Raster (num := Q) (Quantity := np.value Q) :=
  raster.mkRaster hypercube (Some hypercube) photon
    ["time"; "custom:pos.helioprojective.lat"; "custom:pos.helioprojective.lon"; "em.wl"]
    (fun _ => np.PyScalar 0%Q) (Some scalar_exposure_coords).

(** [scan] with the exposure-time correction applied. *)
Definition corrected_scan : raster.Raster (num := Q) (Quantity := np.value Q) :=
  match raster.apply_exposure_time_correction Qdiv Qmult Ok scan false false with
  | Ok out => out
  | Raise _ => scan
  end.

(** A raster sequence of raster.py. *)
Definition raster_py_scans :
    raster.sequence.RasterSequence (num := Q) (Quantity := np.value Q) (Meta := Datatypes.unit) :=
  raster.sequence.mkRasterSequence [scan; scan] (Some 0) tt.

(** The data axis of a world type: the position of the one world type that
    contains the name. *)
Definition wcs_axes (self : raster.Raster (num := Q) (Quantity := np.value Q))
    (name : string) : result raster.coord_axis :=
  match list_find (fun t => raster.str_in name t = true)
                  (raster.world_axis_physical_types self) with
  | Some (i, _) => Ok (raster.axis_tuple [i])
  | None => Raise (ValueError "axis name not found")
  end.

(** A cube correction that leaves the cube as it is, and one that fails on
    cubes of two axes. *)
Definition keep_cube (c : cube) (undo force : bool) : result cube := Ok c.

Definition reject_flat_cube (c : cube) (undo force : bool) : result cube :=
  if cube_ndim c =? 2 then Raise (ValueError "no exposure time") else Ok c.

Definition mixed_cubes :
    spectrogram_sequence.SpectrogramSequence (Cube := cube) (Meta := Datatypes.unit) :=
  spectrogram_sequence.mkSpectrogramSequence
    [raster_cube; single_pixel_cube; raster_cube] None tt.

(** Sit-and-stare slicing that returns the sequence itself, and the
    assignment of the axis types on it. *)
Definition sns_slice
    (seq : spectrogram_sequence.RasterSequence (Cube := cube) (Meta := Datatypes.unit))
    (item : spectrogram_sequence.index)
  : result (spectrogram_sequence.RasterSequence (Cube := cube) (Meta := Datatypes.unit)) :=
  Ok seq.

Definition sns_set_axes_types
    (r : spectrogram_sequence.RasterSequence (Cube := cube) (Meta := Datatypes.unit))
    (types : list (option string)) :=
  spectrogram_sequence.mkRasterSequence (spectrogram_sequence.base r) types.

(** One exposure time for each row of [counts], as a column. *)
Definition exposure_column : Qarray := np.array2 0%Q [[2%Q]; [4%Q]].

(** A one-element array. *)
Definition single : Qarray := np.array1 0%Q [6%Q].

(** A three-dimensional raster (slit step, position along slit, wavelength)
    with one exposure time for each slit step. *)
Definition cube3 : Qarray :=
  {| np.shape := [2; 2; 3];
     np.item := fun idx => inject_Z (Z.of_nat (sum_list idx)) |}.

Definition scan3 : raster.Raster (num := Q) (Quantity := np.value Q) :=
  raster.mkRaster cube3 (Some cube3) photon
    ["time"; "custom:pos.helioprojective.lat"; "em.wl"]
    (fun _ => np.PyScalar 0%Q) (Some exposure_coords).

End examples.

(** * Properties *)

(** ** The tables and helpers on concrete inputs *)

Example SUPPORTED_TIME_NAMES_value :
  raster.SUPPORTED_TIME_NAMES = ["time"; "TIME"; "Time"; "Time"].
Proof. reflexivity. Qed.

Example SUPPORTED_LONGITUDE_NAMES_value :
  raster.SUPPORTED_LONGITUDE_NAMES =
  [".lon"; "longitude"; "lon"; ".LON"; "LONGITUDE"; "LON";
   ".lon"; "Longitude"; "Lon"; ".lon"; "Longitude"; "Lon"].
Proof. reflexivity. Qed.

Example repr_list_value :
  raster.repr_list raster.SUPPORTED_TIME_NAMES = "['time', 'TIME', 'Time', 'Time']".
Proof. reflexivity. Qed.

Example str_in_values :
  raster.str_in "em.wl" "custom:em.wl" = true /\
  raster.str_in "time" "tim" = false /\
  raster.str_in "lon" "custom:pos.helioprojective.lon" = true.
Proof. repeat split; reflexivity. Qed.

Example broadcast_shapes_values :
  np.broadcast_shapes [2; 3] [2; 1] = Some [2; 3] /\
  np.broadcast_shapes [2; 3] [2] = None /\
  np.broadcast_shapes [4; 2; 3] [3] = Some [4; 2; 3].
Proof. repeat split; reflexivity. Qed.

Example slice_scan_axis_types_value :
  spectrogram_sequence._slice_scan_axis_types examples.raster_labels
    [examples.all; spectrogram_sequence.item_int 0]
  = Ok [Some "slit step"; Some "spectral"].
Proof. reflexivity. Qed.

(** ** The unit algebra *)

Section UnitFacts.
Import units.

Lemma lookup_decompose (U : Unit) k :
  decompose U !! k =
  match U !! k with
  | Some p => if decide (p = 0%Z) then None else Some p
  | None => None
  end.
Proof.
  unfold decompose. destruct (U !! k) as [p|] eqn:E.
  - destruct (decide (p = 0%Z)) as [->|Hp].
    + apply map_lookup_filter_None. right. intros x Hx. simpl.
      intros Hn. rewrite E in Hx. congruence.
    + apply map_lookup_filter_Some. split; [done|]. simpl. done.
  - apply map_lookup_filter_None. left. done.
Qed.

Lemma power_decompose U k : power k (decompose U) = power k U.
Proof.
  unfold power. rewrite lookup_decompose.
  destruct (U !! k) as [p|]; [|done]. case_decide; simpl; congruence.
Qed.

Lemma power_mul U V k : power k (mul U V) = (power k U + power k V)%Z.
Proof.
  unfold power, mul. rewrite lookup_merge.
  destruct (U !! k), (V !! k); simpl; try case_decide; simpl; lia.
Qed.

Lemma power_inv U k : power k (inv U) = (- power k U)%Z.
Proof. unfold power, inv. rewrite lookup_fmap. destruct (U !! k); simpl; lia. Qed.

Lemma power_s k : power k s = if decide (k = "s") then 1%Z else 0%Z.
Proof.
  unfold power, s. case_decide; subst.
  - by rewrite lookup_singleton_eq.
  - by rewrite lookup_singleton_ne.
Qed.

Lemma eq_power U V : eq U V <-> forall k, power k U = power k V.
Proof.
  unfold eq. split.
  - intros H k. rewrite <- (power_decompose U), <- (power_decompose V). by rewrite H.
  - intros H. apply map_eq. intros k. rewrite !lookup_decompose.
    specialize (H k). unfold power in H.
    destruct (U !! k) as [p|], (V !! k) as [q|]; simpl in H; subst;
      repeat case_decide; try congruence.
Qed.

Lemma s_in_bases_power U : "s" ∈ bases (decompose U) <-> power "s" U <> 0%Z.
Proof.
  unfold bases. rewrite elem_of_dom.
  unfold is_Some, power. setoid_rewrite lookup_decompose.
  destruct (U !! "s") as [p|]; simpl.
  - case_decide; subst; split; try congruence; eauto. intros [x Hx]. done.
  - split; [intros [x Hx]; done | done].
Qed.

Lemma mul_div_s U : eq (mul (div U s) s) U.
Proof.
  apply eq_power. intros k. unfold div.
  rewrite !power_mul, power_inv, power_s. case_decide; lia.
Qed.

Lemma power_div_s U : power "s" (div U s) = (power "s" U - 1)%Z.
Proof. unfold div. rewrite power_mul, power_inv, power_s. simpl. lia. Qed.

Lemma power_mul_s U : power "s" (mul U s) = (power "s" U + 1)%Z.
Proof. rewrite power_mul, power_s. simpl. lia. Qed.

End UnitFacts.

(** ** The exposure-time correction of a set of arrays *)

Lemma bind_Ok {A B} (a : A) (f : A -> result B) : (Ok a ≫= f) = f a.
Proof. reflexivity. Qed.

Lemma bind_Raise {A B} (e : exn) (f : A -> result B) : (Raise e ≫= f) = Raise e.
Proof. reflexivity. Qed.

Section Comprehension.
Context {A B : Type} (f : A -> result B).

Lemma comprehension_Ok xs ys :
  comprehension f xs = Ok ys <-> Forall2 (fun x y => f x = Ok y) xs ys.
Proof.
  revert ys. induction xs as [|x xs IH]; intros ys; simpl.
  - split; [intros [= <-]; constructor | intros H; inversion H; done].
  - destruct (f x) as [y|e] eqn:Ef; simpl.
    + destruct (comprehension f xs) as [ys'|e] eqn:Ec; simpl.
      * split.
        -- intros [= <-]. constructor; [done|]. by apply IH.
        -- intros H. inversion_clear H as [|? y' ? ys'' Hy Hys].
           apply IH in Hys. congruence.
      * split; [done|]. intros H. inversion_clear H as [|? y' ? ys'' Hy Hys].
        apply IH in Hys. done.
    + split; [done|]. intros H. inversion_clear H as [|? y' ? ys'' Hy Hys].
      congruence.
Qed.

Lemma comprehension_Raise xs e :
  comprehension f xs = Raise e -> exists x, x ∈ xs /\ f x = Raise e.
Proof.
  induction xs as [|x xs IH]; simpl; [done|].
  destruct (f x) as [y|e'] eqn:Ef; simpl.
  - destruct (comprehension f xs) as [ys'|e''] eqn:Ec; simpl; [done|].
    intros [= ->]. destruct IH as (x' & ? & ?); [done|].
    exists x'. split; [by right|done].
  - intros [= ->]. exists x. split; [by left|done].
Qed.

End Comprehension.

(** ** Broadcasting *)

Local Abbreviation pick := (fun d i : nat => if d =? 1 then 0 else i).

Section BroadcastFacts.

Lemma operand_index_valid (shp idx : list nat) :
  np.valid_index shp idx -> np.operand_index shp idx = idx.
Proof.
  intros Hv. unfold np.operand_index.
  rewrite (Forall2_length _ _ _ Hv), Nat.sub_diag, drop_0.
  induction Hv as [|i d idx shp Hi _ IH]; [done|].
  cbn [zip_with]. rewrite IH. f_equal.
  destruct (d =? 1) eqn:E; [|done]. apply Nat.eqb_eq in E. lia.
Qed.

Lemma broadcast_rev_same (l : list nat) : np.broadcast_rev l l = Some l.
Proof.
  induction l as [|x l IH]; [done|].
  cbn [np.broadcast_rev]. by rewrite Nat.eqb_refl, IH.
Qed.

Lemma broadcast_shapes_same (shp : list nat) : np.broadcast_shapes shp shp = Some shp.
Proof.
  unfold np.broadcast_shapes. rewrite broadcast_rev_same. simpl.
  by rewrite reverse_involutive.
Qed.

Lemma reverse_zip_with {A B C} (f : A -> B -> C) (l : list A) (k : list B) :
  length l = length k ->
  reverse (zip_with f l k) = zip_with f (reverse l) (reverse k).
Proof.
  revert k. induction l as [|x l IH]; intros [|y k] Hlen; try done.
  cbn [zip_with]. rewrite !reverse_cons, IH by (simpl in Hlen; lia).
  rewrite zip_with_app by (rewrite !length_reverse; simpl in Hlen; lia). done.
Qed.

(** Where the broadcast shape is the first shape, a valid index of it reads
    the second operand at a valid index; written on the reversed lists. *)
Lemma broadcast_rev_to_valid (ra rb ri : list nat) :
  np.broadcast_rev ra rb = Some ra -> Forall2 (fun i d => i < d) ri ra ->
  length rb <= length ra /\ Forall2 (fun i d => i < d) (zip_with pick rb ri) rb.
Proof.
  revert rb ri. induction ra as [|x ra IH]; intros rb ri Hb Hv.
  - simpl in Hb. injection Hb as ->. inversion Hv. split; [done|constructor].
  - destruct rb as [|y rb]; [split; [simpl; lia|constructor]|].
    inversion_clear Hv as [|i ? ri' ? Hi Hrest]. cbn [np.broadcast_rev] in Hb.
    assert (Hrec : np.broadcast_rev ra rb = Some ra /\ (y = x \/ y = 1)).
    { destruct (x =? y) eqn:Exy.
      - apply Nat.eqb_eq in Exy. destruct (np.broadcast_rev ra rb); [|done].
        simpl in Hb. injection Hb as ->. split; [done|by left].
      - apply Nat.eqb_neq in Exy. destruct (x =? 1) eqn:Ex.
        + destruct (np.broadcast_rev ra rb); [|done]. simpl in Hb.
          injection Hb as Hy _. congruence.
        + destruct (y =? 1) eqn:Ey; [|done]. apply Nat.eqb_eq in Ey.
          destruct (np.broadcast_rev ra rb); [|done].
          simpl in Hb. injection Hb as ->. split; [done|by right]. }
    destruct Hrec as [Hrec Hy]. destruct (IH rb ri' Hrec Hrest) as [Hlen Hvalid].
    split; [simpl; lia|]. cbn [zip_with]. constructor; [|done].
    destruct (y =? 1) eqn:Ey.
    + apply Nat.eqb_eq in Ey. lia.
    + apply Nat.eqb_neq in Ey. lia.
Qed.

Lemma operand_index_broadcast_valid (sa sb idx : list nat) :
  np.broadcast_shapes sa sb = Some sa -> np.valid_index sa idx ->
  np.valid_index sb (np.operand_index sb idx).
Proof.
  unfold np.broadcast_shapes, np.valid_index. intros Hb Hv.
  destruct (np.broadcast_rev (reverse sa) (reverse sb)) as [r|] eqn:Er; [|done].
  simpl in Hb. injection Hb as Hr.
  assert (r = reverse sa) as -> by (rewrite <- Hr; by rewrite reverse_involutive).
  destruct (broadcast_rev_to_valid _ _ _ Er (Forall2_reverse _ _ _ Hv)) as [Hlen Hvalid].
  rewrite !length_reverse in Hlen. pose proof (Forall2_length _ _ _ Hv) as Hl.
  unfold np.operand_index.
  enough (H : Forall2 (fun i d => i < d)
                (reverse (zip_with pick sb (drop (length idx - length sb) idx)))
                (reverse sb)).
  { apply Forall2_reverse in H. by rewrite !reverse_involutive in H. }
  rewrite reverse_zip_with by (rewrite length_drop; lia).
  rewrite reverse_drop.
  replace (length idx - (length idx - length sb)) with (length (reverse sb))
    by (rewrite length_reverse; lia).
  rewrite zip_with_take_r by (rewrite !length_reverse; lia). done.
Qed.

End BroadcastFacts.

Section FirstAxis.
Context {num : Type}.

Lemma broadcast_rev_ones (l : list nat) (n : nat) :
  np.broadcast_rev (l ++ [n]) (replicate (length l) 1 ++ [n]) = Some (l ++ [n]).
Proof.
  induction l as [|x l IH]; cbn [np.broadcast_rev app replicate length].
  - by rewrite Nat.eqb_refl.
  - rewrite IH. by destruct (x =? 1).
Qed.

Lemma broadcast_shapes_first_axis (n : nat) (dims : list nat) :
  np.broadcast_shapes (n :: dims) (n :: replicate (length dims) 1) = Some (n :: dims).
Proof.
  unfold np.broadcast_shapes.
  rewrite !reverse_cons, reverse_replicate, <- (length_reverse dims), broadcast_rev_ones.
  simpl. by rewrite reverse_app, reverse_involutive.
Qed.

Lemma zip_with_pick_ones (rest : list nat) :
  zip_with pick (replicate (length rest) 1) rest = replicate (length rest) 0.
Proof. induction rest as [|i rest IH]; [done|]. simpl. by rewrite IH. Qed.

(** An array whose first axis has length [n], combined with an array that
    has [n] entries along its first axis and length one along every other
    axis: every element meets the entry of its first index. *)
Lemma binop_first_axis op (a e' : np.ndarray num) (n : nat) (dims : list nat) :
  np.shape a = n :: dims -> np.shape e' = n :: replicate (length dims) 1 ->
  exists a', np.binop op a e' = Ok a' /\ np.shape a' = n :: dims /\
    forall i rest, np.valid_index (n :: dims) (i :: rest) ->
      np.item a' (i :: rest)
      = op (np.item a (i :: rest)) (np.item e' (i :: replicate (length dims) 0)).
Proof.
  intros Ha He. unfold np.binop. rewrite Ha, He, broadcast_shapes_first_axis.
  eexists. split; [reflexivity|]. split; [done|]. intros i rest Hv.
  cbn [np.item]. rewrite (operand_index_valid _ _ Hv).
  inversion Hv as [|? ? ? ? Hi Hrest]; subst.
  pose proof (Forall2_length _ _ _ Hrest) as Hl.
  unfold np.operand_index. cbn [length]. rewrite length_replicate, Hl, Nat.sub_diag, drop_0.
  cbn [zip_with]. rewrite <- Hl, zip_with_pick_ones.
  destruct (n =? 1) eqn:En; [|done]. apply Nat.eqb_eq in En.
  by replace i with 0 by lia.
Qed.

End FirstAxis.

Section EngineArrays.
Context {num : Type}.
Import units.

(** One array and the exposure time: the outcome by the shapes. *)
Lemma array_op_combined op (a : np.ndarray num) (T : np.value num) :
  (broadcastable T a -> exists a', np.array_op op a T = Ok a' /\ combined op T a a') /\
  (~ broadcastable T a -> np.array_op op a T = Raise np.broadcast_error).
Proof.
  destruct T as [t|b]; cbn [np.array_op broadcastable combined].
  - split; [|tauto]. intros _. eexists. split; [reflexivity|]. done.
  - unfold np.binop.
    destruct (np.broadcast_shapes (np.shape a) (np.shape b)) as [shp|] eqn:E.
    + split; [|intros H; destruct H; eauto]. intros _. eexists. split; [reflexivity|].
      cbn [np.shape np.item]. split; [done|]. split; [done|]. intros Hs idx Hv.
      rewrite Hs, broadcast_shapes_same in E. injection E as <-.
      rewrite Hs, operand_index_valid by done. done.
    + split; [intros [? ?]; done|done].
Qed.

(** What both directions do with the arrays once their guard has let them
    pass: every array is combined with the exposure time, or the first
    array whose shape does not broadcast raises numpy's error. *)
Lemma corrected_arrays_outcome op (A : list (np.ndarray num)) (T : np.value num)
    (U' : Unit) :
  let run := new_data_arrays ← comprehension (fun a => np.array_op op a T) A;
             Ok (new_data_arrays, U') in
  (Forall (broadcastable T) A ->
     exists A', run = Ok (A', U') /\ Forall2 (combined op T) A A') /\
  (~ Forall (broadcastable T) A -> run = Raise np.broadcast_error).
Proof.
  cbv zeta. induction A as [|a A [IHok IHraise]].
  - split; [|intros H; destruct H; constructor].
    intros _. exists []. split; [done|constructor].
  - destruct (array_op_combined op a T) as [Hok Hraise].
    cbn [comprehension]. split.
    + intros Hall. inversion_clear Hall as [|? ? Ha HA].
      destruct (Hok Ha) as (a' & -> & Hc). rewrite bind_Ok.
      destruct (IHok HA) as (A' & HA' & HF).
      destruct (comprehension _ A) as [A''|e]; [|done].
      rewrite bind_Ok in HA'. injection HA' as ->.
      rewrite !bind_Ok. exists (a' :: A'). split; [done|]. by constructor.
    + intros Hnot. destruct (decide (broadcastable T a)) as [Ha|Ha].
      * destruct (Hok Ha) as (a' & -> & _). rewrite bind_Ok.
        assert (HA : ~ Forall (broadcastable T) A).
        { intros HA. apply Hnot. by constructor. }
        specialize (IHraise HA).
        destruct (comprehension _ A) as [A''|e]; [done|].
        rewrite bind_Raise in IHraise. injection IHraise as ->. done.
      * rewrite (Hraise Ha). done.
Qed.

End EngineArrays.

Section Engine.
Context {num : Type} (ndiv nmul : num -> num -> num).
Import units.

Lemma array_op_Raise op (a : np.ndarray num) T e :
  np.array_op op a T = Raise e -> e = np.broadcast_error /\ np.isscalar T = false.
Proof.
  destruct T as [t|b]; simpl; [done|]. unfold np.binop.
  destruct (np.broadcast_shapes _ _); [done|]. by intros [= <-].
Qed.

Lemma comprehension_scalar op (t : num) (A : list (np.ndarray num)) :
  exists A', comprehension (fun a => np.array_op op a (np.PyScalar t)) A = Ok A' /\
             elementwise op t A A'.
Proof.
  unfold elementwise.
  induction A as [|a A (A' & HA' & HF)]; simpl.
  - exists []. split; [done|constructor].
  - simpl in *. rewrite HA'. simpl. eexists. split; [reflexivity|].
    constructor; [|done]. simpl. done.
Qed.

(** What both directions do once their guard has let them pass. *)
Lemma corrected_arrays_spec op (A : list (np.ndarray num)) (T : np.value num)
    (U' : Unit) :
  let run := new_data_arrays ← comprehension (fun a => np.array_op op a T) A;
             Ok (new_data_arrays, U') in
  run <> Raise (ValueError raster.APPLY_EXPOSURE_TIME_ERROR) /\
  run <> Raise (ValueError raster.UNDO_EXPOSURE_TIME_ERROR) /\
  (forall A' V, run = Ok (A', V) <->
      V = U' /\ Forall2 (fun a a' => np.array_op op a T = Ok a') A A') /\
  (forall t, T = np.PyScalar t -> exists A', run = Ok (A', U') /\ elementwise op t A A').
Proof.
  intros run. subst run.
  assert (Hraise : forall e,
    (new_data_arrays ← comprehension (fun a => np.array_op op a T) A;
     Ok (new_data_arrays, U')) = Raise e -> e = np.broadcast_error).
  { intros e. destruct (comprehension _ A) as [A'|e'] eqn:Ec; simpl; [done|].
    intros [= ->]. apply comprehension_Raise in Ec as (a & _ & Ha).
    by apply array_op_Raise in Ha as [? _]. }
  split; [|split; [|split]].
  - intros H. apply Hraise in H. discriminate H.
  - intros H. apply Hraise in H. discriminate H.
  - intros A' V. destruct (comprehension _ A) as [A''|e'] eqn:Ec; simpl.
    + apply comprehension_Ok in Ec. split.
      * intros [= <- <-]. done.
      * intros [-> HF]. apply comprehension_Ok in HF, Ec. congruence.
    + split; [done|]. intros [_ HF]. apply comprehension_Ok in HF. congruence.
  - intros t ->. destruct (comprehension_scalar op t A) as (A' & -> & HF). simpl. eauto.
Qed.

(** C2.  Applying the correction raises the "already applied" error exactly
    when [force] is false and seconds are among the bases of the decomposed
    unit.  Otherwise every array is divided element by element by the
    exposure time and the unit is divided by seconds: by the scalar, or by
    the element of the exposure-time array that broadcasting pairs it with
    (the element at the same index for an array of the same shape); an
    array whose shape does not broadcast with the exposure time raises
    numpy's broadcasting error instead. *)
Theorem calculate_guard_and_division
    (A : list (np.ndarray num)) (U : Unit) (T : np.value num) (force : bool) :
  let guard := force = false /\ "s" ∈ bases (decompose U) in
  let run := raster._calculate_exposure_time_correction ndiv A U T force in
  (run = Raise (ValueError raster.APPLY_EXPOSURE_TIME_ERROR) <-> guard) /\
  (~ guard ->
     (Forall (broadcastable T) A ->
        exists A', run = Ok (A', div U s) /\ Forall2 (combined ndiv T) A A') /\
     (~ Forall (broadcastable T) A -> run = Raise np.broadcast_error) /\
     (forall t, T = np.PyScalar t ->
        exists A', run = Ok (A', div U s) /\ elementwise ndiv t A A')).
Proof.
  intros guard run. subst run. unfold raster._calculate_exposure_time_correction.
  destruct (corrected_arrays_outcome ndiv A T (div U s)) as [Hok Hraise].
  assert (Hg : negb force && s_in_bases U = true <-> guard).
  { unfold guard, s_in_bases.
    rewrite andb_true_iff, negb_true_iff, bool_decide_eq_true. done. }
  destruct (negb force && s_in_bases U) eqn:E.
  - split; [tauto|]. intros Hn. destruct Hn. by apply Hg.
  - assert (~ guard) as Hn by (rewrite <- Hg; done).
    split.
    + split; [|tauto]. intros Hrun.
      destruct (decide (Forall (broadcastable T) A)) as [Hall|Hall].
      * destruct (Hok Hall) as (A' & HA' & _). congruence.
      * rewrite (Hraise Hall) in Hrun. discriminate Hrun.
    + intros _. split; [exact Hok|]. split; [exact Hraise|].
      intros t ->. destruct (Hok (Forall_true _ _ (fun _ => I))) as (A' & HA' & HF).
      exists A'. split; [exact HA'|]. exact HF.
Qed.

(** C3.  What the code does: undoing the correction raises the "already
    undone" error exactly when [force] is false and seconds are among the
    bases of the decomposed product of the unit and seconds.  That is the
    case exactly when the power of seconds in the unit is not -1: for every
    unit lacking inverse time, but also for units that include inverse
    time, such as inverse seconds squared, where comment, docstring and
    message say that the undo goes ahead.  Otherwise every array is
    multiplied element by element by the exposure time (the scalar, or the
    element that broadcasting pairs it with) and the unit is multiplied by
    seconds; an array whose shape does not broadcast with the exposure time
    raises numpy's broadcasting error instead. *)
Theorem uncalculate_guard_and_multiplication
    (A : list (np.ndarray num)) (U : Unit) (T : np.value num) (force : bool) :
  let guard := force = false /\ "s" ∈ bases (decompose (mul U s)) in
  let run := raster._uncalculate_exposure_time_correction nmul A U T force in
  (run = Raise (ValueError raster.UNDO_EXPOSURE_TIME_ERROR) <-> guard) /\
  ("s" ∈ bases (decompose (mul U s)) <-> power "s" U <> (-1)%Z) /\
  (lacks_inverse_time U -> "s" ∈ bases (decompose (mul U s))) /\
  (~ guard ->
     (Forall (broadcastable T) A ->
        exists A', run = Ok (A', mul U s) /\ Forall2 (combined nmul T) A A') /\
     (~ Forall (broadcastable T) A -> run = Raise np.broadcast_error) /\
     (forall t, T = np.PyScalar t ->
        exists A', run = Ok (A', mul U s) /\ elementwise nmul t A A')).
Proof.
  intros guard run. subst run. unfold raster._uncalculate_exposure_time_correction.
  destruct (corrected_arrays_outcome nmul A T (mul U s)) as [Hok Hraise].
  assert (Hg : negb force && s_in_bases (mul U s) = true <-> guard).
  { unfold guard, s_in_bases.
    rewrite andb_true_iff, negb_true_iff, bool_decide_eq_true. done. }
  assert (Hp : "s" ∈ bases (decompose (mul U s)) <-> power "s" U <> (-1)%Z).
  { rewrite s_in_bases_power, power_mul_s. lia. }
  split; [|split; [done|split]].
  - destruct (negb force && s_in_bases (mul U s)) eqn:E; [tauto|].
    split; [|intros Hgd; apply Hg in Hgd; done]. intros Hrun.
    destruct (decide (Forall (broadcastable T) A)) as [Hall|Hall].
    + destruct (Hok Hall) as (A' & HA' & _). congruence.
    + rewrite (Hraise Hall) in Hrun. discriminate Hrun.
  - unfold lacks_inverse_time. intros Hl. apply Hp. lia.
  - intros Hn. destruct (negb force && s_in_bases (mul U s)) eqn:E.
    + destruct Hn. by apply Hg.
    + split; [exact Hok|]. split; [exact Hraise|].
      intros t ->. destruct (Hok (Forall_true _ _ (fun _ => I))) as (A' & HA' & HF).
      exists A'. split; [exact HA'|]. exact HF.
Qed.

(** Applying and then undoing with a scalar exposure time [t], when both
    guards let the call pass: each element [x] comes back as
    [nmul (ndiv x t) t], with the unit multiplied back by seconds. *)
Lemma round_trip_elements (A : list (np.ndarray num)) (U : Unit) (t : num)
    (force1 force2 : bool) :
  (force1 = true /\ force2 = true) \/ power "s" U = 0%Z ->
  exists A1 A2,
    raster._calculate_exposure_time_correction ndiv A U (np.PyScalar t) force1
      = Ok (A1, div U s) /\
    raster._uncalculate_exposure_time_correction nmul A1 (div U s) (np.PyScalar t) force2
      = Ok (A2, mul (div U s) s) /\
    Forall2 (fun a a2 => np.shape a2 = np.shape a /\
               forall idx, np.item a2 idx = nmul (ndiv (np.item a idx) t) t) A A2.
Proof.
  intros Hforce.
  assert (Hg1 : negb force1 && s_in_bases U = false).
  { destruct Hforce as [[-> _]|Hp]; [done|]. apply andb_false_iff. right.
    apply bool_decide_eq_false. rewrite s_in_bases_power. lia. }
  assert (Hg2 : negb force2 && s_in_bases (mul (div U s) s) = false).
  { destruct Hforce as [[_ ->]|Hp]; [done|]. apply andb_false_iff. right.
    apply bool_decide_eq_false. rewrite s_in_bases_power, power_mul_s, power_div_s. lia. }
  unfold raster._calculate_exposure_time_correction,
         raster._uncalculate_exposure_time_correction.
  rewrite Hg1.
  destruct (corrected_arrays_spec ndiv A (np.PyScalar t) (div U s)) as (_ & _ & _ & H1).
  destruct (H1 t eq_refl) as (A1 & HA1 & Hdiv).
  destruct (corrected_arrays_spec nmul A1 (np.PyScalar t) (mul (div U s) s))
    as (_ & _ & _ & H2).
  destruct (H2 t eq_refl) as (A2 & HA2 & Hmul).
  exists A1, A2. split; [exact HA1|]. rewrite Hg2. split; [exact HA2|].
  clear HA1 HA2 H1 H2. revert A2 Hmul. unfold elementwise in *.
  induction Hdiv as [|a a1 A A1 [Hs1 Hi1] _ IH]; intros A2 Hmul.
  - inversion Hmul. constructor.
  - inversion_clear Hmul as [|? a2 ? A2' [Hs2 Hi2] Hrest].
    constructor; [|by apply IH]. split; [congruence|].
    intros idx. by rewrite Hi2, Hi1.
Qed.

End Engine.

Section RoundTrip.
Import units.

(** One array divided by the exposure time and multiplied by it again, in
    exact arithmetic. *)
Lemma round_trip_array (a : np.ndarray Q) (T : np.value Q) :
  positive T -> broadcasts_to T a ->
  exists a1 a2,
    np.array_op Qdiv a T = Ok a1 /\ np.array_op Qmult a1 T = Ok a2 /\
    np.shape a2 = np.shape a /\
    forall idx, np.valid_index (np.shape a) idx -> (np.item a2 idx == np.item a idx)%Q.
Proof.
  destruct T as [t|b]; cbn [positive broadcasts_to np.array_op].
  - intros Ht _. eexists. eexists. split; [reflexivity|]. split; [reflexivity|].
    cbn [np.shape np.item]. split; [done|]. intros idx _. field.
    intros H0. rewrite H0 in Ht. by apply Qlt_irrefl in Ht.
  - intros Hpos Hb. unfold np.binop. rewrite Hb.
    eexists. eexists. split; [reflexivity|]. cbn [np.shape]. rewrite Hb.
    split; [reflexivity|]. cbn [np.shape np.item]. split; [done|].
    intros idx Hv. rewrite !(operand_index_valid _ _ Hv).
    pose proof (Hpos _ (operand_index_broadcast_valid _ _ _ Hb Hv)) as Hp.
    field. intros H0. rewrite H0 in Hp. by apply Qlt_irrefl in Hp.
Qed.

Lemma round_trip_arrays (A : list (np.ndarray Q)) (T : np.value Q) :
  positive T -> Forall (broadcasts_to T) A ->
  exists A1 A2,
    comprehension (fun a => np.array_op Qdiv a T) A = Ok A1 /\
    comprehension (fun a => np.array_op Qmult a T) A1 = Ok A2 /\
    Forall2 (fun a a2 => np.shape a2 = np.shape a /\
               forall idx, np.valid_index (np.shape a) idx ->
                 (np.item a2 idx == np.item a idx)%Q) A A2.
Proof.
  intros Hpos. induction 1 as [|a A Ha _ (A1 & A2 & H1 & H2 & HF)].
  - exists [], []. split; [done|]. split; [done|]. constructor.
  - destruct (round_trip_array a T Hpos Ha) as (a1 & a2 & Ha1 & Ha2 & Hback).
    exists (a1 :: A1), (a2 :: A2). cbn [comprehension].
    rewrite Ha1, bind_Ok, H1, !bind_Ok, Ha2, bind_Ok, H2, !bind_Ok.
    split; [done|]. split; [done|]. by constructor.
Qed.

(** C1, as amended.  In exact arithmetic, undoing the correction after
    applying it gives back every array, with its shape and element for
    element, and a unit equal to the original one: for every unit and every
    positive exposure time that is a scalar or an array that broadcasts to
    the shape of each data array, when both steps are forced, and also with
    the guards in force when the unit holds no power of seconds. *)
Theorem exposure_time_round_trip
    (A : list (np.ndarray Q)) (U : Unit) (T : np.value Q) (force1 force2 : bool) :
  positive T ->
  Forall (broadcasts_to T) A ->
  (force1 = true /\ force2 = true) \/ power "s" U = 0%Z ->
  exists A1 A2 U2,
    raster._calculate_exposure_time_correction Qdiv A U T force1 = Ok (A1, div U s) /\
    raster._uncalculate_exposure_time_correction Qmult A1 (div U s) T force2
      = Ok (A2, U2) /\
    eq U2 U /\
    Forall2 (fun a a2 => np.shape a2 = np.shape a /\
               forall idx, np.valid_index (np.shape a) idx ->
                 (np.item a2 idx == np.item a idx)%Q) A A2.
Proof.
  intros HT Hshapes Hforce.
  assert (Hg1 : negb force1 && s_in_bases U = false).
  { destruct Hforce as [[-> _]|Hp]; [done|]. apply andb_false_iff. right.
    apply bool_decide_eq_false. rewrite s_in_bases_power. lia. }
  assert (Hg2 : negb force2 && s_in_bases (mul (div U s) s) = false).
  { destruct Hforce as [[_ ->]|Hp]; [done|]. apply andb_false_iff. right.
    apply bool_decide_eq_false. rewrite s_in_bases_power, power_mul_s, power_div_s. lia. }
  destruct (round_trip_arrays A T HT Hshapes) as (A1 & A2 & HA1 & HA2 & Hback).
  exists A1, A2, (mul (div U s) s).
  unfold raster._calculate_exposure_time_correction,
         raster._uncalculate_exposure_time_correction.
  rewrite Hg1, HA1, bind_Ok, Hg2, HA2, bind_Ok.
  split; [done|]. split; [done|]. split; [apply mul_div_s|exact Hback].
Qed.

Lemma exposure_time_round_trip_witness :
  exists A1 A2 U2,
    raster._calculate_exposure_time_correction Qdiv [examples.counts; examples.errors]
      photon (np.Array examples.exposure_column) false = Ok (A1, div photon s) /\
    raster._uncalculate_exposure_time_correction Qmult A1 (div photon s)
      (np.Array examples.exposure_column) false = Ok (A2, U2) /\
    eq U2 photon /\
    Forall2 (fun a a2 => np.shape a2 = np.shape a /\
               forall idx, np.valid_index (np.shape a) idx ->
                 (np.item a2 idx == np.item a idx)%Q)
            [examples.counts; examples.errors] A2.
Proof.
  apply (exposure_time_round_trip [examples.counts; examples.errors] photon
           (np.Array examples.exposure_column) false false).
  - intros idx Hv. inversion_clear Hv as [|i ? idx' ? Hi Hrest].
    inversion_clear Hrest as [|j ? idx'' ? Hj Hnil]. inversion_clear Hnil.
    destruct i as [|[|i]]; [| |simpl in Hi; lia];
      (destruct j as [|j]; [reflexivity|simpl in Hj; lia]).
  - repeat constructor.
  - right. reflexivity.
Defined.

(** C1, counterexample.  In binary64 the round trip of the one-element
    array [[1.0]] with exposure time 49 gives [0.9999999999999999]:
    [(1 / 49) * 49] is not [1].  In exact arithmetic, the positive exposure
    times [[2, 4]] do not broadcast with the 2 by 3 array [counts] and the
    application raises; they do broadcast with a one-element array, which
    comes back with two elements. *)
Lemma round_trip_not_identity :
  (exists A1 A2 U1 U2 a2,
     lacks_inverse_time photon /\
     raster._calculate_exposure_time_correction PrimFloat.div [examples.one_float]
       photon (np.PyScalar 49%float) true = Ok (A1, U1) /\
     raster._uncalculate_exposure_time_correction PrimFloat.mul A1 U1
       (np.PyScalar 49%float) true = Ok (A2, U2) /\
     A2 !! 0 = Some a2 /\
     np.item a2 [0] = 0x1.fffffffffffffp-1%float /\
     PrimFloat.eqb (np.item a2 [0]) (np.item examples.one_float [0]) = false) /\
  positive (np.Array examples.exposures) /\
  raster._calculate_exposure_time_correction Qdiv [examples.counts] photon
    (np.Array examples.exposures) true = Raise np.broadcast_error /\
  (exists A1 A2 U1 U2 a2,
     raster._calculate_exposure_time_correction Qdiv [examples.single] photon
       (np.Array examples.exposures) true = Ok (A1, U1) /\
     raster._uncalculate_exposure_time_correction Qmult A1 U1
       (np.Array examples.exposures) true = Ok (A2, U2) /\
     A2 !! 0 = Some a2 /\
     np.shape examples.single = [1] /\ np.shape a2 = [2]).
Proof.
  split; [|split; [|split]].
  - do 5 eexists. split; [by vm_compute|].
    split; [vm_compute; reflexivity|].
    split; [vm_compute; reflexivity|].
    split; [reflexivity|].
    split; vm_compute; reflexivity.
  - intros idx Hv. inversion_clear Hv as [|i ? idx' ? Hi Hnil]. inversion_clear Hnil.
    destruct i as [|[|i]]; [reflexivity|reflexivity|simpl in Hi; lia].
  - reflexivity.
  - do 5 eexists. split; [reflexivity|]. split; [reflexivity|].
    split; [reflexivity|]. split; reflexivity.
Qed.

Lemma calculate_guard_and_division_witness :
  raster._calculate_exposure_time_correction Qdiv [examples.counts]
    (div photon s) (np.PyScalar 2%Q) false
    = Raise (ValueError raster.APPLY_EXPOSURE_TIME_ERROR) /\
  (exists A',
     raster._calculate_exposure_time_correction Qdiv [examples.counts]
       (div photon s) (np.PyScalar 2%Q) true = Ok (A', examples.photon_per_s2) /\
     elementwise Qdiv 2%Q [examples.counts] A') /\
  (exists A',
     raster._calculate_exposure_time_correction Qdiv [examples.counts; examples.errors]
       photon (np.Array examples.exposure_column) false = Ok (A', div photon s) /\
     Forall2 (combined Qdiv (np.Array examples.exposure_column))
             [examples.counts; examples.errors] A').
Proof.
  split; [|split].
  - apply (calculate_guard_and_division Qdiv [examples.counts] (div photon s)
             (np.PyScalar 2%Q) false).
    split; [reflexivity|]. apply (bool_decide_unpack _). by vm_compute.
  - destruct (calculate_guard_and_division Qdiv [examples.counts] (div photon s)
                (np.PyScalar 2%Q) true) as [_ H].
    destruct H as (_ & _ & H); [intros [? _]; discriminate|].
    exact (H 2%Q eq_refl).
  - destruct (calculate_guard_and_division Qdiv [examples.counts; examples.errors]
                photon (np.Array examples.exposure_column) false) as [_ H].
    destruct H as (H & _ & _).
    { intros [_ Hs]. apply s_in_bases_power in Hs. by vm_compute in Hs. }
    apply H. repeat constructor; eexists; reflexivity.
Defined.

Lemma uncalculate_guard_and_multiplication_witness :
  raster._uncalculate_exposure_time_correction Qmult [examples.counts]
    photon (np.PyScalar 2%Q) false
    = Raise (ValueError raster.UNDO_EXPOSURE_TIME_ERROR) /\
  raster._uncalculate_exposure_time_correction Qmult [examples.counts]
    examples.photon_per_s2 (np.PyScalar 2%Q) false
    = Raise (ValueError raster.UNDO_EXPOSURE_TIME_ERROR) /\
  (exists A',
     raster._uncalculate_exposure_time_correction Qmult [examples.counts]
       (div photon s) (np.PyScalar 2%Q) false = Ok (A', mul (div photon s) s) /\
     elementwise Qmult 2%Q [examples.counts] A') /\
  (exists A',
     raster._uncalculate_exposure_time_correction Qmult [examples.counts; examples.errors]
       (div photon s) (np.Array examples.exposure_column) false
       = Ok (A', mul (div photon s) s) /\
     Forall2 (combined Qmult (np.Array examples.exposure_column))
             [examples.counts; examples.errors] A').
Proof.
  split; [|split; [|split]].
  - apply (uncalculate_guard_and_multiplication Qmult [examples.counts] photon
             (np.PyScalar 2%Q) false).
    split; [reflexivity|]. apply (bool_decide_unpack _). by vm_compute.
  - apply (uncalculate_guard_and_multiplication Qmult [examples.counts]
             examples.photon_per_s2 (np.PyScalar 2%Q) false).
    split; [reflexivity|]. apply (bool_decide_unpack _). by vm_compute.
  - destruct (uncalculate_guard_and_multiplication Qmult [examples.counts]
                (div photon s) (np.PyScalar 2%Q) false) as (_ & _ & _ & H).
    destruct H as (_ & _ & H).
    { intros [_ Hs]. apply s_in_bases_power in Hs. by vm_compute in Hs. }
    exact (H 2%Q eq_refl).
  - destruct (uncalculate_guard_and_multiplication Qmult
                [examples.counts; examples.errors] (div photon s)
                (np.Array examples.exposure_column) false) as (_ & _ & _ & H).
    destruct H as (H & _ & _).
    { intros [_ Hs]. apply s_in_bases_power in Hs. by vm_compute in Hs. }
    apply H. repeat constructor; eexists; reflexivity.
Defined.

(** C3, at the failing input.  photon / s / s includes inverse time, yet
    its product with seconds still has seconds among its bases and the
    unforced undo raises the "already undone" error, whose message says
    that the unit does not include inverse time. *)
Lemma undo_guard_fires_with_inverse_time :
  ~ lacks_inverse_time examples.photon_per_s2 /\
  "s" ∈ bases (decompose (mul examples.photon_per_s2 s)) /\
  ~ ("s" ∈ bases (decompose (mul examples.photon_per_s2 s))
     <-> lacks_inverse_time examples.photon_per_s2) /\
  raster._uncalculate_exposure_time_correction Qmult [examples.counts]
    examples.photon_per_s2 (np.PyScalar 2%Q) false
    = Raise (ValueError raster.UNDO_EXPOSURE_TIME_ERROR).
Proof.
  assert (Hn : ~ lacks_inverse_time examples.photon_per_s2).
  { unfold lacks_inverse_time. by vm_compute. }
  assert (Hs : "s" ∈ bases (decompose (mul examples.photon_per_s2 s))).
  { apply (bool_decide_unpack _). by vm_compute. }
  split; [done|]. split; [done|]. split; [tauto|]. by vm_compute.
Qed.

End RoundTrip.

(** ** The exposure-time correction of a raster *)

Section RasterCorrection.
Context {num : Type} (ndiv nmul : num -> num -> num).
Context {Quantity : Type} (to_s_value : Quantity -> result (np.value num)).
Import units.

Local Abbreviation Raster := (raster.Raster (num := num) (Quantity := Quantity)).
Local Abbreviation correct := (raster.apply_exposure_time_correction ndiv nmul to_s_value).

Lemma newaxes_after_first_spec k (e : np.ndarray num) n rest :
  np.shape e = n :: rest ->
  exists e', np.newaxes_after_first k e = Ok e' /\
    np.shape e' = n :: replicate k 1 ++ rest /\
    forall i r, np.item e' (i :: r) = np.item e (i :: drop k r).
Proof.
  intros Hs. unfold np.newaxes_after_first. rewrite Hs.
  eexists. split; [reflexivity|]. simpl. done.
Qed.

(** The reshape for data of at most three axes: the exposure times along
    the first axis and length one along the others. *)
Lemma reshape_first_axis (self : Raster) (e : np.ndarray num) (n : nat) (dims : list nat) :
  np.shape (raster.data self) = n :: dims -> length dims <= 2 -> np.shape e = [n] ->
  exists e', raster.reshape_exposure_time self (np.Array e) = Ok (np.Array e') /\
    np.shape e' = n :: replicate (length dims) 1 /\
    forall i, np.item e' (i :: replicate (length dims) 0) = np.item e [i].
Proof.
  intros Hd Hle He. unfold raster.reshape_exposure_time, raster.dimensions.
  rewrite Hd. destruct dims as [|m [|p [|? ?]]]; cbn [length] in *; [| | |lia].
  - exists e. by rewrite He.
  - destruct (newaxes_after_first_spec 1 e n [] He) as (e' & -> & Hs & Hi).
    exists e'. rewrite bind_Ok. split; [done|]. split; [done|]. intros i. by rewrite Hi.
  - destruct (newaxes_after_first_spec 2 e n [] He) as (e' & -> & Hs & Hi).
    exists e'. rewrite bind_Ok. split; [done|]. split; [done|]. intros i. by rewrite Hi.
Qed.

(** C8.  With an exposure time that is an array, the reshape is keyed on
    the rank of the data: rank 1 leaves the exposure time as it is, rank 2
    adds one trailing axis of length one, rank 3 adds two, and from rank 4
    on the operation fails with the dimensions error.  For ranks 1 to 3
    the correction, in either direction and once its guard lets it pass,
    therefore combines every element of the data and of the uncertainty
    with the exposure time of the element's first index. *)
Theorem exposure_time_reshape_by_rank
    (self : Raster) (q : Quantity) (e : np.ndarray num) (n : nat) (undo force : bool) :
  raster.exposure_time self = Ok q ->
  to_s_value q = Ok (np.Array e) ->
  np.shape e = [n] ->
  (np.ndim (raster.data self) = 1 ->
     raster.reshape_exposure_time self (np.Array e) = Ok (np.Array e)) /\
  (np.ndim (raster.data self) = 2 ->
     exists e', raster.reshape_exposure_time self (np.Array e) = Ok (np.Array e') /\
       np.shape e' = [n; 1] /\ forall i j, np.item e' [i; j] = np.item e [i]) /\
  (np.ndim (raster.data self) = 3 ->
     exists e', raster.reshape_exposure_time self (np.Array e) = Ok (np.Array e') /\
       np.shape e' = [n; 1; 1] /\ forall i j k, np.item e' [i; j; k] = np.item e [i]) /\
  (forall unc dims,
     raster.uncertainty self = Some unc ->
     np.shape (raster.data self) = n :: dims -> np.shape unc = n :: dims ->
     length dims <= 2 ->
     force = true \/
       "s" ∉ bases (decompose (if undo then mul (raster.unit self) s
                               else raster.unit self)) ->
     exists out unc',
       correct self undo force = Ok out /\
       raster.uncertainty out = Some unc' /\
       along_first_axis (if undo then nmul else ndiv) e (raster.data self) (raster.data out) /\
       along_first_axis (if undo then nmul else ndiv) e unc unc') /\
  (4 <= np.ndim (raster.data self) ->
     raster.reshape_exposure_time self (np.Array e)
       = Raise (ValueError raster.DIMENSIONS_ERROR) /\
     correct self undo force = Raise (ValueError raster.DIMENSIONS_ERROR)).
Proof.
  intros Hq Hv Hs.
  split; [|split; [|split; [|split]]].
  - intros Hrank. unfold raster.reshape_exposure_time, raster.dimensions.
    unfold np.ndim in Hrank. by rewrite Hrank.
  - intros Hrank. unfold raster.reshape_exposure_time, raster.dimensions.
    unfold np.ndim in Hrank. rewrite Hrank.
    destruct (newaxes_after_first_spec 1 e n [] Hs) as (e' & -> & Hs' & Hi).
    exists e'. split; [done|]. split; [done|]. intros i j. by rewrite Hi.
  - intros Hrank. unfold raster.reshape_exposure_time, raster.dimensions.
    unfold np.ndim in Hrank. rewrite Hrank.
    destruct (newaxes_after_first_spec 2 e n [] Hs) as (e' & -> & Hs' & Hi).
    exists e'. split; [done|]. split; [done|]. intros i j k. by rewrite Hi.
  - intros unc dims Hu Hd Hunc Hle Hguard.
    set (op := if undo then nmul else ndiv).
    destruct (reshape_first_axis self e n dims Hd Hle Hs) as (e' & Hr & Hes & Hei).
    destruct (binop_first_axis op (raster.data self) e' n dims Hd Hes)
      as (d' & Hd' & Hds & Hdi).
    destruct (binop_first_axis op unc e' n dims Hunc Hes) as (u' & Hu' & Hus & Hui).
    assert (Hg : negb force && s_in_bases (if undo then mul (raster.unit self) s
                                           else raster.unit self) = false).
    { destruct Hguard as [->|Hn]; [done|].
      apply andb_false_iff. right. unfold s_in_bases. by apply bool_decide_eq_false. }
    exists {| raster.data := d'; raster.uncertainty := Some u';
              raster.unit := if undo then mul (raster.unit self) s
                             else div (raster.unit self) s;
              raster.world_axis_physical_types := raster.world_axis_physical_types self;
              raster.axis_world_coords := raster.axis_world_coords self;
              raster.extra_coords := raster.extra_coords self |}, u'.
    split.
    + unfold raster.apply_exposure_time_correction.
      rewrite Hq, bind_Ok, Hv, bind_Ok, Hr, bind_Ok.
      unfold raster.uncertainty_array. rewrite Hu, bind_Ok.
      subst op. destruct undo.
      * unfold raster._uncalculate_exposure_time_correction. rewrite Hg.
        cbn [comprehension np.array_op]. rewrite Hd', bind_Ok, Hu', !bind_Ok. reflexivity.
      * unfold raster._calculate_exposure_time_correction. rewrite Hg.
        cbn [comprehension np.array_op]. rewrite Hd', bind_Ok, Hu', !bind_Ok. reflexivity.
    + cbn [raster.uncertainty raster.data]. split; [done|].
      unfold along_first_axis. rewrite Hds, Hus, Hd, Hunc.
      split; (split; [done|]); intros i rest Hvalid.
      * by rewrite Hdi, Hei.
      * by rewrite Hui, Hei.
  - intros Hrank.
    assert (Hr : raster.reshape_exposure_time self (np.Array e)
                 = Raise (ValueError raster.DIMENSIONS_ERROR)).
    { unfold raster.reshape_exposure_time, raster.dimensions. unfold np.ndim in Hrank.
      destruct (length (np.shape (raster.data self))) as [|[|[|[|r]]]]; try lia; done. }
    split; [exact Hr|].
    unfold raster.apply_exposure_time_correction.
    rewrite Hq, bind_Ok, Hv, bind_Ok, Hr. done.
Qed.

(** C10.  A raster without uncertainty never gets through the correction:
    the call raises, and once the exposure time is at hand and reshaped the
    exception is the attribute error of [None], whatever the direction, the
    [force] flag and the unit, so before any guard is consulted. *)
Theorem correction_needs_uncertainty (self : Raster) (undo force : bool) :
  raster.uncertainty self = None ->
  is_ok (correct self undo force) = false /\
  (forall q v v',
     raster.exposure_time self = Ok q -> to_s_value q = Ok v ->
     raster.reshape_exposure_time self v = Ok v' ->
     correct self undo force
       = Raise (AttributeError "'NoneType' object has no attribute 'array'")).
Proof.
  intros Hu. unfold raster.apply_exposure_time_correction, raster.uncertainty_array.
  rewrite Hu. split.
  - destruct (raster.exposure_time self) as [q|]; [rewrite bind_Ok|done].
    destruct (to_s_value q) as [v|]; [rewrite bind_Ok|done].
    destruct (raster.reshape_exposure_time self v); done.
  - intros q v v' -> Hv Hr. rewrite bind_Ok, Hv, bind_Ok, Hr. done.
Qed.

End RasterCorrection.

Section RasterBroadcast.
Context {num : Type} (ndiv nmul : num -> num -> num).
Context {Quantity : Type} (to_s_value : Quantity -> result (np.value num)).
Import units.

Local Abbreviation Raster := (raster.Raster (num := num) (Quantity := Quantity)).
Local Abbreviation correct := (raster.apply_exposure_time_correction ndiv nmul to_s_value).

Lemma broadcast_shapes_column n m :
  np.broadcast_shapes [n; m] [n; 1] = Some [n; m].
Proof.
  unfold np.broadcast_shapes. cbn [reverse rev_append np.broadcast_rev].
  rewrite Nat.eqb_refl.
  destruct (m =? 1) eqn:Em; [done|]. simpl. done.
Qed.

(** An [n] by [m] array combined with an [n] by 1 column: row [i] of the
    array meets entry [i] of the column. *)
Lemma binop_column op (a col : np.ndarray num) n m :
  np.shape a = [n; m] -> np.shape col = [n; 1] ->
  exists a', np.binop op a col = Ok a' /\ np.shape a' = [n; m] /\
    forall i j, i < n -> j < m ->
      np.item a' [i; j] = op (np.item a [i; j]) (np.item col [i; 0]).
Proof.
  intros Ha Hc. unfold np.binop. rewrite Ha, Hc, broadcast_shapes_column.
  eexists. split; [reflexivity|]. split; [done|].
  intros i j Hi Hj. cbn [np.item np.operand_index length Nat.sub drop zip_with].
  assert (Hn : (if n =? 1 then 0 else i) = i).
  { destruct (n =? 1) eqn:En; [|done]. apply Nat.eqb_eq in En. lia. }
  assert (Hm : (if m =? 1 then 0 else j) = j).
  { destruct (m =? 1) eqn:Em; [|done]. apply Nat.eqb_eq in Em. lia. }
  rewrite Hn, Hm. done.
Qed.

(** C9.  For two-dimensional data of shape [n] by [m], with a co-shaped
    uncertainty, and a one-dimensional exposure time of length [n], the
    correction succeeds when the guard lets it pass and the output at
    [(i, j)] is the input at [(i, j)] divided by exposure [i], for the data
    and for the uncertainty. *)
Theorem correction_divides_rows_by_exposure
    (self : Raster) (q : Quantity) (e unc : np.ndarray num) (n m : nat)
    (force : bool) :
  raster.exposure_time self = Ok q ->
  to_s_value q = Ok (np.Array e) ->
  np.shape e = [n] ->
  np.shape (raster.data self) = [n; m] ->
  raster.uncertainty self = Some unc ->
  np.shape unc = [n; m] ->
  force = true \/ "s" ∉ bases (decompose (raster.unit self)) ->
  exists out unc',
    correct self false force = Ok out /\
    raster.unit out = div (raster.unit self) s /\
    raster.uncertainty out = Some unc' /\
    np.shape (raster.data out) = [n; m] /\
    np.shape unc' = [n; m] /\
    forall i j, i < n -> j < m ->
      np.item (raster.data out) [i; j]
        = ndiv (np.item (raster.data self) [i; j]) (np.item e [i]) /\
      np.item unc' [i; j] = ndiv (np.item unc [i; j]) (np.item e [i]).
Proof.
  intros Hq Hv He Hd Hu Hunc Hguard.
  destruct (newaxes_after_first_spec 1 e n [] He) as (col & Hcol & Hcs & Hci).
  simpl in Hcs.
  destruct (binop_column ndiv (raster.data self) col n m Hd Hcs) as (d' & Hd' & Hds & Hdi).
  destruct (binop_column ndiv unc col n m Hunc Hcs) as (u' & Hu' & Hus & Hui).
  assert (Hg : negb force && s_in_bases (raster.unit self) = false).
  { destruct Hguard as [->|Hs]; [done|].
    apply andb_false_iff. right. unfold s_in_bases. by apply bool_decide_eq_false. }
  exists {| raster.data := d'; raster.uncertainty := Some u';
            raster.unit := div (raster.unit self) s;
            raster.world_axis_physical_types := raster.world_axis_physical_types self;
            raster.axis_world_coords := raster.axis_world_coords self;
            raster.extra_coords := raster.extra_coords self |}, u'.
  split.
  - unfold raster.apply_exposure_time_correction.
    rewrite Hq, bind_Ok, Hv, bind_Ok.
    unfold raster.reshape_exposure_time, raster.dimensions. rewrite Hd.
    cbn [length]. rewrite Hcol, !bind_Ok.
    unfold raster.uncertainty_array. rewrite Hu, bind_Ok.
    unfold raster._calculate_exposure_time_correction. rewrite Hg.
    cbn [comprehension np.array_op]. rewrite Hd', bind_Ok, Hu', !bind_Ok.
    reflexivity.
  - cbn [raster.unit raster.uncertainty raster.data].
    do 4 (split; [done|]). intros i j Hi Hj.
    rewrite Hdi, Hui, Hci by done. done.
Qed.

End RasterBroadcast.

Lemma correction_divides_rows_by_exposure_witness :
  exists out unc',
    raster.apply_exposure_time_correction Qdiv Qmult Ok examples.scan false false = Ok out /\
    raster.unit out = units.div units.photon units.s /\
    raster.uncertainty out = Some unc' /\
    np.shape (raster.data out) = [2; 3] /\
    np.shape unc' = [2; 3] /\
    forall i j, i < 2 -> j < 3 ->
      np.item (raster.data out) [i; j]
        = Qdiv (np.item examples.counts [i; j]) (np.item examples.exposures [i]) /\
      np.item unc' [i; j]
        = Qdiv (np.item examples.errors [i; j]) (np.item examples.exposures [i]).
Proof.
  apply (correction_divides_rows_by_exposure Qdiv Qmult Ok examples.scan
           (np.Array examples.exposures) examples.exposures examples.errors 2 3 false).
  - by vm_compute.
  - reflexivity.
  - reflexivity.
  - reflexivity.
  - reflexivity.
  - reflexivity.
  - right. apply (bool_decide_unpack _). by vm_compute.
Defined.

Lemma exposure_time_reshape_by_rank_witness :
  (exists e',
     raster.reshape_exposure_time examples.scan (np.Array examples.exposures)
       = Ok (np.Array e') /\
     np.shape e' = [2; 1] /\
     forall i j, np.item e' [i; j] = np.item examples.exposures [i]) /\
  (exists out unc',
     raster.apply_exposure_time_correction Qdiv Qmult Ok examples.scan3 false false
       = Ok out /\
     raster.uncertainty out = Some unc' /\
     along_first_axis Qdiv examples.exposures examples.cube3 (raster.data out) /\
     along_first_axis Qdiv examples.exposures examples.cube3 unc').
Proof.
  split.
  - destruct (exposure_time_reshape_by_rank Qdiv Qmult Ok examples.scan
                (np.Array examples.exposures) examples.exposures 2 false false)
      as (_ & H & _).
    + by vm_compute.
    + reflexivity.
    + reflexivity.
    + apply H. reflexivity.
  - destruct (exposure_time_reshape_by_rank Qdiv Qmult Ok examples.scan3
                (np.Array examples.exposures) examples.exposures 2 false false)
      as (_ & _ & _ & H & _).
    + by vm_compute.
    + reflexivity.
    + reflexivity.
    + apply (H examples.cube3 [2; 3]).
      * reflexivity.
      * reflexivity.
      * reflexivity.
      * simpl. lia.
      * right. intros Hs. apply s_in_bases_power in Hs. by vm_compute in Hs.
Defined.

Lemma correction_needs_uncertainty_witness :
  is_ok (raster.apply_exposure_time_correction Qdiv Qmult Ok
           examples.scan_without_uncertainty false true) = false /\
  raster.apply_exposure_time_correction Qdiv Qmult Ok
    examples.scan_without_uncertainty false true
    = Raise (AttributeError "'NoneType' object has no attribute 'array'").
Proof.
  destruct (correction_needs_uncertainty Qdiv Qmult Ok
              examples.scan_without_uncertainty false true) as [H1 H2].
  - reflexivity.
  - split; [exact H1|].
    apply (H2 (np.Array examples.exposures) (np.Array examples.exposures)
              (np.Array {| np.shape := [2; 1];
                           np.item := fun idx =>
                             match idx with
                             | i :: r => np.item examples.exposures (i :: drop 1 r)
                             | [] => np.item examples.exposures []
                             end |})).
    + by vm_compute.
    + reflexivity.
    + reflexivity.
Defined.

(** ** Resolution of the axis names *)

Section MaskFacts.
Context {A : Type} (f : A -> bool) (d : A).

Lemma bool_sum_cons b mask :
  raster.bool_sum (b :: mask) = (if b then 1 else 0) + raster.bool_sum mask.
Proof. reflexivity. Qed.

Lemma bool_sum_zero (l : list A) :
  raster.bool_sum (f <$> l) = 0 <-> forall j t, l !! j = Some t -> f t = false.
Proof.
  induction l as [|x l IH].
  - split; [intros _ j t Hj; by destruct j | done].
  - rewrite fmap_cons, bool_sum_cons. split.
    + destruct (f x) eqn:Ex; cbv iota; [lia|]. intros H j t Hj.
      destruct j as [|j]; simpl in Hj; [congruence|].
      apply IH in Hj; done.
    + intros H. rewrite (H 0 x eq_refl). cbv iota. rewrite Nat.add_0_l. apply IH.
      intros j t Hj. by apply (H (S j)).
Qed.

Lemma bool_sum_one (l : list A) :
  raster.bool_sum (f <$> l) = 1 <-> exists k t, only_at f l k t.
Proof.
  unfold only_at. induction l as [|x l IH].
  - split; [done|]. intros (k & t & Hk & _). by destruct k.
  - rewrite fmap_cons, bool_sum_cons. destruct (f x) eqn:Ex; cbv iota.
    + split.
      * intros H. assert (H0 : raster.bool_sum (f <$> l) = 0) by lia.
        exists 0, x. split; [done|]. split; [done|].
        intros [|j] t' Hj Ht'; [done|]. simpl in Hj.
        rewrite bool_sum_zero in H0. apply H0 in Hj. congruence.
      * intros (k & t & Hk & Ht & Huniq).
        assert (k = 0) as -> by (symmetry; by apply (Huniq 0 x)).
        assert (H0 : raster.bool_sum (f <$> l) = 0); [|lia].
        apply bool_sum_zero. intros j t' Hj.
        destruct (f t') eqn:Et'; [|done]. by specialize (Huniq (S j) t' Hj Et').
    + rewrite Nat.add_0_l, IH. split.
      * intros (k & t & Hk & Ht & Huniq).
        exists (S k), t. split; [done|]. split; [done|].
        intros [|j] t' Hj Ht'; simpl in Hj; [congruence|]. f_equal. by eapply Huniq.
      * intros (k & t & Hk & Ht & Huniq).
        destruct k as [|k]; simpl in Hk; [congruence|].
        exists k, t. split; [done|]. split; [done|].
        intros j t' Hj Ht'. specialize (Huniq (S j) t' Hj Ht'). lia.
Qed.

Lemma mask_index_only_at (l : list A) k t :
  only_at f l k t -> raster.mask_index (f <$> l) = k /\ nth k l d = t.
Proof.
  unfold only_at. revert k. induction l as [|x l IH]; intros k (Hk & Ht & Huniq).
  - by destruct k.
  - rewrite fmap_cons. cbn [raster.mask_index]. destruct (f x) eqn:Ex.
    + assert (k = 0) as -> by (symmetry; by apply (Huniq 0 x)).
      simpl in Hk. split; [done|]. simpl. congruence.
    + destruct k as [|k]; simpl in Hk; [congruence|].
      destruct (IH k) as [Hm Hn].
      { split; [done|]. split; [done|]. intros j t' Hj Ht'.
        specialize (Huniq (S j) t' Hj Ht'). lia. }
      split; [by rewrite Hm | done].
Qed.

Lemma only_at_functional (l : list A) k k' t t' :
  only_at f l k t -> only_at f l k' t' -> k = k' /\ t = t'.
Proof.
  intros (Hk & Ht & Huniq) (Hk' & Ht' & _).
  specialize (Huniq k' t' Hk' Ht'). subst. split; [done|congruence].
Qed.

End MaskFacts.

Section ResolutionProofs.
Context (world_types : list string) (keys : option (gset string)).
Local Abbreviation find := (raster.find_axis_name_from world_types keys).
Local Abbreviation mask name := ((fun t => raster.str_in name t) <$> world_types).

Lemma binds_wcs_iff name :
  (raster.bool_sum (mask name) =? 1) = true <-> exists t, binds_wcs world_types name t.
Proof.
  rewrite Nat.eqb_eq, bool_sum_one. unfold binds_wcs.
  split; [intros (k & t & H); by exists t, k | intros (t & k & H); by exists k, t].
Qed.

Lemma binds_wcs_nth name t :
  binds_wcs world_types name t ->
  nth (raster.mask_index (mask name)) world_types EmptyString = t.
Proof.
  intros (k & H).
  destruct (mask_index_only_at (fun t => raster.str_in name t) EmptyString
              world_types k t H) as [-> Hn]. done.
Qed.

Lemma binds_wcs_functional name t t' :
  binds_wcs world_types name t -> binds_wcs world_types name t' -> t = t'.
Proof.
  intros (k & H) (k' & H').
  by destruct (only_at_functional (fun t => raster.str_in name t) _ _ _ _ _ H H').
Qed.

Lemma in_keys_iff name :
  in_keys keys name <->
  match keys with Some ks => bool_decide (name ∈ ks) = true | None => False end.
Proof.
  unfold in_keys. destruct keys as [ks|].
  - rewrite bool_decide_eq_true. split; [intros (? & [= <-] & ?); done | eauto].
  - split; [intros (? & ? & _); done | done].
Qed.

(** One turn of the loop. *)
Lemma find_cons name rest :
  (forall b, binds world_types keys name b -> find (name :: rest) = Some b) /\
  (unmatched world_types keys name -> find (name :: rest) = find rest) /\
  ((exists b, binds world_types keys name b) \/ unmatched world_types keys name).
Proof.
  cbn [raster.find_axis_name_from].
  destruct (raster.bool_sum (mask name) =? 1) eqn:E.
  - apply binds_wcs_iff in E as Hex. destruct Hex as (t & Ht).
    split; [|split].
    + intros [n loc] [[Hl Hb]|(Hl & Hn & Hno & _)]; simpl in *; subst.
      * by rewrite (binds_wcs_nth name n Hb).
      * destruct Hno. eauto.
    + intros [Hno _]. destruct Hno. eauto.
    + left. exists (t, raster.wcs). left. done.
  - assert (Hno : ~ exists t, binds_wcs world_types name t).
    { rewrite <- binds_wcs_iff. congruence. }
    pose proof (in_keys_iff name) as Hk.
    destruct keys as [ks|].
    + destruct (bool_decide (name ∈ ks)) eqn:Ek.
      * split; [|split].
        -- intros [n loc] [[Hl Hb]|(Hl & Hn & _ & _)]; simpl in *; subst.
           ++ destruct Hno. eauto.
           ++ done.
        -- intros [_ Hnk]. destruct Hnk. by apply Hk.
        -- left. exists (name, raster.extra_coords_loc). right. simpl.
           split; [done|]. split; [done|]. split; [done|]. by apply Hk.
      * split; [|split].
        -- intros [n loc] [[Hl Hb]|(Hl & Hn & _ & Hin)]; simpl in *; subst.
           ++ destruct Hno. eauto.
           ++ apply Hk in Hin. congruence.
        -- done.
        -- right. split; [done|]. rewrite Hk. congruence.
    + split; [|split].
      * intros [n loc] [[Hl Hb]|(Hl & Hn & _ & Hin)]; simpl in *; subst.
        -- destruct Hno. eauto.
        -- by apply Hk in Hin.
      * done.
      * right. split; [done|]. intros Hin. by apply Hk in Hin.
Qed.

Lemma binds_not_unmatched name b :
  binds world_types keys name b -> ~ unmatched world_types keys name.
Proof.
  intros [[_ Hb]|(_ & _ & _ & Hin)] [Hno Hnk]; [destruct Hno; eauto | done].
Qed.

Lemma binds_functional name b b' :
  binds world_types keys name b -> binds world_types keys name b' -> b = b'.
Proof.
  destruct b as [n l], b' as [n' l'].
  intros [[Hl Hb]|(Hl & Hn & Hno & _)] [[Hl' Hb']|(Hl' & Hn' & Hno' & _)];
    simpl in *; subst.
  - f_equal. by eapply binds_wcs_functional.
  - destruct Hno'. eauto.
  - destruct Hno. eauto.
  - done.
Qed.

Lemma find_first_match names :
  (forall b, find names = Some b <->
     exists pre name post, names = pre ++ name :: post /\
       Forall (unmatched world_types keys) pre /\ binds world_types keys name b) /\
  (find names = None <-> Forall (unmatched world_types keys) names).
Proof.
  induction names as [|name rest [IHs IHn]].
  - split.
    + intros b. split; [done|]. intros (pre & name & post & H & _). by destruct pre.
    + split; [constructor|done].
  - destruct (find_cons name rest) as (Hb & Hu & [[b0 Hb0]|Hun]).
    + split.
      * intros b. rewrite (Hb b0 Hb0). split.
        -- intros [= <-]. exists [], name, rest. split; [done|]. split; [constructor|done].
        -- intros (pre & name' & post & Heq & Hpre & Hbind).
           destruct pre as [|p pre]; simpl in Heq; injection Heq as <- Heq.
           ++ f_equal. by eapply binds_functional.
           ++ inversion_clear Hpre as [|? ? Hp _]. by apply binds_not_unmatched in Hb0.
      * rewrite (Hb b0 Hb0). split; [done|]. intros H.
        inversion_clear H as [|? ? Hp _]. by apply binds_not_unmatched in Hb0.
    + rewrite (Hu Hun). split.
      * intros b. rewrite IHs. split.
        -- intros (pre & name' & post & -> & Hpre & Hbind).
           exists (name :: pre), name', post. split; [done|]. split; [by constructor|done].
        -- intros (pre & name' & post & Heq & Hpre & Hbind).
           destruct pre as [|p pre]; simpl in Heq; injection Heq as <- Heq.
           ++ by apply binds_not_unmatched in Hbind.
           ++ inversion_clear Hpre as [|? ? _ Hpre']. exists pre, name', post. done.
      * rewrite IHn. split; [by constructor|]. intros H. by inversion_clear H.
Qed.

End ResolutionProofs.

Section RasterAxes.
Context {num Quantity : Type}.
Local Abbreviation Raster := (raster.Raster (num := num) (Quantity := Quantity)).

(** C5.  The binding of a role is the binding given by the first synonym,
    in declared order, that gives one: every synonym before it matches
    neither a single world type nor a key of the extra coordinates; a
    synonym contained in exactly one world type binds to that world type in
    the WCS, whether or not it is also a key of the extra coordinates, and
    otherwise a synonym that is a key binds to the extra coordinates; the
    binding is absent exactly when no synonym matches anywhere. *)
Theorem find_axis_name_first_match (self : Raster) (supported_names : list string) :
  let world_types := raster.world_axis_physical_types self in
  let keys := dom <$> raster.extra_coords self in
  (forall b, raster._find_axis_name self supported_names = Some b <->
     exists pre name post, supported_names = pre ++ name :: post /\
       Forall (unmatched world_types keys) pre /\ binds world_types keys name b) /\
  (raster._find_axis_name self supported_names = None <->
     Forall (unmatched world_types keys) supported_names) /\
  (forall name rest t, binds_wcs world_types name t ->
     raster._find_axis_name self (name :: rest) = Some (t, raster.wcs)) /\
  (forall b b', raster._find_axis_name self supported_names = Some b ->
     raster._find_axis_name self supported_names = Some b' -> b = b').
Proof.
  intros world_types keys. unfold raster._find_axis_name. fold world_types keys.
  destruct (find_first_match world_types keys supported_names) as [Hs Hn].
  split; [exact Hs|]. split; [exact Hn|]. split; [|congruence].
  intros name rest t Ht.
  destruct (find_cons world_types keys name rest) as (Hb & _ & _).
  apply Hb. left. done.
Qed.

(** C4, on the code.  With the role unbound, the [time] and [lat]
    properties raise [NameError]: the lists they name in their message,
    [SUPPORTED_TIMES_NAMES] and [SUPPORTED_LATITUDE_NAME], are not defined.
    The [spectral], [exposure_time] and [lon] properties raise the
    [ValueError] that carries the role and the list of supported names. *)
Theorem absent_role_errors (self : Raster) :
  (raster._time_name self = None ->
     raster.time self = Raise (raster.name_error "SUPPORTED_TIMES_NAMES")) /\
  (raster._latitude_name self = None ->
     raster.lat self = Raise (raster.name_error "SUPPORTED_LATITUDE_NAME")) /\
  (raster._spectral_name self = None ->
     raster.spectral self =
     Raise (ValueError ("Spectral" +:+ raster.AXIS_NOT_FOUND_ERROR +:+
                        raster.repr_list raster.SUPPORTED_SPECTRAL_NAMES))) /\
  (raster._exposure_time_name self = None ->
     raster.exposure_time self =
     Raise (ValueError ("Exposure time" +:+ raster.AXIS_NOT_FOUND_ERROR +:+
                        raster.repr_list raster.SUPPORTED_EXPOSURE_NAMES))) /\
  (raster._longitude_name self = None ->
     raster.lon self =
     Raise (ValueError ("Longitude" +:+ raster.AXIS_NOT_FOUND_ERROR +:+
                        raster.repr_list raster.SUPPORTED_LONGITUDE_NAMES))).
Proof.
  unfold raster.time, raster.lat, raster.spectral, raster.exposure_time, raster.lon.
  repeat split; intros ->; reflexivity.
Qed.

(** With the role bound, each property returns the bound coordinate. *)
Lemma bound_role_values (self : Raster) :
  (forall n loc, raster._time_name self = Some (n, loc) ->
     raster.time self = raster._get_axis_coord self n loc) /\
  (forall n loc, raster._latitude_name self = Some (n, loc) ->
     raster.lat self = raster._get_axis_coord self n loc) /\
  (forall n loc, raster._spectral_name self = Some (n, loc) ->
     raster.spectral self = raster._get_axis_coord self n loc) /\
  (forall n loc, raster._exposure_time_name self = Some (n, loc) ->
     raster.exposure_time self = raster._get_axis_coord self n loc) /\
  (forall n loc, raster._longitude_name self = Some (n, loc) ->
     raster.lon self = raster._get_axis_coord self n loc).
Proof.
  unfold raster.time, raster.lat, raster.spectral, raster.exposure_time, raster.lon.
  repeat split; intros n loc ->; reflexivity.
Qed.

End RasterAxes.

Lemma absent_role_errors_witness :
  raster._time_name examples.spectrum = None /\
  raster.time examples.spectrum
    = Raise (NameError "name 'SUPPORTED_TIMES_NAMES' is not defined") /\
  raster._latitude_name examples.spectrum = None /\
  raster.lat examples.spectrum
    = Raise (NameError "name 'SUPPORTED_LATITUDE_NAME' is not defined").
Proof.
  destruct (absent_role_errors examples.spectrum) as (Ht & Hl & _).
  split; [by vm_compute|]. split; [apply Ht; by vm_compute|].
  split; [by vm_compute|]. apply Hl. by vm_compute.
Defined.

Lemma find_axis_name_first_match_witness :
  raster._find_axis_name examples.scan raster.SUPPORTED_TIME_NAMES
    = Some ("time", raster.wcs) /\
  raster._find_axis_name examples.scan raster.SUPPORTED_EXPOSURE_NAMES
    = Some ("exposure time", raster.extra_coords_loc) /\
  raster._find_axis_name examples.scan raster.SUPPORTED_LATITUDE_NAMES = None.
Proof.
  split; [|split; by vm_compute].
  destruct (find_axis_name_first_match examples.scan raster.SUPPORTED_TIME_NAMES)
    as (_ & _ & H & _).
  apply (H "time" _ "time"). exists 0. split; [reflexivity|]. split; [reflexivity|].
  intros [|[|[|j]]] t' Hj Ht'; simpl in Hj; try done.
  injection Hj as <-. by vm_compute in Ht'.
Defined.

(** ** The instrument axis types of a raster sequence *)

Section ListFacts.
Context {A : Type}.
Import spectrogram_sequence.

Lemma setitem_Ok (l l' : list A) i x :
  setitem l i x = Ok l' <-> i < length l /\ l' = <[i := x]> l.
Proof.
  unfold setitem. destruct (i <? length l) eqn:E.
  - apply Nat.ltb_lt in E. split; [intros [= <-]; done | intros [_ ->]; done].
  - apply Nat.ltb_ge in E. split; [done | lia].
Qed.

Lemma foldl_insert_length (l : list A) idxs x :
  length (foldl (fun arr i => <[i := x]> arr) l idxs) = length l.
Proof.
  revert l. induction idxs as [|i idxs IH]; intros l; simpl; [done|].
  by rewrite IH, length_insert.
Qed.

Lemma foldl_insert_lookup (l : list A) idxs x k :
  k < length l ->
  foldl (fun arr i => <[i := x]> arr) l idxs !! k
  = if bool_decide (k ∈ idxs) then Some x else l !! k.
Proof.
  revert l. induction idxs as [|i idxs IH]; intros l Hk.
  - case_bool_decide as Hin; [|done]. by apply elem_of_nil in Hin.
  - cbn [foldl]. rewrite IH by (by rewrite length_insert).
    destruct (decide (k ∈ idxs)) as [Hin|Hnin].
    + rewrite !bool_decide_eq_true_2; [done| |done]. by right.
    + rewrite (bool_decide_eq_false_2 (k ∈ idxs)) by done.
      destruct (decide (i = k)) as [->|Hne].
      * rewrite bool_decide_eq_true_2 by (by left).
        by rewrite list_lookup_insert_eq.
      * rewrite bool_decide_eq_false_2.
        -- by rewrite list_lookup_insert_ne.
        -- intros Hin. apply elem_of_cons in Hin as [?|?]; congruence.
Qed.

Lemma setitems_Ok (l : list A) idxs x :
  (forall i, i ∈ idxs -> i < length l) ->
  setitems l idxs x = Ok (foldl (fun arr i => <[i := x]> arr) l idxs).
Proof.
  intros H. unfold setitems.
  assert (forallb (fun i => i <? length l) idxs = true) as ->; [|done].
  apply forallb_forall. intros i Hi. apply Nat.ltb_lt, H. by apply list_elem_of_In.
Qed.

Lemma count_true_fmap (g : A -> bool) (P : A -> Prop)
    `{!forall x, Decision (P x)} (l : list A) :
  (forall x, g x = true <-> P x) ->
  count_true (g <$> l) = length (filter P l).
Proof.
  intros Hg. unfold count_true. induction l as [|a l IH]; [done|].
  rewrite fmap_cons, !filter_cons. destruct (g a) eqn:E.
  - rewrite decide_True by done. rewrite decide_True by (by apply Hg).
    simpl. by rewrite IH.
  - rewrite decide_False by done. rewrite decide_False; [done|].
    intros HP. apply Hg in HP. congruence.
Qed.

Lemma omap_seq_shift {B} (g : nat -> option B) off n :
  omap g (seq (S off) n) = omap (fun k => g (S k)) (seq off n).
Proof.
  revert off. induction n as [|n IH]; intros off; [done|].
  cbn [seq omap list_omap]. by rewrite IH.
Qed.

Lemma omap_seq_ext {B} (g g' : nat -> option B) off n :
  (forall k, off <= k < off + n -> g k = g' k) ->
  omap g (seq off n) = omap g' (seq off n).
Proof.
  revert off. induction n as [|n IH]; intros off H; [done|].
  cbn [seq omap list_omap]. rewrite (H off) by lia.
  rewrite IH; [done|]. intros k Hk. apply H. lia.
Qed.

Lemma mask_select_seq (l : list A) (mask : list bool) :
  length mask = length l ->
  mask_select l mask =
  omap (fun k => if default false (mask !! k) then l !! k else None)
       (seq 0 (length l)).
Proof.
  revert mask. induction l as [|x l IH]; intros [|b mask] Hlen; try done.
  cbn [mask_select length seq omap list_omap lookup list_lookup default].
  rewrite omap_seq_shift. cbn [lookup list_lookup].
  rewrite IH by (simpl in Hlen; lia).
  destruct b; done.
Qed.

Lemma slice_scan_axis_types_mask (l : list A) (item : list axis_item) k :
  length item <= length l -> k < length l ->
  (((fun x => negb (is_integral x)) <$> item) ++
     replicate (length l - length ((fun x => negb (is_integral x)) <$> item)) true) !! k
  = Some (kept item k).
Proof.
  intros Hle Hk. unfold kept. rewrite length_fmap.
  destruct (item !! k) as [x|] eqn:E.
  - rewrite lookup_app_l by (rewrite length_fmap; by eapply lookup_lt_Some).
    by rewrite list_lookup_fmap, E.
  - apply lookup_ge_None in E.
    rewrite lookup_app_r by (by rewrite length_fmap).
    rewrite length_fmap. apply lookup_replicate_2. lia.
Qed.

End ListFacts.

Lemma slice_scan_axis_types_spec (labels : list (option string))
    (item : list spectrogram_sequence.axis_item) :
  labels <> [] -> length item <= length labels ->
  spectrogram_sequence._slice_scan_axis_types labels item = Ok (kept_labels labels item).
Proof.
  intros Hne Hle. unfold spectrogram_sequence._slice_scan_axis_types.
  set (mask := _ ++ _).
  assert (Hlen : length mask = length labels).
  { unfold mask. rewrite length_app, length_replicate, length_fmap. lia. }
  destruct mask as [|b mask'] eqn:Em.
  { destruct labels; [done|]. simpl in Hlen. lia. }
  rewrite <- Em in *. rewrite Hlen, Nat.eqb_refl.
  f_equal. rewrite mask_select_seq by done. unfold kept_labels.
  apply omap_seq_ext. intros k Hk. unfold mask.
  rewrite slice_scan_axis_types_mask by lia. done.
Qed.

Section SequenceInit.
Context {Cube Meta : Type}.
Context (ndim : Cube -> nat).
Context (world_axis_physical_types : Cube -> list string).
Context (_spectral_name : Cube -> option string).
Import spectrogram_sequence.

Local Abbreviation init :=
  (RasterSequence_init (Meta := Meta) ndim world_axis_physical_types _spectral_name).
Local Abbreviation spectral_axes c :=
  (where_equal (world_axis_physical_types c) (_spectral_name c)).

(** C7, as amended.  With the slit-step and spectral positions inside the
    array, construction fails with the inconsistent-axes error exactly when
    more than one axis is left without a type; otherwise it succeeds, every
    axis keeps the type it was given (spectral where the world type is the
    bound spectral name, else slit step at the common axis) and an axis
    left without a type, if there is one, becomes "position along slit". *)
Theorem init_axes_types (cube0 : Cube) (rest : list Cube)
    (common_axis : option nat) (meta : Meta) :
  (forall c, common_axis = Some c -> c < ndim cube0) ->
  (forall i, i ∈ spectral_axes cube0 -> i < ndim cube0) ->
  let unlabeled := unlabeled_axes (ndim cube0) common_axis (spectral_axes cube0) in
  (init (cube0 :: rest) common_axis meta = Raise (ValueError INCONSISTENT_AXES_ERROR)
     <-> 1 < length unlabeled) /\
  (length unlabeled <= 1 ->
     exists r, init (cube0 :: rest) common_axis meta = Ok r /\
       base r = mkSpectrogramSequence (cube0 :: rest) common_axis meta /\
       length (_single_scan_instrument_axes_types r) = ndim cube0 /\
       forall k, k < ndim cube0 ->
         _single_scan_instrument_axes_types r !! k =
         Some (Some (default SLIT_AXIS_NAME
                       (label_before_slit common_axis (spectral_axes cube0) k)))).
Proof.
  intros Hca Hsp unlabeled.
  set (n := ndim cube0) in *. set (idxs := spectral_axes cube0) in *.
  set (t1 := match common_axis with
             | Some c => <[c := Some SLIT_STEP_AXIS_NAME]> (replicate n None)
             | None => replicate n None end).
  set (t2 := foldl (fun arr i => <[i := Some SPECTRAL_AXIS_NAME]> arr) t1 idxs).
  assert (Hl1 : length t1 = n).
  { unfold t1. destruct common_axis; rewrite ?length_insert, length_replicate; done. }
  assert (Hl2 : length t2 = n) by (unfold t2; by rewrite foldl_insert_length).
  assert (Ht2 : forall k, k < n -> t2 !! k = Some (label_before_slit common_axis idxs k)).
  { intros k Hk. unfold t2. rewrite foldl_insert_lookup by lia.
    unfold label_before_slit. destruct (bool_decide (k ∈ idxs)); [done|].
    unfold t1. destruct common_axis as [c|].
    - destruct (decide (c = k)) as [->|Hne].
      + rewrite bool_decide_eq_true_2 by done.
        rewrite list_lookup_insert_eq; [done|]. by rewrite length_replicate.
      + rewrite bool_decide_eq_false_2 by congruence.
        rewrite list_lookup_insert_ne by done. by apply lookup_replicate_2.
    - rewrite bool_decide_eq_false_2 by done. by apply lookup_replicate_2. }
  assert (Heq : t2 = label_before_slit common_axis idxs <$> seq 0 n).
  { apply list_eq. intros k. destruct (decide (k < n)) as [Hk|Hk].
    - rewrite Ht2 by done. rewrite list_lookup_fmap, lookup_seq_lt by done. done.
    - rewrite !lookup_ge_None_2; [done| |lia]. rewrite length_fmap, length_seq. lia. }
  assert (Hcount : count_true ((fun t : option string => bool_decide (t = None)) <$> t2)
                   = length unlabeled).
  { rewrite Heq, <- list_fmap_compose. unfold unlabeled, unlabeled_axes.
    apply count_true_fmap. intros k. simpl. by rewrite bool_decide_eq_true. }
  assert (Hrun : init (cube0 :: rest) common_axis meta =
    if 1 <? length unlabeled then Raise (ValueError INCONSISTENT_AXES_ERROR)
    else Ok {| base := mkSpectrogramSequence (cube0 :: rest) common_axis meta;
               _single_scan_instrument_axes_types :=
                 (fun t : option string =>
                    match t with None => Some SLIT_AXIS_NAME | Some _ => t end) <$> t2 |}).
  { unfold RasterSequence_init. cbn [getitem lookup list_lookup].
    rewrite bind_Ok. fold n.
    assert (Hs1 : match common_axis with
                  | Some c => setitem (replicate n None) c (Some SLIT_STEP_AXIS_NAME)
                  | None => Ok (replicate n None) end = Ok t1).
    { unfold t1. destruct common_axis as [c|]; [|done].
      apply setitem_Ok. split; [|done]. rewrite length_replicate. by apply Hca. }
    rewrite Hs1, bind_Ok. fold idxs.
    rewrite setitems_Ok by (intros i Hi; rewrite Hl1; by apply Hsp).
    rewrite bind_Ok. fold t2. rewrite Hcount. done. }
  rewrite Hrun. split.
  - destruct (1 <? length unlabeled) eqn:E.
    + apply Nat.ltb_lt in E. done.
    + apply Nat.ltb_ge in E. split; [done|lia].
  - intros Hle. assert ((1 <? length unlabeled) = false) as -> by (apply Nat.ltb_ge; lia).
    eexists. split; [reflexivity|]. cbn [base _single_scan_instrument_axes_types].
    split; [done|]. split; [by rewrite length_fmap|].
    intros k Hk. rewrite list_lookup_fmap, Ht2 by done. simpl.
    by destruct (label_before_slit common_axis idxs k).
Qed.

End SequenceInit.

Section Slicer.
Context {Cube Meta : Type}.
Import spectrogram_sequence.
Context (parent_getitem : RasterSequence (Cube := Cube) (Meta := Meta) -> index ->
                          result (pyobject (Cube := Cube) (Meta := Meta))).
Local Abbreviation slice := (SequenceSlicer_getitem parent_getitem).

(** C6, as amended.  For a raster sequence with a common axis and a tuple
    item that reaches beyond the slit-step position or stops before the
    common-axis position: what the inherited slicing returns is handed on
    unchanged unless it is a raster sequence; a raster sequence whose
    slit-step entry is an integer becomes a plain spectrogram sequence of
    the same cubes and metadata with no common axis; any other raster
    sequence keeps its class and takes the axis types of the positions
    that are not addressed by an integer, in order. *)
Theorem slice_as_raster_demotes_or_reslices
    (seq : RasterSequence) (items : list axis_item) (common_axis : nat)
    (res : pyobject) :
  _common_axis (base seq) = Some common_axis ->
  parent_getitem seq (index_tuple items) = Ok res ->
  length items <> S common_axis ->
  common_axis < length (_single_scan_instrument_axes_types seq) ->
  length items <= S (length (_single_scan_instrument_axes_types seq)) ->
  ((forall r, res <> obj_raster_sequence r) -> slice seq (index_tuple items) = Ok res) /\
  (forall r x, res = obj_raster_sequence r ->
     items !! S common_axis = Some x -> is_integral x = true ->
     slice seq (index_tuple items) =
     Ok (obj_spectrogram_sequence
           {| data := data (base r); _common_axis := None; meta := meta (base r) |})) /\
  (forall r, res = obj_raster_sequence r ->
     kept (drop 1 items) common_axis = true ->
     slice seq (index_tuple items) =
     Ok (obj_raster_sequence
           {| base := base r;
              _single_scan_instrument_axes_types :=
                kept_labels (_single_scan_instrument_axes_types seq) (drop 1 items) |})).
Proof.
  intros Hca Hparent Hlen Hin Hmax.
  assert (Hne : _single_scan_instrument_axes_types seq <> []).
  { intros E. rewrite E in Hin. simpl in Hin. lia. }
  assert (Hle : length (drop 1 items) <= length (_single_scan_instrument_axes_types seq)).
  { rewrite length_drop. lia. }
  unfold SequenceSlicer_getitem. rewrite Hparent, bind_Ok.
  split; [|split].
  - intros Hres. destruct res as [c|s|r]; try done. by destruct (Hres r).
  - intros r x -> Hx Hint. rewrite Hca.
    assert ((common_axis <? length items) = true) as ->.
    { apply Nat.ltb_lt. apply lookup_lt_Some in Hx. lia. }
    unfold tuple_getitem. rewrite lookup_drop. cbn [Nat.add].
    rewrite Hx, bind_Ok, Hint. done.
  - intros r ->. rewrite Hca.
    rewrite (slice_scan_axis_types_spec _ _ Hne Hle), bind_Ok.
    unfold kept, tuple_getitem. rewrite lookup_drop. cbn [Nat.add].
    destruct (items !! S common_axis) as [x|] eqn:Hx.
    + intros Hk. apply negb_true_iff in Hk.
      assert ((common_axis <? length items) = true) as ->.
      { apply Nat.ltb_lt. apply lookup_lt_Some in Hx. lia. }
      rewrite bind_Ok, Hk. done.
    + intros _. apply lookup_ge_None in Hx.
      assert ((common_axis <? length items) = false) as ->; [|done].
      apply Nat.ltb_ge. lia.
Qed.

End Slicer.

Section SequenceExamples.
Import spectrogram_sequence.

Local Abbreviation example_init :=
  (RasterSequence_init (Meta := Datatypes.unit) examples.cube_ndim
     examples.cube_world_types examples.cube_spectral_name).
Local Abbreviation example_slice := (SequenceSlicer_getitem examples.sequence_getitem).

Lemma init_axes_types_witness :
  exists r,
    example_init [examples.raster_cube; examples.raster_cube] (Some 0) tt = Ok r /\
    base r = mkSpectrogramSequence [examples.raster_cube; examples.raster_cube] (Some 0) tt /\
    length (_single_scan_instrument_axes_types r) = 3 /\
    forall k, k < 3 ->
      _single_scan_instrument_axes_types r !! k =
      Some (Some (default SLIT_AXIS_NAME (label_before_slit (Some 0) [2] k))).
Proof.
  destruct (init_axes_types examples.cube_ndim examples.cube_world_types
              examples.cube_spectral_name examples.raster_cube [examples.raster_cube]
              (Some 0) tt) as [_ H].
  - intros c [= <-]. vm_compute. lia.
  - intros i Hi. vm_compute in Hi. apply list_elem_of_singleton in Hi as ->.
    vm_compute. lia.
  - apply H. vm_compute. lia.
Defined.

(** C7, counterexample.  A two-axis cube (slit step, spectral) leaves no
    axis without a type, and construction succeeds. *)
Lemma init_succeeds_with_no_unlabeled_axis :
  unlabeled_axes (examples.cube_ndim examples.single_pixel_cube) (Some 0)
    (where_equal (examples.cube_world_types examples.single_pixel_cube)
                 (examples.cube_spectral_name examples.single_pixel_cube)) = [] /\
  example_init [examples.single_pixel_cube] (Some 0) tt =
  Ok {| base := mkSpectrogramSequence [examples.single_pixel_cube] (Some 0) tt;
        _single_scan_instrument_axes_types :=
          [Some SLIT_STEP_AXIS_NAME; Some SPECTRAL_AXIS_NAME] |}.
Proof. split; by vm_compute. Qed.

Lemma slice_as_raster_demotes_or_reslices_witness :
  example_slice examples.scans
    (index_tuple [examples.all; item_int 1; examples.all]) =
  Ok (obj_spectrogram_sequence
        (mkSpectrogramSequence [examples.raster_cube; examples.raster_cube] None tt)) /\
  example_slice examples.scans
    (index_tuple [examples.all; examples.all; item_int 2]) =
  Ok (obj_raster_sequence
        {| base := base examples.scans;
           _single_scan_instrument_axes_types :=
             kept_labels examples.raster_labels [examples.all; item_int 2] |}).
Proof.
  split.
  - destruct (slice_as_raster_demotes_or_reslices examples.sequence_getitem
                examples.scans [examples.all; item_int 1; examples.all] 0
                (obj_raster_sequence examples.scans)) as (_ & H & _).
    + reflexivity.
    + reflexivity.
    + simpl. lia.
    + simpl. lia.
    + simpl. lia.
    + apply (H examples.scans (item_int 1)); reflexivity.
  - destruct (slice_as_raster_demotes_or_reslices examples.sequence_getitem
                examples.scans [examples.all; examples.all; item_int 2] 0
                (obj_raster_sequence examples.scans)) as (_ & _ & H).
    + reflexivity.
    + reflexivity.
    + simpl. lia.
    + simpl. lia.
    + simpl. lia.
    + apply (H examples.scans); reflexivity.
Defined.

(** C6, counterexample.  With integers for the scan and for the slit step,
    the inherited slicing returns one cube, and the as-raster view hands on
    that cube: the result is no spectrogram sequence. *)
Lemma integer_scan_index_gives_a_cube :
  _common_axis (base examples.scans) = Some 0 /\
  [item_int 0; item_int 0] !! 1 = Some (item_int 0) /\
  example_slice examples.scans (index_tuple [item_int 0; item_int 0])
    = Ok (obj_cube examples.raster_cube) /\
  forall s, example_slice examples.scans (index_tuple [item_int 0; item_int 0])
            <> Ok (obj_spectrogram_sequence s).
Proof.
  split; [reflexivity|]. split; [reflexivity|]. split; [reflexivity|].
  intros s H. vm_compute in H. discriminate H.
Qed.

(** The tuples the theorem on slicing leaves out: with the slit step on
    the second cube axis, a tuple of two slices makes the slicer read past
    the end of the cube items. *)
Lemma slice_short_tuple_index_error :
  example_slice examples.scans_stepping_second
    (index_tuple [examples.all; examples.all])
  = Raise (IndexError "tuple index out of range").
Proof. reflexivity. Qed.

End SequenceExamples.

(** * Further properties *)

Section MaskSelectFacts.
Context {A : Type}.
Import spectrogram_sequence.

Lemma mask_select_length (l : list A) (mask : list bool) :
  length mask = length l -> length (mask_select l mask) = count_true mask.
Proof.
  unfold count_true. revert mask.
  induction l as [|x l IH]; intros [|b mask] Hlen; try done.
  cbn [mask_select]. rewrite filter_cons. destruct b.
  - rewrite decide_True by done. cbn [length]. rewrite IH by (simpl in Hlen; lia). done.
  - rewrite decide_False by done. apply IH. simpl in Hlen. lia.
Qed.

Lemma mask_select_sublist (l : list A) (mask : list bool) :
  mask_select l mask `sublist_of` l.
Proof.
  revert mask. induction l as [|x l IH]; intros [|b mask]; cbn [mask_select].
  - constructor.
  - constructor.
  - apply sublist_nil_l.
  - destruct b; [by apply sublist_skip | by apply sublist_cons].
Qed.

Lemma mask_select_all (l : list A) (mask : list bool) :
  length mask = length l -> Forall (fun b => b = true) mask -> mask_select l mask = l.
Proof.
  revert mask. induction l as [|x l IH]; intros [|b mask] Hlen Hall; try done.
  inversion_clear Hall as [|? ? -> Hrest]. cbn [mask_select].
  f_equal. apply IH; [simpl in Hlen; lia | done].
Qed.

Lemma mask_select_filter (g : A -> bool) (l : list A) :
  mask_select l (g <$> l) = filter (fun x => g x = true) l.
Proof.
  induction l as [|x l IH]; [done|].
  rewrite fmap_cons. cbn [mask_select]. rewrite filter_cons, IH.
  destruct (g x); [by rewrite decide_True | by rewrite decide_False].
Qed.

Lemma list_filter_all_true (P : A -> Prop) `{!forall x, Decision (P x)} (l : list A) :
  Forall P l -> filter P l = l.
Proof.
  induction 1 as [|x l Hx _ IH]; [done|].
  rewrite filter_cons, decide_True by done. by rewrite IH.
Qed.

Lemma list_filter_delete_at (P : A -> Prop) `{!forall x, Decision (P x)} (l : list A) c :
  (forall k x, l !! k = Some x -> (~ P x <-> k = c)) ->
  filter P l = delete c l.
Proof.
  revert c. induction l as [|x l IH]; intros c Hc; [done|].
  rewrite filter_cons. destruct (decide (P x)) as [Hx|Hx].
  - destruct c as [|c].
    + exfalso. by apply (Hc 0 x eq_refl).
    + cbn [delete list_delete]. f_equal. apply IH.
      intros k y Hk. rewrite (Hc (S k) y Hk). lia.
  - assert (c = 0) as -> by (symmetry; by apply (Hc 0 x eq_refl)).
    cbn [delete list_delete]. apply list_filter_all_true.
    apply Forall_lookup. intros k y Hk.
    destruct (decide (P y)) as [|Hy]; [done|].
    apply (Hc (S k) y Hk) in Hy. done.
Qed.
End MaskSelectFacts.

Section SliceLaws.
Import spectrogram_sequence.

Lemma count_true_not_integral (item : list axis_item) :
  count_true ((fun x => negb (is_integral x)) <$> item)
  + length (filter (fun x => is_integral x = true) item) = length item.
Proof.
  unfold count_true. induction item as [|x item IH]; [done|].
  rewrite fmap_cons, !filter_cons. destruct (is_integral x) eqn:E; simpl; lia.
Qed.

Lemma count_true_app (a b : list bool) : count_true (a ++ b) = count_true a + count_true b.
Proof. unfold count_true. by rewrite filter_app, length_app. Qed.

Lemma count_true_replicate n : count_true (replicate n true) = n.
Proof.
  unfold count_true. induction n as [|n IH]; [done|].
  cbn [replicate]. rewrite filter_cons, decide_True by done. simpl. by rewrite IH.
Qed.

(** The mask [_slice_scan_axis_types] builds. *)
Lemma slice_scan_axis_types_run (labels : list (option string)) (item : list axis_item) :
  let mask := ((fun x => negb (is_integral x)) <$> item) ++
              replicate (length labels - length item) true in
  _slice_scan_axis_types labels item =
  match mask with
  | [] => Raise (IndexError "arrays used as indices must be of integer (or boolean) type")
  | _ => if length mask =? length labels then Ok (mask_select labels mask)
         else Raise (IndexError "boolean index did not match indexed array")
  end.
Proof. unfold _slice_scan_axis_types. by rewrite length_fmap. Qed.

Lemma slice_scan_axis_types_Ok (labels : list (option string)) (item : list axis_item) :
  labels <> [] -> length item <= length labels ->
  let mask := ((fun x => negb (is_integral x)) <$> item) ++
              replicate (length labels - length item) true in
  length mask = length labels /\
  count_true mask + length (filter (fun x => is_integral x = true) item) = length labels /\
  _slice_scan_axis_types labels item = Ok (mask_select labels mask).
Proof.
  intros Hne Hle mask. rewrite slice_scan_axis_types_run. fold mask.
  assert (Hlen : length mask = length labels).
  { unfold mask. rewrite length_app, length_replicate, length_fmap. lia. }
  split; [done|]. split.
  - unfold mask. rewrite count_true_app, count_true_replicate.
    pose proof (count_true_not_integral item). lia.
  - destruct mask as [|b mask'] eqn:Em.
    { destruct labels; [done|]. simpl in Hlen. lia. }
    rewrite <- Em in *. by rewrite Hlen, Nat.eqb_refl.
Qed.

Lemma slice_scan_axis_types_too_long (labels : list (option string))
    (item : list axis_item) :
  length labels < length item ->
  _slice_scan_axis_types labels item =
  Raise (IndexError "boolean index did not match indexed array").
Proof.
  intros Hlt. rewrite slice_scan_axis_types_run. set (mask := _ ++ _).
  assert (Hlen : length mask = length item + (length labels - length item)).
  { unfold mask. by rewrite length_app, length_replicate, length_fmap. }
  destruct mask as [|b mask'] eqn:Em; [simpl in Hlen; lia|].
  rewrite <- Em in *.
  assert ((length mask =? length labels) = false) as ->; [|done].
  apply Nat.eqb_neq. lia.
Qed.

(** X1.  When the item addresses no more axes than there are types (and
    there is at least one type), [_slice_scan_axis_types] succeeds: its
    result has one entry less for every integer of the item, it is the
    type array with entries left out, in the same order, and an item without
    integers gives the type array back. *)
Theorem slice_scan_axis_types_laws (labels : list (option string)) (item : list axis_item) :
  labels <> [] -> length item <= length labels ->
  exists types,
    _slice_scan_axis_types labels item = Ok types /\
    length types + length (filter (fun x => is_integral x = true) item) = length labels /\
    types `sublist_of` labels /\
    (Forall (fun x => is_integral x = false) item -> types = labels).
Proof.
  intros Hne Hle.
  destruct (slice_scan_axis_types_Ok labels item Hne Hle) as (Hlen & Hcount & ->).
  eexists. split; [reflexivity|]. split; [|split].
  - by rewrite mask_select_length.
  - apply mask_select_sublist.
  - intros Hall. apply mask_select_all; [done|].
    apply Forall_app. split.
    + apply Forall_fmap. eapply Forall_impl; [exact Hall|]. intros x Hx. simpl. by rewrite Hx.
    + apply Forall_replicate. done.
Qed.

(** X2.  [_slice_scan_axis_types] succeeds exactly when there is at least
    one type and the item is no longer than the type array; an item longer
    than the type array raises the index error of a mask that does not fit. *)
Theorem slice_scan_axis_types_succeeds_iff (labels : list (option string))
    (item : list axis_item) :
  (is_ok (_slice_scan_axis_types labels item) = true <->
     labels <> [] /\ length item <= length labels) /\
  (length labels < length item ->
     _slice_scan_axis_types labels item =
     Raise (IndexError "boolean index did not match indexed array")).
Proof.
  split; [|apply slice_scan_axis_types_too_long].
  split.
  - intros Hok. destruct (decide (length item <= length labels)) as [Hle|Hgt].
    + split; [|done]. intros ->. destruct item; [done|]. simpl in Hle. lia.
    + rewrite slice_scan_axis_types_too_long in Hok by lia. done.
  - intros [Hne Hle].
    destruct (slice_scan_axis_types_Ok labels item Hne Hle) as (_ & _ & ->). done.
Qed.
End SliceLaws.

Section InitMore.
Context {Cube Meta : Type}.
Context (ndim : Cube -> nat).
Context (world_axis_physical_types : Cube -> list string).
Context (_spectral_name : Cube -> option string).
Import spectrogram_sequence.

Local Abbreviation init :=
  (RasterSequence_init (Meta := Meta) ndim world_axis_physical_types _spectral_name).
Local Abbreviation spectral_axes c :=
  (where_equal (world_axis_physical_types c) (_spectral_name c)).

(** The axis types construction gives when nothing stops it. *)
Local Abbreviation final_types cube0 common_axis :=
  ((fun k => Some (default SLIT_AXIS_NAME
                     (label_before_slit common_axis (spectral_axes cube0) k)))
     <$> seq 0 (ndim cube0)).

Lemma setitems_Raise {A} (l : list A) idxs x i :
  i ∈ idxs -> length l <= i ->
  setitems l idxs x = Raise (IndexError "index out of bounds").
Proof.
  intros Hi Hle. unfold setitems.
  assert (forallb (fun i => i <? length l) idxs = false) as ->; [|done].
  apply not_true_is_false. intros H. rewrite forallb_forall in H.
  apply list_elem_of_In in Hi. apply H in Hi. apply Nat.ltb_lt in Hi. lia.
Qed.

Lemma init_run (cube0 : Cube) (rest : list Cube) (common_axis : option nat) (meta : Meta) :
  (forall c, common_axis = Some c -> c < ndim cube0) ->
  (forall i, i ∈ spectral_axes cube0 -> i < ndim cube0) ->
  init (cube0 :: rest) common_axis meta =
  if 1 <? length (unlabeled_axes (ndim cube0) common_axis (spectral_axes cube0))
  then Raise (ValueError INCONSISTENT_AXES_ERROR)
  else Ok {| base := mkSpectrogramSequence (cube0 :: rest) common_axis meta;
             _single_scan_instrument_axes_types := final_types cube0 common_axis |}.
Proof.
  intros Hca Hsp.
  set (n := ndim cube0) in *. set (idxs := spectral_axes cube0) in *.
  set (t1 := match common_axis with
             | Some c => <[c := Some SLIT_STEP_AXIS_NAME]> (replicate n None)
             | None => replicate n None end).
  set (t2 := foldl (fun arr i => <[i := Some SPECTRAL_AXIS_NAME]> arr) t1 idxs).
  assert (Hl1 : length t1 = n).
  { unfold t1. destruct common_axis; rewrite ?length_insert, length_replicate; done. }
  assert (Ht2 : forall k, k < n -> t2 !! k = Some (label_before_slit common_axis idxs k)).
  { intros k Hk. unfold t2. rewrite foldl_insert_lookup by lia.
    unfold label_before_slit. destruct (bool_decide (k ∈ idxs)); [done|].
    unfold t1. destruct common_axis as [c|].
    - destruct (decide (c = k)) as [->|Hne].
      + rewrite bool_decide_eq_true_2 by done.
        rewrite list_lookup_insert_eq; [done|]. by rewrite length_replicate.
      + rewrite bool_decide_eq_false_2 by congruence.
        rewrite list_lookup_insert_ne by done. by apply lookup_replicate_2.
    - rewrite bool_decide_eq_false_2 by done. by apply lookup_replicate_2. }
  assert (Heq : t2 = label_before_slit common_axis idxs <$> seq 0 n).
  { apply list_eq. intros k. destruct (decide (k < n)) as [Hk|Hk].
    - rewrite Ht2 by done. rewrite list_lookup_fmap, lookup_seq_lt by done. done.
    - rewrite !lookup_ge_None_2; [done| |].
      + rewrite length_fmap, length_seq. lia.
      + unfold t2. rewrite foldl_insert_length. lia. }
  unfold RasterSequence_init. cbn [getitem lookup list_lookup].
  rewrite bind_Ok. fold n.
  assert (Hs1 : match common_axis with
                | Some c => setitem (replicate n None) c (Some SLIT_STEP_AXIS_NAME)
                | None => Ok (replicate n None) end = Ok t1).
  { unfold t1. destruct common_axis as [c|]; [|done].
    apply setitem_Ok. split; [|done]. rewrite length_replicate. by apply Hca. }
  rewrite Hs1, bind_Ok. fold idxs.
  rewrite setitems_Ok by (intros i Hi; rewrite Hl1; by apply Hsp).
  rewrite bind_Ok. fold t2.
  assert (Hcount : count_true ((fun t : option string => bool_decide (t = None)) <$> t2)
                   = length (unlabeled_axes n common_axis idxs)).
  { rewrite Heq, <- list_fmap_compose. unfold unlabeled_axes.
    apply count_true_fmap. intros k. simpl. by rewrite bool_decide_eq_true. }
  rewrite Hcount. destruct (1 <? _); [done|]. do 2 f_equal.
  rewrite Heq, <- list_fmap_compose. apply list_fmap_ext. intros _ k _. simpl.
  by destruct (label_before_slit common_axis idxs k).
Qed.

(** X3.  [RasterSequence.__init__] raises [IndexError] on an empty list of
    cubes, on a common axis that is no axis of the first cube, and when the
    world type that equals the spectral name sits at a position that is no
    axis of the first cube. *)
Theorem init_index_errors (meta : Meta) :
  (forall common_axis,
     init [] common_axis meta = Raise (IndexError "list index out of range")) /\
  (forall cube0 rest c, ndim cube0 <= c ->
     init (cube0 :: rest) (Some c) meta = Raise (IndexError "index out of bounds")) /\
  (forall cube0 rest common_axis i,
     (forall c, common_axis = Some c -> c < ndim cube0) ->
     i ∈ spectral_axes cube0 -> ndim cube0 <= i ->
     init (cube0 :: rest) common_axis meta = Raise (IndexError "index out of bounds")).
Proof.
  split; [done|]. split.
  - intros cube0 rest c Hc. unfold RasterSequence_init. cbn [getitem lookup list_lookup].
    rewrite bind_Ok. unfold setitem. rewrite length_replicate.
    assert ((c <? ndim cube0) = false) as -> by (apply Nat.ltb_ge; lia). done.
  - intros cube0 rest common_axis i Hca Hi Hle.
    unfold RasterSequence_init. cbn [getitem lookup list_lookup]. rewrite bind_Ok.
    assert (Hs1 : exists t1, match common_axis with
                | Some c => setitem (replicate (ndim cube0) None) c (Some SLIT_STEP_AXIS_NAME)
                | None => Ok (replicate (ndim cube0) None) end = Ok t1 /\ length t1 = ndim cube0).
    { destruct common_axis as [c|].
      - eexists. split; [apply setitem_Ok; split; [|done]|].
        + rewrite length_replicate. by apply Hca.
        + by rewrite length_insert, length_replicate.
      - eexists. split; [done|]. by rewrite length_replicate. }
    destruct Hs1 as (t1 & -> & Hl1). rewrite bind_Ok.
    rewrite (setitems_Raise _ _ _ i Hi) by lia. done.
Qed.

Lemma init_Ok_inv data_list common_axis meta r :
  init data_list common_axis meta = Ok r ->
  exists cube0 rest, data_list = cube0 :: rest /\
    (forall c, common_axis = Some c -> c < ndim cube0) /\
    (forall i, i ∈ spectral_axes cube0 -> i < ndim cube0) /\
    length (unlabeled_axes (ndim cube0) common_axis (spectral_axes cube0)) <= 1 /\
    r = {| base := mkSpectrogramSequence data_list common_axis meta;
           _single_scan_instrument_axes_types := final_types cube0 common_axis |}.
Proof.
  intros Hr. destruct data_list as [|cube0 rest]; [done|].
  destruct (init_index_errors meta) as (_ & Hc & Hs).
  assert (Hca : forall c, common_axis = Some c -> c < ndim cube0).
  { intros c ->. destruct (decide (c < ndim cube0)) as [|Hn]; [done|].
    rewrite Hc in Hr by lia. done. }
  assert (Hsp : forall i, i ∈ spectral_axes cube0 -> i < ndim cube0).
  { intros i Hi. destruct (decide (i < ndim cube0)) as [|Hn]; [done|].
    rewrite (Hs cube0 rest common_axis i) in Hr; [done|done|done|lia]. }
  rewrite init_run in Hr by done.
  exists cube0, rest. split; [done|]. split; [done|]. split; [done|].
  destruct (1 <? _) eqn:E; [done|]. apply Nat.ltb_ge in E. split; [lia|]. congruence.
Qed.

Lemma final_types_lookup cube0 common_axis k :
  k < ndim cube0 ->
  final_types cube0 common_axis !! k =
  Some (Some (default SLIT_AXIS_NAME
                (label_before_slit common_axis (spectral_axes cube0) k))).
Proof. intros Hk. by rewrite list_lookup_fmap, lookup_seq_lt. Qed.

Lemma final_types_lookup_inv cube0 common_axis k t :
  final_types cube0 common_axis !! k = Some t ->
  k < ndim cube0 /\
  t = Some (default SLIT_AXIS_NAME (label_before_slit common_axis (spectral_axes cube0) k)).
Proof.
  intros H. assert (Hk : k < ndim cube0).
  { apply lookup_lt_Some in H. by rewrite length_fmap, length_seq in H. }
  rewrite final_types_lookup in H by done. split; [done|congruence].
Qed.

Lemma final_types_label cube0 common_axis k (name : string) :
  name <> SLIT_AXIS_NAME ->
  final_types cube0 common_axis !! k = Some (Some name) <->
  k < ndim cube0 /\ label_before_slit common_axis (spectral_axes cube0) k = Some name.
Proof.
  intros Hname. split.
  - intros H. apply final_types_lookup_inv in H as [Hk Ht]. split; [done|].
    destruct (label_before_slit _ _ k); simpl in Ht; congruence.
  - intros [Hk Hl]. rewrite final_types_lookup by done. by rewrite Hl.
Qed.

Lemma final_types_slit_step cube0 common_axis k :
  (forall c, common_axis = Some c -> c < ndim cube0) ->
  final_types cube0 common_axis !! k = Some (Some SLIT_STEP_AXIS_NAME) <->
  common_axis = Some k /\ k ∉ spectral_axes cube0.
Proof.
  intros Hca. rewrite final_types_label by done. unfold label_before_slit.
  case_bool_decide as H1.
  - split; [intros [_ [=]] | intros [_ ?]; done].
  - case_bool_decide as H2.
    + split; [done|]. intros _. split; [by apply Hca|done].
    + split; [intros [_ [=]] | intros [? _]; done].
Qed.

(** X4.  Whenever [RasterSequence.__init__] succeeds, the sequence holds
    the cubes, common axis and metadata it was given, there is one axis
    type for each axis of the first cube and none is left empty, "slit
    step" sits exactly at the common axis (unless that axis is spectral),
    "spectral" sits exactly where the world type equals the spectral name,
    and at most one axis is "position along slit". *)
Theorem init_success_invariants data_list common_axis meta r :
  init data_list common_axis meta = Ok r ->
  base r = mkSpectrogramSequence data_list common_axis meta /\
  exists cube0 rest, data_list = cube0 :: rest /\
    length (_single_scan_instrument_axes_types r) = ndim cube0 /\
    Forall is_Some (_single_scan_instrument_axes_types r) /\
    (forall k, _single_scan_instrument_axes_types r !! k = Some (Some SLIT_STEP_AXIS_NAME) <->
               common_axis = Some k /\ k ∉ spectral_axes cube0) /\
    (forall k, _single_scan_instrument_axes_types r !! k = Some (Some SPECTRAL_AXIS_NAME) <->
               k ∈ spectral_axes cube0) /\
    (forall j k,
       _single_scan_instrument_axes_types r !! j = Some (Some SLIT_AXIS_NAME) ->
       _single_scan_instrument_axes_types r !! k = Some (Some SLIT_AXIS_NAME) -> j = k).
Proof.
  intros Hr. apply init_Ok_inv in Hr as (cube0 & rest & -> & Hca & Hsp & Hun & ->).
  cbn [base _single_scan_instrument_axes_types]. split; [done|].
  exists cube0, rest. split; [done|].
  split; [by rewrite length_fmap, length_seq|].
  split; [apply Forall_fmap, Forall_forall; intros k _; simpl; eauto|].
  split; [|split].
  - intros k. by apply final_types_slit_step.
  - intros k. rewrite final_types_label by done. unfold label_before_slit.
    case_bool_decide as H1.
    + split; [done|]. intros _. split; [by apply Hsp|done].
    + case_bool_decide as H2; (split; [intros [_ [=]] | done]).
  - intros j k Hj Hk.
    apply final_types_lookup_inv in Hj as [Hj Hjt], Hk as [Hk Hkt].
    assert (Hnone : forall i, i < ndim cube0 ->
       Some SLIT_AXIS_NAME =
         Some (default SLIT_AXIS_NAME (label_before_slit common_axis (spectral_axes cube0) i)) ->
       i ∈ unlabeled_axes (ndim cube0) common_axis (spectral_axes cube0)).
    { intros i Hi Heq. unfold unlabeled_axes. apply list_elem_of_filter. split.
      - revert Heq. unfold label_before_slit. repeat case_bool_decide; simpl; done.
      - apply elem_of_seq. lia. }
    apply Hnone in Hjt; [|done]. apply Hnone in Hkt; [|done].
    destruct (unlabeled_axes _ _ _) as [|x [|y l]]; simpl in Hun; [| |lia].
    + by apply elem_of_nil in Hjt.
    + apply list_elem_of_singleton in Hjt, Hkt. congruence.
Qed.

(** X5.  For a sequence as [RasterSequence.__init__] builds it,
    [raster_instrument_axes_types] has one entry more than the cubes have
    axes, and [SnS_instrument_axes_types] is "temporal" followed by the
    axis types with the common axis left out (all of them when there is no
    common axis or when the common axis is spectral); it never holds
    "slit step". *)
Theorem instrument_axes_types_of_init data_list common_axis meta r :
  init data_list common_axis meta = Ok r ->
  exists cube0 rest, data_list = cube0 :: rest /\
    length (raster_instrument_axes_types r) = S (ndim cube0) /\
    (Some SLIT_STEP_AXIS_NAME ∉ SnS_instrument_axes_types r) /\
    SnS_instrument_axes_types r =
    Some SNS_AXIS_NAME ::
    match common_axis with
    | Some c => if bool_decide (c ∈ spectral_axes cube0)
                then _single_scan_instrument_axes_types r
                else delete c (_single_scan_instrument_axes_types r)
    | None => _single_scan_instrument_axes_types r
    end.
Proof.
  intros Hr. apply init_Ok_inv in Hr as (cube0 & rest & -> & Hca & Hsp & Hun & ->).
  exists cube0, rest. split; [done|].
  unfold raster_instrument_axes_types, SnS_instrument_axes_types.
  cbn [base _single_scan_instrument_axes_types].
  split; [by rewrite length_cons, length_fmap, length_seq|].
  rewrite mask_select_filter. split.
  - intros Hin. apply elem_of_cons in Hin as [[=]|Hin].
    apply list_elem_of_filter in Hin as [Hg _].
    apply negb_true_iff, bool_decide_eq_false in Hg. done.
  - f_equal.
    assert (Hnot : forall k x, final_types cube0 common_axis !! k = Some x ->
      negb (bool_decide (x = Some SLIT_STEP_AXIS_NAME)) <> true <->
      common_axis = Some k /\ k ∉ spectral_axes cube0).
    { intros k x Hk. rewrite <- final_types_slit_step by done.
      rewrite negb_true_iff, not_false_iff_true, bool_decide_eq_true.
      split; [by intros -> | congruence]. }
    destruct common_axis as [c|].
    + case_bool_decide as Hc.
      * apply list_filter_all_true, Forall_lookup. intros k x Hk.
        destruct (negb (bool_decide (x = Some SLIT_STEP_AXIS_NAME))) eqn:E; [done|].
        exfalso. assert (Hx : negb (bool_decide (x = Some SLIT_STEP_AXIS_NAME)) <> true)
          by (rewrite E; done).
        apply (Hnot k x Hk) in Hx as [[= ->] Hx]. done.
      * apply list_filter_delete_at. intros k x Hk. rewrite (Hnot k x Hk).
        split; [intros [[= ->] _]; done | intros ->; done].
    + apply list_filter_all_true, Forall_lookup. intros k x Hk.
      destruct (negb (bool_decide (x = Some SLIT_STEP_AXIS_NAME))) eqn:E; [done|].
      exfalso. assert (Hx : negb (bool_decide (x = Some SLIT_STEP_AXIS_NAME)) <> true)
        by (rewrite E; done).
      by apply (Hnot k x Hk) in Hx as [[=] _].
Qed.

End InitMore.

Section ComprehensionMore.
Context {A B : Type} (f : A -> result B).

Lemma comprehension_Raise_first xs e :
  comprehension f xs = Raise e <->
  exists i x, xs !! i = Some x /\ f x = Raise e /\
    forall j y, j < i -> xs !! j = Some y -> is_ok (f y) = true.
Proof.
  induction xs as [|x xs IH]; simpl.
  - split; [done|]. intros (i & y & Hi & _). by destruct i.
  - destruct (f x) as [y|e'] eqn:Ef; simpl.
    + destruct (comprehension f xs) as [ys|e''] eqn:Ec; simpl.
      * split; [done|]. intros (i & z & Hi & Hz & Hbefore).
        destruct i as [|i]; simpl in Hi; [congruence|].
        assert (Ok ys = Raise e) as Habs; [|done].
        apply IH. exists i, z. split; [done|]. split; [done|].
        intros j w Hj Hw. apply (Hbefore (S j) w); [lia|done].
      * split.
        -- intros [= ->]. destruct IH as [IH _].
           destruct (IH eq_refl) as (i & z & Hi & Hz & Hbefore).
           exists (S i), z. split; [done|]. split; [done|].
           intros [|j] w Hj Hw; simpl in Hw.
           ++ injection Hw as <-. by rewrite Ef.
           ++ apply (Hbefore j w); [lia|done].
        -- intros (i & z & Hi & Hz & Hbefore).
           destruct i as [|i]; simpl in Hi; [congruence|].
           apply IH. exists i, z. split; [done|]. split; [done|].
           intros j w Hj Hw. apply (Hbefore (S j) w); [lia|done].
    + split.
      * intros [= ->]. exists 0, x. split; [done|]. split; [done|]. intros j y Hj. lia.
      * intros (i & z & Hi & Hz & Hbefore). destruct i as [|i]; simpl in Hi.
        -- congruence.
        -- specialize (Hbefore 0 x ltac:(lia) eq_refl). by rewrite Ef in Hbefore.
Qed.
End ComprehensionMore.

Section SequenceCorrection.
Context {Cube Meta : Type}.
Context (ndim : Cube -> nat).
Context (world_axis_physical_types : Cube -> list string).
Context (_spectral_name : Cube -> option string).
Context (cube_correction : Cube -> bool -> bool -> result Cube).
Import spectrogram_sequence.

Local Abbreviation correct_sequence :=
  (SpectrogramSequence_apply_exposure_time_correction (Meta := Meta) cube_correction).
Local Abbreviation correct_rasters :=
  (RasterSequence_apply_exposure_time_correction (Meta := Meta)
     ndim world_axis_physical_types _spectral_name cube_correction).
Local Abbreviation init :=
  (RasterSequence_init (Meta := Meta) ndim world_axis_physical_types _spectral_name).

(** X6.  [SpectrogramSequence.apply_exposure_time_correction] corrects
    every cube or changes nothing: it succeeds exactly when every cube's
    correction succeeds, and then the corrected cubes, in order, replace
    the cubes of the sequence (no copy, returning [None]) or make up a new
    sequence with the same common axis and metadata (copy, the sequence
    itself untouched); it raises exactly the exception of the first cube
    whose correction fails. *)
Theorem sequence_correction_all_or_nothing
    (self : SpectrogramSequence) (undo copy force : bool) :
  (forall ret self',
     correct_sequence self undo copy force = Ok (ret, self') <->
     exists converted,
       Forall2 (fun cube cube' => cube_correction cube undo force = Ok cube')
               (data self) converted /\
       let new := {| data := converted; _common_axis := _common_axis self;
                     meta := meta self |} in
       ret = (if copy then Some new else None) /\
       self' = (if copy then self else new)) /\
  (forall e,
     correct_sequence self undo copy force = Raise e <->
     exists i cube, data self !! i = Some cube /\ cube_correction cube undo force = Raise e /\
       forall j cube', j < i -> data self !! j = Some cube' ->
         is_ok (cube_correction cube' undo force) = true).
Proof.
  unfold SpectrogramSequence_apply_exposure_time_correction. split.
  - intros ret self'.
    destruct (comprehension _ (data self)) as [converted|e] eqn:Ec.
    + rewrite bind_Ok. apply comprehension_Ok in Ec. split.
      * intros H. exists converted. split; [done|]. destruct copy; by injection H as <- <-.
      * intros (converted' & HF & Hret & Hself).
        apply comprehension_Ok in HF, Ec. assert (converted' = converted) as -> by congruence.
        subst. by destruct copy.
    + rewrite bind_Raise. split; [done|]. intros (converted' & HF & _).
      apply comprehension_Ok in HF. congruence.
  - intros e. rewrite <- comprehension_Raise_first.
    destruct (comprehension _ (data self)) as [converted|e'] eqn:Ec.
    + rewrite bind_Ok. destruct copy; split; intros [=].
    + rewrite bind_Raise. split; intros [= ->]; done.
Qed.

(** X7.  On a raster sequence the inherited correction without copy
    replaces the cubes and keeps the common axis, the metadata and the
    axis types; with copy it leaves the sequence untouched and returns what
    [RasterSequence.__init__] builds from the corrected cubes; on a
    sequence without cubes the copy raises [IndexError] while the
    correction in place succeeds. *)
Theorem raster_sequence_correction (self : RasterSequence) (undo force : bool) :
  (forall ret self',
     correct_rasters self undo false force = Ok (ret, self') <->
     exists converted,
       Forall2 (fun cube cube' => cube_correction cube undo force = Ok cube')
               (data (base self)) converted /\
       ret = None /\
       self' = {| base := {| data := converted; _common_axis := _common_axis (base self);
                             meta := meta (base self) |};
                  _single_scan_instrument_axes_types :=
                    _single_scan_instrument_axes_types self |}) /\
  (forall ret self',
     correct_rasters self undo true force = Ok (ret, self') <->
     exists converted new,
       Forall2 (fun cube cube' => cube_correction cube undo force = Ok cube')
               (data (base self)) converted /\
       init converted (_common_axis (base self)) (meta (base self)) = Ok new /\
       ret = Some new /\ self' = self) /\
  (data (base self) = [] ->
     correct_rasters self undo true force = Raise (IndexError "list index out of range") /\
     correct_rasters self undo false force = Ok (None, self)).
Proof.
  unfold RasterSequence_apply_exposure_time_correction. split; [|split].
  - intros ret self'.
    destruct (comprehension _ (data (base self))) as [converted|e] eqn:Ec.
    + rewrite bind_Ok. apply comprehension_Ok in Ec. split.
      * intros [= <- <-]. by exists converted.
      * intros (converted' & HF & -> & ->).
        apply comprehension_Ok in HF, Ec. by assert (converted' = converted) as -> by congruence.
    + rewrite bind_Raise. split; [done|]. intros (converted' & HF & _).
      apply comprehension_Ok in HF. congruence.
  - intros ret self'.
    destruct (comprehension _ (data (base self))) as [converted|e] eqn:Ec.
    + rewrite bind_Ok. apply comprehension_Ok in Ec. split.
      * destruct (init converted _ _) as [new|e] eqn:Ei; [|done].
        rewrite bind_Ok. intros [= <- <-]. by exists converted, new.
      * intros (converted' & new & HF & Hi & -> & ->).
        apply comprehension_Ok in HF, Ec. assert (converted' = converted) as -> by congruence.
        by rewrite Hi.
    + rewrite bind_Raise. split; [done|]. intros (converted' & new & HF & _).
      apply comprehension_Ok in HF. congruence.
  - intros Hnil. rewrite Hnil. cbn [comprehension]. rewrite !bind_Ok. split; [done|].
    destruct self as [[d c m] t]. simpl in Hnil. by subst.
Qed.
End SequenceCorrection.

Section SlicerEdges.
Context {Cube Meta : Type}.
Import spectrogram_sequence.
Context (parent_getitem : RasterSequence (Cube := Cube) (Meta := Meta) -> index ->
                          result (pyobject (Cube := Cube) (Meta := Meta))).
Local Abbreviation slice := (SequenceSlicer_getitem parent_getitem).

(** X8.  The as-raster slicer hands on what the inherited slicing gives
    for an item that is no tuple; for a tuple that gives a raster sequence
    it raises [TypeError] when the sequence has no common axis and
    [IndexError] when the tuple has exactly one entry more than the common
    axis. *)
Theorem slice_as_raster_edges (seq : RasterSequence) :
  (forall x, slice seq (index_single x) = parent_getitem seq (index_single x)) /\
  (forall items r,
     parent_getitem seq (index_tuple items) = Ok (obj_raster_sequence r) ->
     _common_axis (base seq) = None ->
     slice seq (index_tuple items) =
     Raise (TypeError "'>' not supported between instances of 'int' and 'NoneType'")) /\
  (forall items r c,
     parent_getitem seq (index_tuple items) = Ok (obj_raster_sequence r) ->
     _common_axis (base seq) = Some c -> length items = S c ->
     slice seq (index_tuple items) = Raise (IndexError "tuple index out of range")).
Proof.
  unfold SequenceSlicer_getitem. split; [|split].
  - intros x. destruct (parent_getitem seq (index_single x)) as [res|e]; [|done].
    rewrite bind_Ok. by destruct res.
  - intros items r -> ->. done.
  - intros items r c -> -> Hlen. rewrite bind_Ok.
    assert ((c <? length items) = true) as -> by (apply Nat.ltb_lt; lia).
    unfold tuple_getitem. rewrite lookup_drop.
    rewrite lookup_ge_None_2 by lia. done.
Qed.
End SlicerEdges.

Section SnSSlicer.
Context {Cube Meta SnSResult : Type}.
Import spectrogram_sequence.
Context (_slice_sequence_as_SnS : RasterSequence (Cube := Cube) (Meta := Meta) -> index ->
                                  result SnSResult).
Context (set_axes_types : SnSResult -> list (option string) -> SnSResult).
Local Abbreviation slice_SnS := (SnSSlicer_getitem _slice_sequence_as_SnS set_axes_types).

(** X9.  The sit-and-stare slicer, once the sequence is sliced: an empty
    tuple raises [IndexError]; a tuple that starts with an integer returns
    the slice as it is; a tuple that starts with a slice and is no longer
    than the type array returns the slice with the axis types re-sliced by
    the whole tuple: the type at position [k] stays exactly when entry [k]
    of the tuple is absent or no integer, in the same order, so one type
    less for every integer; a longer tuple that starts with a slice raises
    the index error of the mask. *)
Theorem slice_as_SnS_axis_types (seq : RasterSequence) (items : list axis_item)
    (res : SnSResult) :
  _slice_sequence_as_SnS seq (index_tuple items) = Ok res ->
  (items = [] ->
     slice_SnS seq (index_tuple items) = Raise (IndexError "tuple index out of range")) /\
  (forall i rest, items = item_int i :: rest ->
     slice_SnS seq (index_tuple items) = Ok res) /\
  (forall start stop step rest, items = item_slice start stop step :: rest ->
     length items <= length (_single_scan_instrument_axes_types seq) ->
     exists types,
       slice_SnS seq (index_tuple items) = Ok (set_axes_types res types) /\
       types = kept_labels (_single_scan_instrument_axes_types seq) items /\
       types `sublist_of` _single_scan_instrument_axes_types seq /\
       length types + length (filter (fun x => is_integral x = true) items)
         = length (_single_scan_instrument_axes_types seq)) /\
  (length (_single_scan_instrument_axes_types seq) < length items ->
   (forall i rest, items <> item_int i :: rest) ->
   slice_SnS seq (index_tuple items) =
   Raise (IndexError "boolean index did not match indexed array")).
Proof.
  intros Hres. unfold SnSSlicer_getitem. rewrite Hres, bind_Ok.
  split; [|split; [|split]].
  - intros ->. done.
  - intros i rest ->. done.
  - intros start stop step rest -> Hle.
    cbn [tuple_getitem lookup list_lookup]. rewrite bind_Ok. cbn [is_integral negb].
    assert (Hne : _single_scan_instrument_axes_types seq <> []).
    { intros E. rewrite E in Hle. simpl in Hle. lia. }
    pose proof (slice_scan_axis_types_spec _ _ Hne Hle) as Hkept.
    destruct (slice_scan_axis_types_Ok _ _ Hne Hle) as (Hlen & Hcount & Hrun).
    rewrite Hrun, bind_Ok. eexists. split; [reflexivity|].
    split; [rewrite Hrun in Hkept; by injection Hkept|].
    split; [apply mask_select_sublist|]. by rewrite mask_select_length.
  - intros Hlt Hnot. destruct items as [|[i|start stop step] rest].
    + simpl in Hlt. lia.
    + by destruct (Hnot i rest).
    + cbn [tuple_getitem lookup list_lookup]. rewrite bind_Ok. cbn [is_integral negb].
      rewrite slice_scan_axis_types_too_long by done. done.
Qed.
End SnSSlicer.

Section CaseVariants.

Lemma ascii_upper_idempotent c : raster.ascii_upper (raster.ascii_upper c) = raster.ascii_upper c.
Proof. destruct c as [[] [] [] [] [] [] [] []]; reflexivity. Qed.

Lemma ascii_lower_upper c : raster.ascii_lower (raster.ascii_upper c) = raster.ascii_lower c.
Proof. destruct c as [[] [] [] [] [] [] [] []]; reflexivity. Qed.

Lemma str_map_lower_upper s :
  raster.str_map raster.ascii_lower (raster.str_map raster.ascii_upper s)
  = raster.str_map raster.ascii_lower s.
Proof. induction s as [|c s IH]; [done|]. simpl. by rewrite ascii_lower_upper, IH. Qed.

Lemma capitalize_upper s : raster.capitalize (raster.upper s) = raster.capitalize s.
Proof.
  destruct s as [|c s]; [done|]. unfold raster.upper. simpl.
  by rewrite ascii_upper_idempotent, str_map_lower_upper.
Qed.

(** X10.  Each list of supported names is its base names followed by
    their upper-case forms followed twice by their capitalised forms: it
    holds four times as many names, and for every base name it holds the
    name, its upper-case form and its capitalised form. *)
Theorem with_case_variants_coverage (names : list string) :
  raster.with_case_variants names =
    names ++ (raster.upper <$> names) ++ (raster.capitalize <$> names)
          ++ (raster.capitalize <$> names) /\
  length (raster.with_case_variants names) = 4 * length names /\
  forall name, name ∈ names ->
    name ∈ raster.with_case_variants names /\
    raster.upper name ∈ raster.with_case_variants names /\
    raster.capitalize name ∈ raster.with_case_variants names.
Proof.
  assert (Heq : raster.with_case_variants names =
    names ++ (raster.upper <$> names) ++ (raster.capitalize <$> names)
          ++ (raster.capitalize <$> names)).
  { unfold raster.with_case_variants. rewrite fmap_app, <- !app_assoc. do 3 f_equal.
    rewrite <- list_fmap_compose. apply list_fmap_ext. intros _ s _. simpl.
    apply capitalize_upper. }
  split; [exact Heq|]. rewrite Heq. split.
  - rewrite !length_app, !length_fmap. lia.
  - intros name Hin. rewrite !elem_of_app. split; [by left|].
    split; [right; left | right; right; left]; by apply list_elem_of_fmap_2.
Qed.
End CaseVariants.

Section BindingSound.
Context {num Quantity : Type}.
Local Abbreviation Raster := (raster.Raster (num := num) (Quantity := Quantity)).

Lemma binding_sound world_types keys names n loc :
  raster.find_axis_name_from world_types keys names = Some (n, loc) ->
  match loc with
  | raster.wcs => n ∈ world_types /\ exists name, name ∈ names /\ raster.str_in name n = true
  | raster.extra_coords_loc => n ∈ names /\ in_keys keys n
  end.
Proof.
  intros H. destruct (find_first_match world_types keys names) as [Hs _].
  apply Hs in H as (pre & name & post & -> & _ & Hb).
  assert (Hname : name ∈ pre ++ name :: post) by (apply elem_of_app; right; by left).
  destruct Hb as [[Hl (k & Hk & Hin & _)]|(Hl & Hn & _ & Hkeys)]; simpl in *; subst.
  - split; [by eapply list_elem_of_lookup_2|]. by exists name.
  - done.
Qed.

(** X11.  A binding that [_find_axis_name] returns always has its
    coordinate: a WCS binding names a world type of the raster that
    contains a supported name, and [_get_axis_coord] evaluates the world
    coordinates; an extra-coordinate binding names a supported name that is
    a key of the extra coordinates, and [_get_axis_coord] returns that
    entry's value. *)
Theorem bound_axis_has_coordinate (self : Raster) (supported_names : list string) n loc :
  raster._find_axis_name self supported_names = Some (n, loc) ->
  match loc with
  | raster.wcs =>
      n ∈ raster.world_axis_physical_types self /\
      (exists name, name ∈ supported_names /\ raster.str_in name n = true) /\
      raster._get_axis_coord self n loc = Ok (raster.axis_world_coords self n)
  | raster.extra_coords_loc =>
      n ∈ supported_names /\
      exists coords entry, raster.extra_coords self = Some coords /\
        coords !! n = Some entry /\
        raster._get_axis_coord self n loc = Ok (raster.value entry)
  end.
Proof.
  intros H. apply binding_sound in H. destruct loc.
  - destruct H as [Hin Hname]. done.
  - destruct H as [Hin (ks & Hks & Hk)]. split; [done|].
    destruct (raster.extra_coords self) as [coords|] eqn:Ec; [|done].
    simpl in Hks. injection Hks as <-. apply elem_of_dom in Hk as [entry Hentry].
    exists coords, entry. split; [done|]. split; [done|].
    unfold raster._get_axis_coord. by rewrite Ec, Hentry.
Qed.

Lemma keyed_name_binds (self : Raster) (names : list string) key coords :
  raster.extra_coords self = Some coords -> is_Some (coords !! key) -> key ∈ names ->
  exists n loc, raster._find_axis_name self names = Some (n, loc) /\
    is_ok (raster._get_axis_coord self n loc) = true.
Proof.
  intros Hc Hkey Hin.
  destruct (raster._find_axis_name self names) as [[n loc]|] eqn:E.
  - exists n, loc. split; [done|]. unfold raster._find_axis_name in E.
    apply binding_sound in E. destruct loc; [done|].
    destruct E as [_ (ks & Hks & Hk)]. rewrite Hc in Hks. simpl in Hks.
    injection Hks as <-. apply elem_of_dom in Hk as [entry Hentry].
    unfold raster._get_axis_coord. by rewrite Hc, Hentry.
  - exfalso. unfold raster._find_axis_name in E.
    destruct (find_first_match (raster.world_axis_physical_types self)
                (dom <$> raster.extra_coords self) names) as [_ Hn].
    apply Hn in E. rewrite Forall_forall in E. destruct (E key Hin) as [_ Hnk].
    apply Hnk. exists (dom coords). rewrite Hc. split; [done|]. by apply elem_of_dom.
Qed.

(** X12.  If a supported name of a role is a key of the extra
    coordinates, the property of that role returns a coordinate, for each
    of the five roles. *)
Theorem supported_key_gives_coordinate (self : Raster) key coords :
  raster.extra_coords self = Some coords -> is_Some (coords !! key) ->
  (key ∈ raster.SUPPORTED_SPECTRAL_NAMES -> is_ok (raster.spectral self) = true) /\
  (key ∈ raster.SUPPORTED_TIME_NAMES -> is_ok (raster.time self) = true) /\
  (key ∈ raster.SUPPORTED_EXPOSURE_NAMES -> is_ok (raster.exposure_time self) = true) /\
  (key ∈ raster.SUPPORTED_LONGITUDE_NAMES -> is_ok (raster.lon self) = true) /\
  (key ∈ raster.SUPPORTED_LATITUDE_NAMES -> is_ok (raster.lat self) = true).
Proof.
  intros Hc Hkey.
  unfold raster.spectral, raster.time, raster.exposure_time, raster.lon, raster.lat,
    raster._spectral_name, raster._time_name, raster._exposure_time_name,
    raster._longitude_name, raster._latitude_name.
  repeat split; intros Hin;
    destruct (keyed_name_binds self _ key coords Hc Hkey Hin) as (n & loc & -> & Hok);
    exact Hok.
Qed.
End BindingSound.

Section EngineGuards.
Context {num : Type} (ndiv nmul : num -> num -> num).
Import units.

Lemma calculate_Ok_inv (A A1 : list (np.ndarray num)) U U1 T force :
  raster._calculate_exposure_time_correction ndiv A U T force = Ok (A1, U1) ->
  U1 = div U s /\ (force = false -> power "s" U = 0%Z).
Proof.
  unfold raster._calculate_exposure_time_correction.
  destruct (negb force && s_in_bases U) eqn:E; [done|].
  destruct (comprehension _ A) as [A'|e]; [|done]. rewrite bind_Ok. intros [= <- <-].
  split; [done|]. intros ->. simpl in E. apply bool_decide_eq_false in E.
  rewrite s_in_bases_power in E. lia.
Qed.

Lemma uncalculate_Ok_inv (A A1 : list (np.ndarray num)) U U1 T force :
  raster._uncalculate_exposure_time_correction nmul A U T force = Ok (A1, U1) ->
  U1 = mul U s /\ (force = false -> power "s" U = (-1)%Z).
Proof.
  unfold raster._uncalculate_exposure_time_correction.
  destruct (negb force && s_in_bases (mul U s)) eqn:E; [done|].
  destruct (comprehension _ A) as [A'|e]; [|done]. rewrite bind_Ok. intros [= <- <-].
  split; [done|]. intros ->. simpl in E. apply bool_decide_eq_false in E.
  rewrite s_in_bases_power, power_mul_s in E. lia.
Qed.

Lemma calculate_guarded (A : list (np.ndarray num)) U T :
  power "s" U <> 0%Z ->
  raster._calculate_exposure_time_correction ndiv A U T false
  = Raise (ValueError raster.APPLY_EXPOSURE_TIME_ERROR).
Proof.
  intros Hp. unfold raster._calculate_exposure_time_correction.
  assert (s_in_bases U = true) as ->; [|done].
  apply bool_decide_eq_true. by apply s_in_bases_power.
Qed.

Lemma uncalculate_guarded (A : list (np.ndarray num)) U T :
  power "s" U <> (-1)%Z ->
  raster._uncalculate_exposure_time_correction nmul A U T false
  = Raise (ValueError raster.UNDO_EXPOSURE_TIME_ERROR).
Proof.
  intros Hp. unfold raster._uncalculate_exposure_time_correction.
  assert (s_in_bases (mul U s) = true) as ->; [|done].
  apply bool_decide_eq_true. apply s_in_bases_power. rewrite power_mul_s. lia.
Qed.

(** X13.  After an unforced application that succeeded, a second
    unforced application to the resulting unit raises the "already
    applied" error whereas the guard of the undo lets that unit pass; and
    the same with application and undo exchanged. *)
Theorem guards_forbid_repeating (A A1 : list (np.ndarray num)) U U1 T :
  (raster._calculate_exposure_time_correction ndiv A U T false = Ok (A1, U1) ->
     (forall A' T', raster._calculate_exposure_time_correction ndiv A' U1 T' false
                    = Raise (ValueError raster.APPLY_EXPOSURE_TIME_ERROR)) /\
     (forall A' T', raster._uncalculate_exposure_time_correction nmul A' U1 T' false
                    <> Raise (ValueError raster.UNDO_EXPOSURE_TIME_ERROR))) /\
  (raster._uncalculate_exposure_time_correction nmul A U T false = Ok (A1, U1) ->
     (forall A' T', raster._uncalculate_exposure_time_correction nmul A' U1 T' false
                    = Raise (ValueError raster.UNDO_EXPOSURE_TIME_ERROR)) /\
     (forall A' T', raster._calculate_exposure_time_correction ndiv A' U1 T' false
                    <> Raise (ValueError raster.APPLY_EXPOSURE_TIME_ERROR))).
Proof.
  split.
  - intros H. apply calculate_Ok_inv in H as [-> Hp]. specialize (Hp eq_refl). split.
    + intros A' T'. apply calculate_guarded. rewrite power_div_s. lia.
    + intros A' T'. unfold raster._uncalculate_exposure_time_correction.
      assert (s_in_bases (mul (div U s) s) = false) as ->.
      { apply bool_decide_eq_false. rewrite s_in_bases_power, power_mul_s, power_div_s. lia. }
      destruct (corrected_arrays_spec nmul A' T' (mul (div U s) s)) as (_ & Hne & _). exact Hne.
  - intros H. apply uncalculate_Ok_inv in H as [-> Hp]. specialize (Hp eq_refl). split.
    + intros A' T'. apply uncalculate_guarded. rewrite power_mul_s. lia.
    + intros A' T'. unfold raster._calculate_exposure_time_correction.
      assert (s_in_bases (mul U s) = false) as ->.
      { apply bool_decide_eq_false. rewrite s_in_bases_power, power_mul_s. lia. }
      destruct (corrected_arrays_spec ndiv A' T' (div (mul U s) s)) as (Hne & _). exact Hne.
Qed.
End EngineGuards.

Section RasterMore.
Context {num : Type} (ndiv nmul : num -> num -> num).
Context {Quantity : Type} (to_s_value : Quantity -> result (np.value num)).
Import units.

Local Abbreviation Raster := (raster.Raster (num := num) (Quantity := Quantity)).
Local Abbreviation correct := (raster.apply_exposure_time_correction ndiv nmul to_s_value).

(** X14.  Without an exposure-time coordinate the correction of a raster
    raises the axis-not-found error of the exposure time, whatever the
    direction, the [force] flag, the unit and the uncertainty. *)
Theorem correction_needs_exposure_time (self : Raster) (undo force : bool) :
  raster._exposure_time_name self = None ->
  correct self undo force =
  Raise (ValueError ("Exposure time" +:+ raster.AXIS_NOT_FOUND_ERROR +:+
                     raster.repr_list raster.SUPPORTED_EXPOSURE_NAMES)).
Proof.
  intros H. unfold raster.apply_exposure_time_correction, raster.exposure_time.
  rewrite H. reflexivity.
Qed.

(** The correction with a scalar exposure time [t]. *)
Lemma correct_scalar (self : Raster) q t unc (undo force : bool) :
  raster.exposure_time self = Ok q -> to_s_value q = Ok (np.PyScalar t) ->
  raster.uncertainty self = Some unc ->
  let op := if undo then nmul else ndiv in
  let U := raster.unit self in
  correct self undo force =
  if negb force && s_in_bases (if undo then mul U s else U)
  then Raise (ValueError (if undo then raster.UNDO_EXPOSURE_TIME_ERROR
                          else raster.APPLY_EXPOSURE_TIME_ERROR))
  else Ok {| raster.data :=
               {| np.shape := np.shape (raster.data self);
                  np.item := fun idx => op (np.item (raster.data self) idx) t |};
             raster.uncertainty :=
               Some {| np.shape := np.shape unc;
                       np.item := fun idx => op (np.item unc idx) t |};
             raster.unit := if undo then mul U s else div U s;
             raster.world_axis_physical_types := raster.world_axis_physical_types self;
             raster.axis_world_coords := raster.axis_world_coords self;
             raster.extra_coords := raster.extra_coords self |}.
Proof.
  intros Hq Hv Hu op U. unfold raster.apply_exposure_time_correction.
  rewrite Hq, bind_Ok, Hv, bind_Ok. cbn [raster.reshape_exposure_time]. rewrite bind_Ok.
  unfold raster.uncertainty_array. rewrite Hu, bind_Ok. fold U.
  destruct undo.
  - unfold raster._uncalculate_exposure_time_correction.
    destruct (negb force && s_in_bases (mul U s)); [done|]. reflexivity.
  - unfold raster._calculate_exposure_time_correction.
    destruct (negb force && s_in_bases U); [done|]. reflexivity.
Qed.

(** X15.  With a scalar exposure time the correction of a raster does
    not depend on the rank of the data: when the guard lets it pass, the
    data and the uncertainty keep their shapes and every element is divided
    (multiplied, for undo) by the exposure time. *)
Theorem scalar_exposure_time_any_rank (self : Raster) q t unc (undo force : bool) :
  raster.exposure_time self = Ok q -> to_s_value q = Ok (np.PyScalar t) ->
  raster.uncertainty self = Some unc ->
  force = true \/ power "s" (raster.unit self) = (if undo then (-1)%Z else 0%Z) ->
  let op := if undo then nmul else ndiv in
  exists out unc',
    correct self undo force = Ok out /\
    np.shape (raster.data out) = np.shape (raster.data self) /\
    (forall idx, np.item (raster.data out) idx = op (np.item (raster.data self) idx) t) /\
    raster.uncertainty out = Some unc' /\
    np.shape unc' = np.shape unc /\
    (forall idx, np.item unc' idx = op (np.item unc idx) t).
Proof.
  intros Hq Hv Hu Hguard op.
  rewrite (correct_scalar self q t unc undo force Hq Hv Hu).
  assert (negb force && s_in_bases (if undo then mul (raster.unit self) s
                                    else raster.unit self) = false) as ->.
  { destruct Hguard as [->|Hp]; [done|]. apply andb_false_iff. right.
    apply bool_decide_eq_false. rewrite s_in_bases_power.
    destruct undo; rewrite ?power_mul_s; lia. }
  eexists _, _. split; [reflexivity|]. cbn [raster.data raster.uncertainty np.shape np.item].
  done.
Qed.

Lemma correct_Ok_inv (self out : Raster) (undo force : bool) :
  correct self undo force = Ok out ->
  raster.world_axis_physical_types out = raster.world_axis_physical_types self /\
  raster.axis_world_coords out = raster.axis_world_coords self /\
  raster.extra_coords out = raster.extra_coords self /\
  is_Some (raster.uncertainty self) /\ is_Some (raster.uncertainty out) /\
  raster.unit out = (if undo then mul (raster.unit self) s else div (raster.unit self) s) /\
  (force = false ->
   power "s" (raster.unit self) = (if undo then (-1)%Z else 0%Z)).
Proof.
  unfold raster.apply_exposure_time_correction.
  destruct (raster.exposure_time self) as [q|]; [rewrite bind_Ok|done].
  destruct (to_s_value q) as [v|]; [rewrite bind_Ok|done].
  destruct (raster.reshape_exposure_time self v) as [v'|]; [rewrite bind_Ok|done].
  unfold raster.uncertainty_array.
  destruct (raster.uncertainty self) as [unc|]; [rewrite bind_Ok|done].
  destruct undo.
  - destruct (raster._uncalculate_exposure_time_correction _ _ _ _ _) as [[A U1]|] eqn:E;
      [rewrite bind_Ok|done].
    apply uncalculate_Ok_inv in E as [-> Hp].
    destruct (getitem A 0) as [d|]; [rewrite bind_Ok|done].
    destruct (getitem A 1) as [u|]; [rewrite bind_Ok|done].
    intros [= <-]. cbn. eauto 10.
  - destruct (raster._calculate_exposure_time_correction _ _ _ _ _) as [[A U1]|] eqn:E;
      [rewrite bind_Ok|done].
    apply calculate_Ok_inv in E as [-> Hp].
    destruct (getitem A 0) as [d|]; [rewrite bind_Ok|done].
    destruct (getitem A 1) as [u|]; [rewrite bind_Ok|done].
    intros [= <-]. cbn. eauto 10.
Qed.

Lemma correct_guarded (self : Raster) (undo : bool) :
  power "s" (raster.unit self) <> (if undo then (-1)%Z else 0%Z) ->
  is_ok (correct self undo false) = false.
Proof.
  intros Hp. unfold raster.apply_exposure_time_correction.
  destruct (raster.exposure_time self) as [q|]; [rewrite bind_Ok|done].
  destruct (to_s_value q) as [v|]; [rewrite bind_Ok|done].
  destruct (raster.reshape_exposure_time self v) as [v'|]; [rewrite bind_Ok|done].
  destruct (raster.uncertainty_array self) as [unc|]; [rewrite bind_Ok|done].
  destruct undo.
  - by rewrite uncalculate_guarded.
  - by rewrite calculate_guarded.
Qed.

(** X17.  A raster that an unforced correction has produced cannot be
    corrected again in the same direction without [force]. *)
Theorem correction_not_repeatable (self out : Raster) (undo : bool) :
  correct self undo false = Ok out ->
  is_ok (correct out undo false) = false.
Proof.
  intros H. apply correct_Ok_inv in H as (_ & _ & _ & _ & _ & HU & Hp).
  specialize (Hp eq_refl). apply correct_guarded. rewrite HU.
  destruct undo; rewrite ?power_mul_s, ?power_div_s; lia.
Qed.

Lemma correct_without_uncertainty (self : Raster) (undo force : bool) :
  raster.uncertainty self = None -> is_ok (correct self undo force) = false.
Proof.
  intros Hu. unfold raster.apply_exposure_time_correction, raster.uncertainty_array.
  rewrite Hu.
  destruct (raster.exposure_time self) as [q|]; [rewrite bind_Ok|done].
  destruct (to_s_value q) as [v|]; [rewrite bind_Ok|done].
  destruct (raster.reshape_exposure_time self v); done.
Qed.

Section OldSequence.
Context {Meta : Type}.
Local Abbreviation RasterSequence :=
  (raster.sequence.RasterSequence (num := num) (Quantity := Quantity) (Meta := Meta)).
Local Abbreviation correct_all :=
  (raster.sequence.apply_exposure_time_correction (Meta := Meta) ndiv nmul to_s_value).

(** X18.  The correction of the raster sequence of raster.py never
    returns with [copy]: once every raster is corrected, the constructor
    call with the keyword [common_axis] raises [TypeError]; without copy
    the corrected rasters replace the rasters of the sequence; any other
    exception is that of the first raster whose correction fails, and a
    raster without uncertainty makes the call fail. *)
Theorem raster_sequence_copy_and_failures (self : RasterSequence) (undo force : bool) :
  (forall copy, is_ok (correct_all self undo copy force) = true -> copy = false) /\
  (forall converted,
     Forall2 (fun cube cube' => correct cube undo force = Ok cube')
             (raster.sequence.data self) converted ->
     correct_all self undo true force =
       Raise (TypeError "__init__() got an unexpected keyword argument 'common_axis'") /\
     correct_all self undo false force =
       Ok (None, {| raster.sequence.data := converted;
                    raster.sequence._common_axis := raster.sequence._common_axis self;
                    raster.sequence.meta := raster.sequence.meta self |})) /\
  (forall copy e,
     correct_all self undo copy force = Raise e ->
     e <> TypeError "__init__() got an unexpected keyword argument 'common_axis'" ->
     exists i cube, raster.sequence.data self !! i = Some cube /\
       correct cube undo force = Raise e /\
       forall j cube', j < i -> raster.sequence.data self !! j = Some cube' ->
         is_ok (correct cube' undo force) = true) /\
  (forall copy cube, cube ∈ raster.sequence.data self -> raster.uncertainty cube = None ->
     is_ok (correct_all self undo copy force) = false).
Proof.
  unfold raster.sequence.apply_exposure_time_correction.
  assert (Hkw : raster.sequence.check_keywords ["meta"; "common_axis"] =
    Raise (TypeError "__init__() got an unexpected keyword argument 'common_axis'"))
    by reflexivity.
  split; [|split; [|split]].
  - intros copy. destruct (comprehension _ _) as [converted|e]; [rewrite bind_Ok|done].
    destruct copy; [|done]. by rewrite Hkw.
  - intros converted HF. apply comprehension_Ok in HF. rewrite HF, !bind_Ok, Hkw. done.
  - intros copy e. destruct (comprehension _ _) as [converted|e'] eqn:Ec.
    + rewrite bind_Ok. destruct copy; [|done]. rewrite Hkw, bind_Raise.
      intros [= <-] Hne. done.
    + rewrite bind_Raise. intros [= <-] _. by apply comprehension_Raise_first in Ec.
  - intros copy cube Hin Hu.
    destruct (comprehension _ _) as [converted|e] eqn:Ec; [|done].
    apply comprehension_Ok in Ec. apply list_elem_of_lookup in Hin as [i Hi].
    destruct (Forall2_lookup_l _ _ _ _ _ Ec Hi) as (cube' & _ & Hc).
    pose proof (correct_without_uncertainty cube undo force Hu) as Hnot.
    by rewrite Hc in Hnot.
Qed.
End OldSequence.

End RasterMore.

Section RasterRoundTrip.
Context {Quantity : Type} (to_s_value : Quantity -> result (np.value Q)).
Import units.
Local Abbreviation Raster := (raster.Raster (num := Q) (Quantity := Quantity)).
Local Abbreviation correct := (raster.apply_exposure_time_correction Qdiv Qmult to_s_value).

(** X19.  In exact arithmetic, with a positive scalar exposure time and
    an uncertainty, applying the correction to a raster and undoing it on
    the result gives back a raster whose data and uncertainty equal the
    original ones element for element and whose unit equals the original
    unit (both steps forced, or unforced from a unit without seconds). *)
Theorem raster_round_trip (self : Raster) q (T : Q) unc (force1 force2 : bool) :
  raster.exposure_time self = Ok q -> to_s_value q = Ok (np.PyScalar T) ->
  (0 < T)%Q ->
  raster.uncertainty self = Some unc ->
  (force1 = true /\ force2 = true) \/ power "s" (raster.unit self) = 0%Z ->
  exists out back unc2,
    correct self false force1 = Ok out /\
    correct out true force2 = Ok back /\
    eq (raster.unit back) (raster.unit self) /\
    np.shape (raster.data back) = np.shape (raster.data self) /\
    (forall idx, (np.item (raster.data back) idx == np.item (raster.data self) idx)%Q) /\
    raster.uncertainty back = Some unc2 /\
    np.shape unc2 = np.shape unc /\
    (forall idx, (np.item unc2 idx == np.item unc idx)%Q).
Proof.
  intros Hq Hv HT Hu Hforce.
  assert (HT0 : ~ (T == 0)%Q).
  { intros H0. rewrite H0 in HT. by apply Qlt_irrefl in HT. }
  rewrite (correct_scalar Qdiv Qmult to_s_value self q T unc false force1 Hq Hv Hu).
  assert (negb force1 && s_in_bases (raster.unit self) = false) as ->.
  { destruct Hforce as [[-> _]|Hp]; [done|]. apply andb_false_iff. right.
    apply bool_decide_eq_false. rewrite s_in_bases_power. lia. }
  eexists. eexists. eexists. split; [reflexivity|].
  erewrite (correct_scalar Qdiv Qmult to_s_value _ q T _ true force2);
    [|exact Hq|exact Hv|reflexivity].
  cbn [raster.unit].
  assert (negb force2 && s_in_bases (mul (div (raster.unit self) s) s) = false) as ->.
  { destruct Hforce as [[_ ->]|Hp]; [done|]. apply andb_false_iff. right.
    apply bool_decide_eq_false. rewrite s_in_bases_power, power_mul_s, power_div_s. lia. }
  split; [reflexivity|].
  cbn [raster.unit raster.data raster.uncertainty np.shape np.item].
  split; [apply mul_div_s|]. split; [done|]. split; [intros idx; by field|].
  split; [reflexivity|]. cbn [np.shape np.item]. split; [done|]. intros idx. by field.
Qed.
End RasterRoundTrip.

Section RowsCorrection.
Context {num : Type} (ndiv nmul : num -> num -> num).
Context {Quantity : Type} (to_s_value : Quantity -> result (np.value num)).
Import units.
Local Abbreviation Raster := (raster.Raster (num := num) (Quantity := Quantity)).
Local Abbreviation correct := (raster.apply_exposure_time_correction ndiv nmul to_s_value).

(** The correction of [n] by [m] data with one exposure time for each row,
    in either direction, once the guard lets it pass. *)
Lemma correct_rows (self : Raster) q (e unc : np.ndarray num) (n m : nat)
    (undo force : bool) :
  raster.exposure_time self = Ok q ->
  to_s_value q = Ok (np.Array e) ->
  np.shape e = [n] ->
  np.shape (raster.data self) = [n; m] ->
  raster.uncertainty self = Some unc ->
  np.shape unc = [n; m] ->
  negb force && s_in_bases (if undo then mul (raster.unit self) s else raster.unit self)
    = false ->
  let op := if undo then nmul else ndiv in
  exists out unc',
    correct self undo force = Ok out /\
    raster.uncertainty out = Some unc' /\
    np.shape (raster.data out) = [n; m] /\
    np.shape unc' = [n; m] /\
    forall i j, i < n -> j < m ->
      np.item (raster.data out) [i; j] = op (np.item (raster.data self) [i; j]) (np.item e [i]) /\
      np.item unc' [i; j] = op (np.item unc [i; j]) (np.item e [i]).
Proof.
  intros Hq Hv He Hd Hu Hunc Hg op.
  destruct (newaxes_after_first_spec 1 e n [] He) as (col & Hcol & Hcs & Hci).
  simpl in Hcs.
  destruct (binop_column op (raster.data self) col n m Hd Hcs) as (d' & Hd' & Hds & Hdi).
  destruct (binop_column op unc col n m Hunc Hcs) as (u' & Hu' & Hus & Hui).
  exists {| raster.data := d'; raster.uncertainty := Some u';
            raster.unit := if undo then mul (raster.unit self) s
                           else div (raster.unit self) s;
            raster.world_axis_physical_types := raster.world_axis_physical_types self;
            raster.axis_world_coords := raster.axis_world_coords self;
            raster.extra_coords := raster.extra_coords self |}, u'.
  split.
  - unfold raster.apply_exposure_time_correction.
    rewrite Hq, bind_Ok, Hv, bind_Ok.
    unfold raster.reshape_exposure_time, raster.dimensions. rewrite Hd.
    cbn [length]. rewrite Hcol, !bind_Ok.
    unfold raster.uncertainty_array. rewrite Hu, bind_Ok.
    subst op. destruct undo.
    + unfold raster._uncalculate_exposure_time_correction. rewrite Hg.
      cbn [comprehension np.array_op]. rewrite Hd', bind_Ok, Hu', !bind_Ok. reflexivity.
    + unfold raster._calculate_exposure_time_correction. rewrite Hg.
      cbn [comprehension np.array_op]. rewrite Hd', bind_Ok, Hu', !bind_Ok. reflexivity.
  - cbn [raster.unit raster.uncertainty raster.data].
    do 3 (split; [done|]). intros i j Hi Hj.
    rewrite Hdi, Hui, Hci by done. done.
Qed.
End RowsCorrection.

Section RowsRoundTrip.
Context {Quantity : Type} (to_s_value : Quantity -> result (np.value Q)).
Import units.
Local Abbreviation Raster := (raster.Raster (num := Q) (Quantity := Quantity)).
Local Abbreviation correct := (raster.apply_exposure_time_correction Qdiv Qmult to_s_value).

(** X22.  In exact arithmetic, for [n] by [m] data with an uncertainty of
    the same shape and one positive exposure time for each row, applying
    the correction to a raster and undoing it on the result gives back a
    raster of the same shape whose data and uncertainty equal the original
    ones at every index and whose unit equals the original unit (both
    steps forced, or unforced from a unit without seconds). *)
Theorem raster_round_trip_per_row (self : Raster) q (e unc : np.ndarray Q) (n m : nat)
    (force1 force2 : bool) :
  raster.exposure_time self = Ok q ->
  to_s_value q = Ok (np.Array e) ->
  np.shape e = [n] ->
  (forall i, i < n -> (0 < np.item e [i])%Q) ->
  np.shape (raster.data self) = [n; m] ->
  raster.uncertainty self = Some unc ->
  np.shape unc = [n; m] ->
  (force1 = true /\ force2 = true) \/ power "s" (raster.unit self) = 0%Z ->
  exists out back unc2,
    correct self false force1 = Ok out /\
    correct out true force2 = Ok back /\
    eq (raster.unit back) (raster.unit self) /\
    np.shape (raster.data back) = [n; m] /\
    raster.uncertainty back = Some unc2 /\
    np.shape unc2 = [n; m] /\
    forall i j, i < n -> j < m ->
      (np.item (raster.data back) [i; j] == np.item (raster.data self) [i; j])%Q /\
      (np.item unc2 [i; j] == np.item unc [i; j])%Q.
Proof.
  intros Hq Hv He Hpos Hd Hu Hunc Hforce.
  assert (Hg1 : negb force1 && s_in_bases (raster.unit self) = false).
  { destruct Hforce as [[-> _]|Hp]; [done|]. apply andb_false_iff. right.
    apply bool_decide_eq_false. rewrite s_in_bases_power. lia. }
  destruct (correct_rows Qdiv Qmult to_s_value self q e unc n m false force1
              Hq Hv He Hd Hu Hunc Hg1) as (out & unc1 & Hout & Hu1 & Hs1 & Hus1 & Hi1).
  pose proof (correct_Ok_inv Qdiv Qmult to_s_value self out false force1 Hout)
    as (Hw & Ha & Hec & _ & _ & HU & _).
  assert (Hq' : raster.exposure_time out = Ok q).
  { rewrite <- Hq. unfold raster.exposure_time, raster._exposure_time_name,
      raster._find_axis_name, raster.coord_property, raster._get_axis_coord.
    by rewrite Hw, Ha, Hec. }
  assert (Hg2 : negb force2 && s_in_bases (mul (raster.unit out) s) = false).
  { rewrite HU. destruct Hforce as [[_ ->]|Hp]; [done|]. apply andb_false_iff. right.
    apply bool_decide_eq_false. rewrite s_in_bases_power, power_mul_s, power_div_s. lia. }
  destruct (correct_rows Qdiv Qmult to_s_value out q e unc1 n m true force2
              Hq' Hv He Hs1 Hu1 Hus1 Hg2) as (back & unc2 & Hback & Hu2 & Hs2 & Hus2 & Hi2).
  pose proof (correct_Ok_inv Qdiv Qmult to_s_value out back true force2 Hback)
    as (_ & _ & _ & _ & _ & HU2 & _).
  exists out, back, unc2. split; [done|]. split; [done|].
  split; [rewrite HU2, HU; apply mul_div_s|].
  do 3 (split; [done|]). intros i j Hi Hj.
  destruct (Hi1 i j Hi Hj) as [Hd1 Hun1]. destruct (Hi2 i j Hi Hj) as [Hd2 Hun2].
  specialize (Hpos i Hi).
  assert (Hne : ~ (np.item e [i] == 0)%Q).
  { intros H0. rewrite H0 in Hpos. by apply Qlt_irrefl in Hpos. }
  rewrite Hd2, Hd1, Hun2, Hun1. split; by field.
Qed.
End RowsRoundTrip.

Section WorldTypesProofs.
Context {num Quantity : Type}.
Local Abbreviation Raster := (raster.Raster (num := num) (Quantity := Quantity)).
Context (dependent_data_axes : Raster -> string -> result raster.coord_axis).

Local Abbreviation step := (raster.world_type_to_pixel_axes dependent_data_axes).
Local Abbreviation pixel_axes := (raster._world_types_to_pixel_axes dependent_data_axes).

Lemma load_numbers : raster.load_module "numbers" = Raise (raster.name_error "numbers").
Proof. reflexivity. Qed.

Lemma step_not_ok (self : Raster) include dep name :
  is_ok (step self include dep name) = false.
Proof.
  unfold raster.world_type_to_pixel_axes.
  destruct (dependent_data_axes self name) as [axes|[]]; rewrite ?bind_Ok, ?bind_Raise;
    try done.
  all: destruct include.
  all: try (destruct (raster.extra_coords self) as [coords|]; [|done]).
  all: cbv zeta.
  all: try (destruct (_ || _); [done|]; destruct (_ =? 1);
            [destruct (coords !! name); [|done]|]).
  all: rewrite ?bind_Ok.
  all: try (destruct dep; [|done]).
  all: rewrite ?bind_Ok, load_numbers; done.
Qed.

(** X20.  [_world_types_to_pixel_axes] never returns for a name: every
    path through the first turn of its loop raises, at the latest where it
    reads [numbers], which the module does not import.  It returns the
    empty tuple when it is given no name and the raster has no world
    type. *)
Theorem world_types_to_pixel_axes_never_returns (self : Raster)
    (axes_names : list string) (include_extra_coords : bool) :
  (axes_names <> [] \/ raster.world_axis_physical_types self <> [] ->
     is_ok (pixel_axes self axes_names include_extra_coords) = false) /\
  (axes_names = [] -> raster.world_axis_physical_types self = [] ->
     pixel_axes self axes_names include_extra_coords = Ok []).
Proof.
  unfold raster._world_types_to_pixel_axes. split.
  - intros Hne.
    assert (Hnames : match axes_names with
                     | [] => raster.world_axis_physical_types self
                     | _ => axes_names end <> []).
    { destruct axes_names; [|done]. by destruct Hne. }
    destruct (match axes_names with [] => _ | _ => _ end) as [|name rest]; [done|].
    cbn [raster.world_types_to_pixel_axes_from].
    pose proof (step_not_ok self include_extra_coords None name) as Hstep.
    destruct (step self include_extra_coords None name); [done|]. by rewrite bind_Raise.
  - intros -> ->. done.
Qed.

Lemma bool_sum_filter {A} (f : A -> bool) (l : list A) :
  raster.bool_sum (f <$> l) = length (filter (fun x => f x = true) l).
Proof.
  induction l as [|x l IH]; [done|].
  rewrite fmap_cons, bool_sum_cons, filter_cons, IH.
  destruct (f x); [by rewrite decide_True | by rewrite decide_False].
Qed.

(** X21.  What [_world_types_to_pixel_axes] raises for its first name
    when it looks into the extra coordinates: "not unique" when more than
    one key contains the name, or when one does and the name is a world
    type; [KeyError] when the one key that contains the name is not the
    name itself; otherwise the error of the unbound [dependent_axes] or of
    the missing [numbers]. *)
Theorem world_types_to_pixel_axes_errors (self : Raster) (name : string)
    (rest : list string) coords :
  raster.extra_coords self = Some coords ->
  let containing := filter (fun key => raster.str_in name key = true)
                           (elements (dom coords)) in
  (1 < length containing ->
     (forall e, dependent_data_axes self name = Raise e -> exists m, e = ValueError m) ->
     pixel_axes self (name :: rest) true = Raise (ValueError raster.NOT_UNIQUE_ERROR)) /\
  (0 < length containing -> is_ok (dependent_data_axes self name) = true ->
     pixel_axes self (name :: rest) true = Raise (ValueError raster.NOT_UNIQUE_ERROR)) /\
  (length containing = 1 -> coords !! name = None ->
     (exists m, dependent_data_axes self name = Raise (ValueError m)) ->
     pixel_axes self (name :: rest) true = Raise (KeyError name)) /\
  (length containing = 0 ->
     (exists m, dependent_data_axes self name = Raise (ValueError m)) ->
     pixel_axes self (name :: rest) true =
     Raise (NameError "local variable 'dependent_axes' referenced before assignment")) /\
  (length containing = 0 -> is_ok (dependent_data_axes self name) = true ->
     pixel_axes self (name :: rest) true = Raise (raster.name_error "numbers")).
Proof.
  intros Hc containing.
  unfold raster._world_types_to_pixel_axes.
  cbn [raster.world_types_to_pixel_axes_from]. unfold raster.world_type_to_pixel_axes.
  rewrite Hc. cbv zeta. rewrite bool_sum_filter. fold containing.
  split; [|split; [|split; [|split]]].
  - intros Hn Hval.
    assert ((1 <? length containing) = true) as Hlt by (apply Nat.ltb_lt; lia).
    destruct (dependent_data_axes self name) as [axes|e] eqn:Ed.
    + rewrite bind_Ok, Hlt, orb_true_r. done.
    + destruct (Hval e eq_refl) as [m ->]. rewrite bind_Ok, Hlt, orb_true_r. done.
  - intros Hn Hok. destruct (dependent_data_axes self name) as [axes|e]; [|done].
    rewrite bind_Ok. assert ((0 <? length containing) = true) as -> by (apply Nat.ltb_lt; lia).
    done.
  - intros Hn Hnone [m ->]. rewrite bind_Ok, Hn, Hnone. done.
  - intros Hn [m ->]. rewrite bind_Ok, Hn. done.
  - intros Hn Hok. destruct (dependent_data_axes self name) as [axes|e]; [|done].
    rewrite bind_Ok, Hn. cbn [Nat.ltb Nat.leb andb orb Nat.eqb]. rewrite !bind_Ok, load_numbers.
    done.
Qed.
End WorldTypesProofs.

(** ** The further properties on the example data *)

Section ExtraWitnesses.
Import spectrogram_sequence.

Local Abbreviation example_init :=
  (RasterSequence_init (Meta := Datatypes.unit) examples.cube_ndim
     examples.cube_world_types examples.cube_spectral_name).

Lemma slice_scan_axis_types_laws_witness :
  exists types,
    _slice_scan_axis_types examples.raster_labels [examples.all; item_int 0] = Ok types /\
    length types + 1 = 3 /\
    types `sublist_of` examples.raster_labels /\
    (Forall (fun x => is_integral x = false) [examples.all; item_int 0] ->
     types = examples.raster_labels).
Proof.
  apply (slice_scan_axis_types_laws examples.raster_labels [examples.all; item_int 0]).
  - discriminate.
  - simpl. lia.
Defined.

Lemma slice_scan_axis_types_succeeds_iff_witness :
  _slice_scan_axis_types [Some "spectral"] [examples.all; examples.all] =
  Raise (IndexError "boolean index did not match indexed array").
Proof.
  apply (slice_scan_axis_types_succeeds_iff [Some "spectral"] [examples.all; examples.all]).
  simpl. lia.
Defined.

Lemma init_index_errors_witness :
  example_init [examples.raster_cube] (Some 3) tt = Raise (IndexError "index out of bounds").
Proof.
  destruct (init_index_errors examples.cube_ndim examples.cube_world_types
              examples.cube_spectral_name tt) as (_ & H & _).
  apply H. simpl. lia.
Defined.

Lemma init_success_invariants_witness :
  base examples.scans =
    mkSpectrogramSequence [examples.raster_cube; examples.raster_cube] (Some 0) tt /\
  exists cube0 rest, [examples.raster_cube; examples.raster_cube] = cube0 :: rest /\
    length (_single_scan_instrument_axes_types examples.scans) = examples.cube_ndim cube0 /\
    Forall is_Some (_single_scan_instrument_axes_types examples.scans) /\
    (forall k, _single_scan_instrument_axes_types examples.scans !! k
               = Some (Some SLIT_STEP_AXIS_NAME) <->
               Some 0 = Some k /\
               k ∉ where_equal (examples.cube_world_types cube0)
                               (examples.cube_spectral_name cube0)) /\
    (forall k, _single_scan_instrument_axes_types examples.scans !! k
               = Some (Some SPECTRAL_AXIS_NAME) <->
               k ∈ where_equal (examples.cube_world_types cube0)
                               (examples.cube_spectral_name cube0)) /\
    (forall j k,
       _single_scan_instrument_axes_types examples.scans !! j = Some (Some SLIT_AXIS_NAME) ->
       _single_scan_instrument_axes_types examples.scans !! k = Some (Some SLIT_AXIS_NAME) ->
       j = k).
Proof.
  apply (init_success_invariants examples.cube_ndim examples.cube_world_types
           examples.cube_spectral_name
           [examples.raster_cube; examples.raster_cube] (Some 0) tt examples.scans).
  reflexivity.
Defined.

Lemma instrument_axes_types_of_init_witness :
  exists cube0 rest, [examples.raster_cube; examples.raster_cube] = cube0 :: rest /\
    length (raster_instrument_axes_types examples.scans) = S (examples.cube_ndim cube0) /\
    (Some SLIT_STEP_AXIS_NAME ∉ SnS_instrument_axes_types examples.scans) /\
    SnS_instrument_axes_types examples.scans =
    Some SNS_AXIS_NAME ::
    (if bool_decide (0 ∈ where_equal (examples.cube_world_types cube0)
                                     (examples.cube_spectral_name cube0))
     then _single_scan_instrument_axes_types examples.scans
     else delete 0 (_single_scan_instrument_axes_types examples.scans)).
Proof.
  apply (instrument_axes_types_of_init examples.cube_ndim examples.cube_world_types
           examples.cube_spectral_name
           [examples.raster_cube; examples.raster_cube] (Some 0) tt examples.scans).
  reflexivity.
Defined.

Lemma sequence_correction_all_or_nothing_witness :
  SpectrogramSequence_apply_exposure_time_correction examples.reject_flat_cube
    examples.mixed_cubes false false false = Raise (ValueError "no exposure time") /\
  SpectrogramSequence_apply_exposure_time_correction examples.keep_cube
    examples.mixed_cubes false true false
  = Ok (Some examples.mixed_cubes, examples.mixed_cubes).
Proof.
  split.
  - apply (sequence_correction_all_or_nothing examples.reject_flat_cube
             examples.mixed_cubes false false false).
    exists 1, examples.single_pixel_cube. split; [reflexivity|]. split; [reflexivity|].
    intros [|j] cube' Hj Hc; [|lia]. injection Hc as <-. reflexivity.
  - apply (sequence_correction_all_or_nothing examples.keep_cube
             examples.mixed_cubes false true false).
    exists [examples.raster_cube; examples.single_pixel_cube; examples.raster_cube].
    split; [repeat constructor|]. split; reflexivity.
Defined.

Lemma raster_sequence_correction_witness :
  RasterSequence_apply_exposure_time_correction examples.cube_ndim
    examples.cube_world_types examples.cube_spectral_name examples.keep_cube
    examples.scans false true false = Ok (Some examples.scans, examples.scans) /\
  RasterSequence_apply_exposure_time_correction examples.cube_ndim
    examples.cube_world_types examples.cube_spectral_name examples.keep_cube
    (mkRasterSequence (mkSpectrogramSequence [] (Some 0) tt) [])
    false true false = Raise (IndexError "list index out of range").
Proof.
  split.
  - apply (raster_sequence_correction examples.cube_ndim examples.cube_world_types
             examples.cube_spectral_name examples.keep_cube examples.scans false false).
    exists [examples.raster_cube; examples.raster_cube], examples.scans.
    split; [repeat constructor|]. split; [reflexivity|]. split; reflexivity.
  - apply (raster_sequence_correction examples.cube_ndim examples.cube_world_types
             examples.cube_spectral_name examples.keep_cube
             (mkRasterSequence (mkSpectrogramSequence [] (Some 0) tt) []) false false).
    reflexivity.
Defined.

Lemma slice_as_raster_edges_witness :
  SequenceSlicer_getitem examples.sequence_getitem examples.scans_stepping_second
    (index_tuple [examples.all; examples.all])
  = Raise (IndexError "tuple index out of range").
Proof.
  destruct (slice_as_raster_edges examples.sequence_getitem examples.scans_stepping_second)
    as (_ & _ & H).
  apply (H [examples.all; examples.all] examples.scans_stepping_second 1); reflexivity.
Defined.

Lemma slice_as_SnS_axis_types_witness :
  exists types,
    SnSSlicer_getitem examples.sns_slice examples.sns_set_axes_types examples.scans
      (index_tuple [examples.all; item_int 0])
    = Ok (examples.sns_set_axes_types examples.scans types) /\
    types = [Some SLIT_STEP_AXIS_NAME; Some SPECTRAL_AXIS_NAME] /\
    types `sublist_of` examples.raster_labels /\
    length types + 1 = 3.
Proof.
  destruct (slice_as_SnS_axis_types examples.sns_slice examples.sns_set_axes_types
              examples.scans [examples.all; item_int 0] examples.scans eq_refl)
    as (_ & _ & H & _).
  apply (H None None None [item_int 0]); [reflexivity|]. simpl. lia.
Defined.

End ExtraWitnesses.

Section RasterWitnesses.
Import units.

Local Abbreviation example_correct :=
  (raster.apply_exposure_time_correction Qdiv Qmult (Quantity := np.value Q) Ok).

Lemma with_case_variants_coverage_witness :
  "lon" ∈ raster.SUPPORTED_LONGITUDE_NAMES /\
  "LON" ∈ raster.SUPPORTED_LONGITUDE_NAMES /\
  "Lon" ∈ raster.SUPPORTED_LONGITUDE_NAMES.
Proof.
  destruct (with_case_variants_coverage [".lon"; "longitude"; "lon"]) as (_ & _ & H).
  apply (H "lon"). apply (bool_decide_unpack _). by vm_compute.
Defined.

Lemma bound_axis_has_coordinate_witness :
  "exposure time" ∈ raster.SUPPORTED_EXPOSURE_NAMES /\
  exists coords entry, raster.extra_coords examples.scan = Some coords /\
    coords !! "exposure time" = Some entry /\
    raster._get_axis_coord examples.scan "exposure time" raster.extra_coords_loc
      = Ok (raster.value entry).
Proof.
  apply (bound_axis_has_coordinate examples.scan raster.SUPPORTED_EXPOSURE_NAMES
           "exposure time" raster.extra_coords_loc).
  by vm_compute.
Defined.

Lemma supported_key_gives_coordinate_witness :
  is_ok (raster.exposure_time examples.scan) = true.
Proof.
  destruct (supported_key_gives_coordinate examples.scan "exposure time"
              examples.exposure_coords) as (_ & _ & H & _).
  - reflexivity.
  - eexists. reflexivity.
  - apply H. apply (bool_decide_unpack _). by vm_compute.
Defined.

Lemma guards_forbid_repeating_witness :
  raster._calculate_exposure_time_correction Qdiv [examples.errors]
    (div photon s) (np.PyScalar 3%Q) false
  = Raise (ValueError raster.APPLY_EXPOSURE_TIME_ERROR).
Proof.
  destruct (guards_forbid_repeating Qdiv Qmult [examples.counts]
              [{| np.shape := np.shape examples.counts;
                  np.item := fun idx => Qdiv (np.item examples.counts idx) 2%Q |}]
              photon (div photon s) (np.PyScalar 2%Q)) as [H _].
  destruct H as [H _]; [reflexivity|]. apply H.
Defined.

Lemma correction_needs_exposure_time_witness :
  example_correct examples.spectrum true true =
  Raise (ValueError ("Exposure time" +:+ raster.AXIS_NOT_FOUND_ERROR +:+
                     raster.repr_list raster.SUPPORTED_EXPOSURE_NAMES)).
Proof.
  apply (correction_needs_exposure_time Qdiv Qmult Ok examples.spectrum true true).
  by vm_compute.
Defined.

Lemma scalar_exposure_time_any_rank_witness :
  np.ndim examples.hypercube = 4 /\
  exists out unc',
    example_correct examples.stare false false = Ok out /\
    np.shape (raster.data out) = np.shape examples.hypercube /\
    (forall idx, np.item (raster.data out) idx = Qdiv (np.item examples.hypercube idx) 2%Q) /\
    raster.uncertainty out = Some unc' /\
    np.shape unc' = np.shape examples.hypercube /\
    (forall idx, np.item unc' idx = Qdiv (np.item examples.hypercube idx) 2%Q).
Proof.
  split; [reflexivity|].
  apply (scalar_exposure_time_any_rank Qdiv Qmult Ok examples.stare
           (np.PyScalar 2%Q) 2%Q examples.hypercube false false).
  - by vm_compute.
  - reflexivity.
  - reflexivity.
  - right. by vm_compute.
Defined.

Lemma correction_not_repeatable_witness :
  is_ok (example_correct examples.corrected_scan false false) = false.
Proof.
  apply (correction_not_repeatable Qdiv Qmult Ok examples.scan examples.corrected_scan false).
  reflexivity.
Defined.

Lemma raster_sequence_copy_and_failures_witness :
  raster.sequence.apply_exposure_time_correction Qdiv Qmult Ok
    examples.raster_py_scans false true false =
  Raise (TypeError "__init__() got an unexpected keyword argument 'common_axis'").
Proof.
  destruct (raster_sequence_copy_and_failures Qdiv Qmult Ok
              examples.raster_py_scans false false) as (_ & H & _).
  destruct (H [examples.corrected_scan; examples.corrected_scan]) as [Hcopy _].
  - repeat constructor.
  - exact Hcopy.
Defined.

Lemma raster_round_trip_witness :
  exists out back unc2,
    example_correct examples.stare false false = Ok out /\
    example_correct out true false = Ok back /\
    eq (raster.unit back) photon /\
    np.shape (raster.data back) = np.shape examples.hypercube /\
    (forall idx, (np.item (raster.data back) idx == np.item examples.hypercube idx)%Q) /\
    raster.uncertainty back = Some unc2 /\
    np.shape unc2 = np.shape examples.hypercube /\
    (forall idx, (np.item unc2 idx == np.item examples.hypercube idx)%Q).
Proof.
  apply (raster_round_trip Ok examples.stare (np.PyScalar 2%Q) 2%Q
           examples.hypercube false false).
  - by vm_compute.
  - reflexivity.
  - reflexivity.
  - reflexivity.
  - right. by vm_compute.
Defined.

Lemma raster_round_trip_per_row_witness :
  exists out back unc2,
    example_correct examples.scan false false = Ok out /\
    example_correct out true false = Ok back /\
    eq (raster.unit back) photon /\
    np.shape (raster.data back) = [2; 3] /\
    raster.uncertainty back = Some unc2 /\
    np.shape unc2 = [2; 3] /\
    forall i j, i < 2 -> j < 3 ->
      (np.item (raster.data back) [i; j] == np.item examples.counts [i; j])%Q /\
      (np.item unc2 [i; j] == np.item examples.errors [i; j])%Q.
Proof.
  apply (raster_round_trip_per_row Ok examples.scan (np.Array examples.exposures)
           examples.exposures examples.errors 2 3 false false).
  - by vm_compute.
  - reflexivity.
  - reflexivity.
  - intros [|[|i]] Hi; [reflexivity|reflexivity|lia].
  - reflexivity.
  - reflexivity.
  - reflexivity.
  - right. by vm_compute.
Defined.

Lemma world_types_to_pixel_axes_never_returns_witness :
  is_ok (raster._world_types_to_pixel_axes examples.wcs_axes examples.scan ["time"] true)
  = false.
Proof.
  apply (world_types_to_pixel_axes_never_returns examples.wcs_axes examples.scan
           ["time"] true).
  left. discriminate.
Defined.

Lemma world_types_to_pixel_axes_errors_witness :
  raster._world_types_to_pixel_axes examples.wcs_axes examples.scan ["exposure"] true
  = Raise (KeyError "exposure").
Proof.
  destruct (world_types_to_pixel_axes_errors examples.wcs_axes examples.scan
              "exposure" [] examples.exposure_coords eq_refl) as (_ & _ & H & _).
  apply H.
  - by vm_compute.
  - by vm_compute.
  - exists "axis name not found". by vm_compute.
Defined.

End RasterWitnesses.
